(** * go-sccp: SCMG and UDT codecs and the subsystem state manager

    A shallow embedding of the SCMG codec, of the UDT codec of [udt.go]
    (Unitdata PDUs with their relative pointers) and of the subsystem
    registry of [sccp.go] with the state methods that come with the SCMG
    codec, followed by the properties the specification states about
    them.

    Conventions.  A Go [uint8]/[uint16]/[int] is a [Z]; the places where
    the source truncates are written out with [uint8].  A byte slice is
    a [list Z].  A method that mutates its receiver (or the buffer it was
    handed) and returns an [error] is a computation in the monad [M]
    below: the state is threaded through, and stays as it was left when
    the method returns early. *)

From Stdlib Require Import ZArith Lia.
From stdpp Require Import base list strings pretty gmap fin_maps.

Local Open Scope Z_scope.

(** ** Errors, results and the state monad *)

Inductive error : Type :=
| ErrUnexpectedEOF                     (* io.ErrUnexpectedEOF *)
| ErrProtocolClassNil                  (* "protocol class is nil" *)
| ErrInvalidProtocolClass (class : Z)  (* "invalid protocol class %d for UDT message" *)
| ErrEntryNotFound (pc ssn : Z)        (* "SSN entry not found: PC=%d, SSN=%d" *)
| ErrNotLocal.                         (* "cannot change state of remote subsystem" *)

(** [Panic] stands for a Go run-time panic (index or slice bounds out of
    range, nil dereference). *)
Inductive result (A : Type) : Type :=
| Ok (a : A)
| Err (e : error)
| Panic.
Arguments Ok {A} a.
Arguments Err {A} e.
Arguments Panic {A}.

Definition M (S A : Type) : Type := S → S * result A.

Definition ret {S A} (a : A) : M S A := λ s, (s, Ok a).
Definition fail {S A} (e : error) : M S A := λ s, (s, Err e).
Definition panic {S A} : M S A := λ s, (s, Panic).
Definition bind {S A B} (m : M S A) (k : A → M S B) : M S B :=
  λ s, match m s with
       | (s', Ok a) => k a s'
       | (s', Err e) => (s', Err e)
       | (s', Panic) => (s', Panic)
       end.
Definition get {S} : M S S := λ s, (s, Ok s).
Definition modify {S} (f : S → S) : M S unit := λ s, (f s, Ok tt).
(** A pure, fallible read lifted into the monad. *)
Definition lift {S A} (r : result A) : M S A := λ s, (s, r).

Notation "'do' x <- m ; k" := (bind m (λ x, k))
  (at level 10, x name, m at level 100, k at level 200, only parsing).
Notation "m ;;; k" := (bind m (λ _, k))
  (at level 100, k at level 200, right associativity, only parsing).

(** ** Octets and slices *)

Definition uint8 (x : Z) : Z := x mod 256.

Definition is_uint8 (x : Z) : Prop := 0 ≤ x < 256.
Definition is_uint16 (x : Z) : Prop := 0 ≤ x < 65536.

Definition len (b : list Z) : Z := Z.of_nat (length b).

(** [b[i]] as a read: out of range panics. *)
Definition index (b : list Z) (i : Z) : result Z :=
  if 0 <=? i then
    match b !! Z.to_nat i with Some x => Ok x | None => Panic end
  else Panic.

(** [b[i] = v]. *)
Definition store (i v : Z) : M (list Z) unit :=
  λ b, if (0 <=? i) && (i <? len b)
       then (<[Z.to_nat i := v]> b, Ok tt) else (b, Panic).

(** [b[lo:hi]] (the capacity of a buffer is its length). *)
Definition slice (b : list Z) (lo hi : Z) : result (list Z) :=
  if (0 <=? lo) && (lo <=? hi) && (hi <=? len b)
  then Ok (take (Z.to_nat (hi - lo)) (drop (Z.to_nat lo) b))
  else Panic.

(** The buffer after the octets [s] were written through a slice that
    starts at [lo]: a slice shares its array with the buffer. *)
Definition splice (b : list Z) (lo : Z) (s : list Z) : list Z :=
  take (Z.to_nat lo) b ++ s ++ drop (Z.to_nat lo + length s)%nat b.

(** Hands [b[lo:hi]] to a writer and keeps what it wrote. *)
Definition with_slice {A} (lo hi : Z) (w : list Z → result (list Z * A))
  : M (list Z) A :=
  λ b, match slice b lo hi with
       | Ok s =>
           match w s with
           | Ok (s', a) => (splice b lo s', Ok a)
           | Err e => (b, Err e)
           | Panic => (b, Panic)
           end
       | Err e => (b, Err e)
       | Panic => (b, Panic)
       end.

(** [encoding/binary], little endian. *)
Module LittleEndian.

Definition PutUint16 (s : list Z) (v : Z) : result (list Z * unit) :=
  if 2 <=? len s
  then Ok (<[1%nat := uint8 (v ≫ 8)]> (<[0%nat := uint8 v]> s), tt)
  else Panic.

Definition Uint16 (s : list Z) : result Z :=
  match s !! 0%nat, s !! 1%nat with
  | Some lo, Some hi => Ok (Z.lor lo (hi ≪ 8))
  | _, _ => Panic
  end.

End LittleEndian.

(** ** SCMG: SCCP management messages *)

Module SCMG.

(* Table 23/Q.713 *)
Definition SCMGTypeSSA : Z := 1.
Definition SCMGTypeSSP : Z := 2.
Definition SCMGTypeSST : Z := 3.
Definition SCMGTypeSOR : Z := 4.
Definition SCMGTypeSOG : Z := 5.
Definition SCMGTypeSSC : Z := 6.

Record SCMG : Type := mkSCMG {
  Type_ : Z;                               (* SCMGType, a uint8 *)
  AffectedSSN : Z;                         (* uint8 *)
  AffectedPC : Z;                          (* uint16 *)
  SubsystemMultiplicityIndicator : Z;      (* uint8 *)
  SCCPCongestionLevel : Z                  (* uint8 *)
}.

Definition NewSCMG (typ assn apc smi scl : Z) : SCMG :=
  mkSCMG typ assn apc smi scl.

(** The zero value [SCMG{}]. *)
Definition zero : SCMG := mkSCMG 0 0 0 0 0.

Definition set_Type (v : Z) (s : SCMG) : SCMG :=
  mkSCMG v (AffectedSSN s) (AffectedPC s)
         (SubsystemMultiplicityIndicator s) (SCCPCongestionLevel s).
Definition set_AffectedSSN (v : Z) (s : SCMG) : SCMG :=
  mkSCMG (Type_ s) v (AffectedPC s)
         (SubsystemMultiplicityIndicator s) (SCCPCongestionLevel s).
Definition set_AffectedPC (v : Z) (s : SCMG) : SCMG :=
  mkSCMG (Type_ s) (AffectedSSN s) v
         (SubsystemMultiplicityIndicator s) (SCCPCongestionLevel s).
Definition set_SubsystemMultiplicityIndicator (v : Z) (s : SCMG) : SCMG :=
  mkSCMG (Type_ s) (AffectedSSN s) (AffectedPC s) v (SCCPCongestionLevel s).
Definition set_SCCPCongestionLevel (v : Z) (s : SCMG) : SCMG :=
  mkSCMG (Type_ s) (AffectedSSN s) (AffectedPC s)
         (SubsystemMultiplicityIndicator s) v.

Definition MarshalLen (s : SCMG) : Z :=
  (* Table 24/Q.713 – SCMG messages *)
  let l := 5 in
  (* Table 25/Q.713 – SSC *)
  if Type_ s =? SCMGTypeSSC then l + 1 else l.

Definition MarshalTo (s : SCMG) : M (list Z) unit :=
  do b <- get;
  let l := len b in
  if l <? MarshalLen s then fail ErrUnexpectedEOF else
  store 0 (Type_ s);;;
  store 1 (AffectedSSN s);;;
  with_slice 2 4 (λ b24, LittleEndian.PutUint16 b24 (AffectedPC s));;;
  store 4 (SubsystemMultiplicityIndicator s);;;
  (if Type_ s =? SCMGTypeSSC
   then store 5 (SCCPCongestionLevel s) else ret tt);;;
  ret tt.

Definition MarshalBinary (s : SCMG) : result (list Z) :=
  let b := replicate (Z.to_nat (MarshalLen s)) 0 in
  match MarshalTo s b with
  | (b', Ok _) => Ok b'
  | (_, Err e) => Err e
  | (_, Panic) => Panic
  end.

(** The receiver is the state: it keeps the fields assigned before an
    early return. *)
Definition UnmarshalBinary (b : list Z) : M SCMG unit :=
  let l := len b in
  if l <? 5 then fail ErrUnexpectedEOF else
  do b0 <- lift (index b 0); modify (set_Type b0);;;
  do b1 <- lift (index b 1); modify (set_AffectedSSN b1);;;
  do b24 <- lift (slice b 2 4);
  do pc <- lift (LittleEndian.Uint16 b24); modify (set_AffectedPC pc);;;
  do b4 <- lift (index b 4);
  modify (set_SubsystemMultiplicityIndicator b4);;;
  do s <- get;
  if Type_ s =? SCMGTypeSSC then
    if l <? 6 then fail ErrUnexpectedEOF else
    do b5 <- lift (index b 5); modify (set_SCCPCongestionLevel b5)
  else ret tt.

Definition ParseSCMG (b : list Z) : result SCMG :=
  match UnmarshalBinary b zero with
  | (s, Ok _) => Ok s
  | (_, Err e) => Err e
  | (_, Panic) => Panic
  end.

(** Every field fits its Go type. *)
Definition wf (s : SCMG) : Prop :=
  is_uint8 (Type_ s) ∧ is_uint8 (AffectedSSN s) ∧ is_uint16 (AffectedPC s) ∧
  is_uint8 (SubsystemMultiplicityIndicator s) ∧
  is_uint8 (SCCPCongestionLevel s).

End SCMG.

(** ** Parameter sub-codecs (package params) *)

Module params.

(** Modelled from the spec: the ProtocolClass parameter of package
    [params], whose source is not among the files of the core.  It is
    one octet on the wire; the low nibble is the class and the high bit
    (0x80) is return-on-error (§6, sub-codec contracts). *)
Record ProtocolClass : Type := mkProtocolClass { octet : Z }.

Definition NewProtocolClass (pcls : Z) (retOnErr : bool) : ProtocolClass :=
  mkProtocolClass (Z.lor (Z.land pcls 15) (if retOnErr then 128 else 0)).

Definition GetProtocolClass (p : ProtocolClass) : Z := Z.land (octet p) 15.
Definition HasReturnOption (p : ProtocolClass) : bool := Z.testbit (octet p) 7.

Module ProtocolClassCodec.
Definition MarshalLen (p : ProtocolClass) : Z := 1.
Definition Write (p : ProtocolClass) (s : list Z) : result (list Z * Z) :=
  if len s <? 1 then Err ErrUnexpectedEOF
  else Ok (<[0%nat := octet p]> s, 1).
End ProtocolClassCodec.

(** Modelled from the spec: a party address is opaque to the core.  On
    the wire it is a length octet [L] followed by [L] octets (invariant
    P2), and [marshal_len] counts the length octet (invariant P3; the
    comment in [UDT.MarshalLen] agrees: 11 address octets, MarshalLen
    12). *)
Record PartyAddress : Type := mkPartyAddress { address_octets : list Z }.

Module PartyAddressCodec.
Definition MarshalLen (p : PartyAddress) : Z := 1 + len (address_octets p).
Definition Write (p : PartyAddress) (s : list Z) : result (list Z * Z) :=
  if len s <? MarshalLen p then Err ErrUnexpectedEOF
  else Ok (uint8 (len (address_octets p)) :: address_octets p
             ++ drop (1 + length (address_octets p))%nat s,
           MarshalLen p).
End PartyAddressCodec.

(** Modelled from the spec: parsing reads the length octet and takes
    that many octets.  This reader looks at the length only: it takes
    every slice that holds as many octets as its length octet says, the
    empty address too, and refuses only by the unexpected end.  The
    reader of the package may refuse more; what depends on a reader
    taking or refusing a slice is stated over any readers, with the
    decoder of [UDTOver]. *)
Definition ParsePartyAddress (s : list Z) : result (PartyAddress * Z) :=
  match s with
  | [] => Err ErrUnexpectedEOF
  | L :: rest =>
      if len rest <? L then Err ErrUnexpectedEOF
      else Ok (mkPartyAddress (take (Z.to_nat L) rest), 1 + L)
  end.
Definition ParseCalledPartyAddress := ParsePartyAddress.
Definition ParseCallingPartyAddress := ParsePartyAddress.

(** Modelled from the spec: the Data parameter, built from raw octets
    and carried behind a one-octet length like the addresses. *)
Record Data : Type := mkData { value : list Z }.

Definition NewData (data : list Z) : Data := mkData data.

Module DataCodec.
Definition MarshalLen (d : Data) : Z := 1 + len (value d).
Definition Write (d : Data) (s : list Z) : result (list Z * Z) :=
  if len s <? MarshalLen d then Err ErrUnexpectedEOF
  else Ok (uint8 (len (value d)) :: value d
             ++ drop (1 + length (value d))%nat s,
           MarshalLen d).
(** [d.Read(s)]: the receiver is the state. *)
Definition Read (s : list Z) : M Data Z :=
  match s with
  | [] => fail ErrUnexpectedEOF
  | L :: rest =>
      if len rest <? L then fail ErrUnexpectedEOF
      else modify (λ _, mkData (take (Z.to_nat L) rest));;; ret (1 + L)
  end.
End DataCodec.

End params.

(** ** UDT: Unitdata (udt.go) *)

Module UDT.
Import params.

Definition MsgTypeUDT : Z := 9.

Record UDT : Type := mkUDT {
  Type_ : Z;                                   (* MsgType, a uint8 *)
  ProtocolClass : option params.ProtocolClass; (* nil is None *)
  SLS : Z;
  CalledPartyAddress : option PartyAddress;
  CallingPartyAddress : option PartyAddress;
  Data : option params.Data;
  ptr1 : Z; ptr2 : Z; ptr3 : Z                 (* uint8 *)
}.

(** The zero value [UDT{}]. *)
Definition zero : UDT := mkUDT 0 None 0 None None None 0 0 0.

Definition set_Type (v : Z) (u : UDT) : UDT :=
  mkUDT v (ProtocolClass u) (SLS u) (CalledPartyAddress u)
        (CallingPartyAddress u) (Data u) (ptr1 u) (ptr2 u) (ptr3 u).
Definition set_CalledPartyAddress (v : option PartyAddress) (u : UDT) : UDT :=
  mkUDT (Type_ u) (ProtocolClass u) (SLS u) v
        (CallingPartyAddress u) (Data u) (ptr1 u) (ptr2 u) (ptr3 u).
Definition set_CallingPartyAddress (v : option PartyAddress) (u : UDT) : UDT :=
  mkUDT (Type_ u) (ProtocolClass u) (SLS u) (CalledPartyAddress u)
        v (Data u) (ptr1 u) (ptr2 u) (ptr3 u).
Definition set_Data (v : option params.Data) (u : UDT) : UDT :=
  mkUDT (Type_ u) (ProtocolClass u) (SLS u) (CalledPartyAddress u)
        (CallingPartyAddress u) v (ptr1 u) (ptr2 u) (ptr3 u).
Definition set_ptr1 (v : Z) (u : UDT) : UDT :=
  mkUDT (Type_ u) (ProtocolClass u) (SLS u) (CalledPartyAddress u)
        (CallingPartyAddress u) (Data u) v (ptr2 u) (ptr3 u).
Definition set_ptr2 (v : Z) (u : UDT) : UDT :=
  mkUDT (Type_ u) (ProtocolClass u) (SLS u) (CalledPartyAddress u)
        (CallingPartyAddress u) (Data u) (ptr1 u) v (ptr3 u).
Definition set_ptr3 (v : Z) (u : UDT) : UDT :=
  mkUDT (Type_ u) (ProtocolClass u) (SLS u) (CalledPartyAddress u)
        (CallingPartyAddress u) (Data u) (ptr1 u) (ptr2 u) v.

(** protocol class validation for UDT *)
Definition ValidateProtocolClass (u : UDT) : result unit :=
  match ProtocolClass u with
  | None => Err ErrProtocolClassNil
  | Some p =>
      let class := GetProtocolClass p in
      if negb (class =? 0) && negb (class =? 1)
      then Err (ErrInvalidProtocolClass class)
      else Ok tt
  end.

Definition IsValidForProcessing (u : UDT) : bool :=
  match ValidateProtocolClass u with Ok _ => true | _ => false end.

(** [cdpa] and [cgpa] are the addresses behind non-nil pointers.  The
    arithmetic is that of [uint8]. *)
Definition NewUDT (pcls : Z) (retOnErr : bool) (cdpa cgpa : PartyAddress)
    (data : list Z) : UDT :=
  let u := mkUDT MsgTypeUDT (Some (NewProtocolClass pcls retOnErr)) 0
                 (Some cdpa) (Some cgpa) (Some (NewData data)) 0 0 0 in
  let u := set_ptr1 3 u in
  let u := set_ptr2
    (uint8 (uint8 (ptr1 u + uint8 (PartyAddressCodec.MarshalLen cdpa)) - 1)) u in
  let u := set_ptr3
    (uint8 (uint8 (ptr2 u + uint8 (PartyAddressCodec.MarshalLen cgpa)) - 1)) u in
  u.

Definition MarshalLen (u : UDT) : Z :=
  let l := 1 in     (* Message Type *)
  let l := l + 1 in (* Protocol Class *)
  let l := l + 1 in (* SLS *)
  let l := l + 3 in (* Three pointer bytes *)
  let l := match CalledPartyAddress u with
           | Some _ => l + (1 + 11)
           | None => l
           end in
  let l := match CallingPartyAddress u with
           | Some _ => l + (1 + 11)
           | None => l
           end in
  let l := match Data u with
           | Some d => l + (1 + DataCodec.MarshalLen d)
           | None => l
           end in
  l.

(** A method called through a nil pointer panics. *)
Definition through {A B} (o : option A) (f : A → result B) : result B :=
  match o with Some a => f a | None => Panic end.

Definition MarshalTo (u : UDT) : M (list Z) unit :=
  do b <- get;
  let l := len b in
  if l <? 6 then fail ErrUnexpectedEOF else
  store 0 (Type_ u);;;
  let n := 1 in
  do m <- with_slice 1 l
            (λ s, through (ProtocolClass u) (λ p, ProtocolClassCodec.Write p s));
  let n := n + m in
  store n (ptr1 u);;;
  store (n + 1) (ptr2 u);;;
  store (n + 2) (ptr3 u);;;
  let n := n + 3 in
  let cdpaEnd := uint8 (ptr2 u + 3) in
  let cgpaEnd := uint8 (ptr3 u + 4) in
  with_slice n cdpaEnd
    (λ s, through (CalledPartyAddress u) (λ p, PartyAddressCodec.Write p s));;;
  with_slice cdpaEnd cgpaEnd
    (λ s, through (CallingPartyAddress u) (λ p, PartyAddressCodec.Write p s));;;
  with_slice cgpaEnd l
    (λ s, through (Data u) (λ d, DataCodec.Write d s));;;
  ret tt.

Definition MarshalBinary (u : UDT) : result (list Z) :=
  let b := replicate (Z.to_nat (MarshalLen u)) 0 in
  match MarshalTo u b with
  | (b', Ok _) => Ok b'
  | (_, Err e) => Err e
  | (_, Panic) => Panic
  end.

(** [u.F, _, err = parse(...)]: the field is assigned whatever the
    parser returned, then the error is looked at. *)
Definition assign_parsed (set : option PartyAddress → UDT → UDT)
    (r : result (PartyAddress * Z)) : M UDT unit :=
  match r with
  | Ok (a, _) => modify (set (Some a))
  | Err e => modify (set None);;; fail e
  | Panic => panic
  end.

(** [u.Data = &params.Data{}] followed by [u.Data.Read(s)]. *)
Definition read_Data (s : list Z) : M UDT Z :=
  λ u, let '(d, r) := DataCodec.Read s (mkData []) in
       (set_Data (Some d) u, r).

Definition UnmarshalBinary (b : list Z) : M UDT unit :=
  let l := len b in
  if l <=? 4 then fail ErrUnexpectedEOF else
  do b0 <- lift (index b 0); modify (set_Type b0);;;
  let offset := 1 in
  do p1 <- lift (index b offset); modify (set_ptr1 p1);;;
  do p2 <- lift (index b (offset + 1)); modify (set_ptr2 p2);;;
  do p3 <- lift (index b (offset + 2)); modify (set_ptr3 p3);;;
  (* Called Party Address *)
  let offsetPtr1 := offset + p1 in
  if l <? offsetPtr1 + 1 then fail ErrUnexpectedEOF else
  do cdpaLen <- lift (index b offsetPtr1);
  let cdpaEnd := offsetPtr1 + cdpaLen + 1 in
  (* Calling Party Address - starts after Called Party Address; the
     value [offset + int(u.ptr2)] first given to offsetPtr2 is dropped *)
  let offsetPtr2 := cdpaEnd in
  if l <? offsetPtr2 + 1 then fail ErrUnexpectedEOF else
  do cgpaLen <- lift (index b offsetPtr2);
  let cgpaEnd := offsetPtr2 + cgpaLen + 1 in
  (* Data section *)
  let offsetPtr3 := cgpaEnd in
  if l <? offsetPtr3 + 1 then fail ErrUnexpectedEOF else
  do dataLen <- lift (index b offsetPtr3);
  let dataEnd := offsetPtr3 + dataLen + 1 in
  if (l <? cdpaEnd) || (l <? cgpaEnd) || (l <? dataEnd)
  then fail ErrUnexpectedEOF else
  do s1 <- lift (slice b offsetPtr1 cdpaEnd);
  assign_parsed set_CalledPartyAddress (ParseCalledPartyAddress s1);;;
  do s2 <- lift (slice b offsetPtr2 cgpaEnd);
  assign_parsed set_CallingPartyAddress (ParseCallingPartyAddress s2);;;
  do s3 <- lift (slice b offsetPtr3 dataEnd);
  read_Data s3;;;
  ret tt.

End UDT.

(** Two buffers that are equal except at offsets 2 and 3. *)
Definition agree_but_ptr2_ptr3 (b b' : list Z) : Prop :=
  length b = length b' ∧
  ∀ i : nat, i ≠ 2%nat → i ≠ 3%nat → b !! i = b' !! i.

(** ** Frames of the specification's scenarios *)

Module Scenario.
Import params UDT.

(** S3: two addresses of 11 octets (address indicator, subsystem
    number, global title) and the payload AA BB CC. *)
Definition called : PartyAddress :=
  mkPartyAddress
    [0x12; 0x06; 0x00; 0x11; 0x04; 0x21; 0x43; 0x65; 0x87; 0x09; 0x21].
Definition calling : PartyAddress :=
  mkPartyAddress
    [0x12; 0x08; 0x00; 0x11; 0x04; 0x21; 0x43; 0x65; 0x87; 0x09; 0x22].
Definition payload : list Z := [0xAA; 0xBB; 0xCC].

Definition S3 : UDT := NewUDT 1 true called calling payload.

(** What [MarshalBinary] returns for [S3]: 33 octets of message and
    the two octets that [MarshalLen] counts in excess. *)
Definition S3_frame : list Z :=
  [0x09; 0x81; 3; 14; 25;
   0x0B; 0x12; 0x06; 0x00; 0x11; 0x04; 0x21; 0x43; 0x65; 0x87; 0x09; 0x21;
   0x0B; 0x12; 0x08; 0x00; 0x11; 0x04; 0x21; 0x43; 0x65; 0x87; 0x09; 0x22;
   0x03; 0xAA; 0xBB; 0xCC; 0; 0].

(** S4: the same frame with protocol class 2 at offset 1. *)
Definition S4_frame : list Z := <[1%nat := 0x02]> S3_frame.

(** Two frames that differ at offset 3 only.  Their octet at offset 1
    is 1, so that the decoder starts the Called Party Address at
    offset 2. *)
Definition overlap_frame (x : Z) : list Z :=
  [0x09; 1; 2; x; 0x08; 2; 0x42; 0x06; 1; 0xAA].

(** Two frames that differ at offsets 2 and 3 only, with 3 at
    offset 1. *)
Definition plain_frame (x y : Z) : list Z :=
  [0x09; 3; x; y; 2; 0x42; 0x08; 2; 0x42; 0x06; 1; 0xAA].

End Scenario.

(** ** The subsystem state manager (sccp.go and the SCMG source)

    Entries live behind pointers: the registry maps a key to a pointer
    and [heap] maps a pointer to the entry it points to.  The locks are
    not modelled: every method runs to its end on its own.  [time.Now()]
    is the argument [now].  A callback is a collaborator of the manager:
    its slot is either nil or set, and a call through a slot that is set
    is recorded in [calls]. *)

Module SSN.

(** The two values that the code gives to a state. *)
Inductive SSNState : Type :=
| SSNStateProhibited   (* Out of Service *)
| SSNStateAllowed.     (* In Service *)

Inductive StateChangeReason : Type :=
| ReasonUserInitiated
| ReasonNetworkInitiated
| ReasonTestTimeout
| ReasonTestResponse.

Inductive BroadcastType : Type :=
| BroadcastSSA   (* Subsystem Allowed *)
| BroadcastSSP.  (* Subsystem Prohibited *)

Global Instance SSNState_eq_dec : EqDecision SSNState.
Proof. solve_decision. Defined.

Record SSNEntry : Type := mkSSNEntry {
  SSN : Z;
  PointCode : Z;
  State : SSNState;
  IsLocal : bool;
  LastStateChange : Z;
  TestTimer : option nat;     (* nil, or a timer *)
  TestInterval : Z;
  TestRetries : Z;
  MaxTestRetries : Z
}.

(** A pointer to an entry. *)
Abbreviation ptr := nat.

Record SSNStateManager : Type := mkSSNStateManager {
  entries : gmap string nat;      (* key: "pc:ssn" *)
  (* Configuration *)
  DefaultTestInterval : Z;
  MaxTestInterval : Z;
  MaxTestRetries_ : Z;            (* MaxTestRetries of the manager *)
  (* Callbacks: is the slot set? *)
  OnStateChange : bool;
  OnBroadcast : bool
}.

Inductive call : Type :=
| CallOnStateChange (e : ptr) (st : SSNState) (r : StateChangeReason)
| CallOnBroadcast (t : BroadcastType) (e : ptr).

Record world : Type := mkWorld {
  heap : gmap nat SSNEntry;
  sm : SSNStateManager;
  calls : list call
}.

Definition second : Z := 1000000000.

Definition NewSSNStateManager : SSNStateManager :=
  mkSSNStateManager ∅ (30 * second) (300 * second) 5 false false.

Definition set_entries (m : gmap string nat) (s : SSNStateManager)
  : SSNStateManager :=
  mkSSNStateManager m (DefaultTestInterval s) (MaxTestInterval s)
                    (MaxTestRetries_ s) (OnStateChange s) (OnBroadcast s).

Definition deref (e : ptr) : M world SSNEntry :=
  λ w, match heap w !! e with
       | Some x => (w, Ok x)
       | None => (w, Panic)
       end.

Definition assign (e : ptr) (x : SSNEntry) : M world unit :=
  modify (λ w, mkWorld (<[e := x]> (heap w)) (sm w) (calls w)).

Definition invoke (c : call) : M world unit :=
  modify (λ w, mkWorld (heap w) (sm w) (calls w ++ [c])).

(* State check methods *)
Definition IsAllowed (s : ptr) : M world bool :=
  do x <- deref s; ret (bool_decide (State x = SSNStateAllowed)).

Definition IsProhibited (s : ptr) : M world bool :=
  do x <- deref s; ret (bool_decide (State x = SSNStateProhibited)).

Definition MarkAllowed (now : Z) (s : ptr) : M world unit :=
  do x <- deref s;
  assign s (mkSSNEntry (SSN x) (PointCode x) SSNStateAllowed (IsLocal x) now
              (TestTimer x) (TestInterval x) (TestRetries x)
              (MaxTestRetries x)).

Definition MarkProhibited (now : Z) (s : ptr) : M world unit :=
  do x <- deref s;
  assign s (mkSSNEntry (SSN x) (PointCode x) SSNStateProhibited (IsLocal x)
              now (TestTimer x) (TestInterval x) (TestRetries x)
              (MaxTestRetries x)).

(** [fmt.Sprintf("%d:%d", pc, ssn)] *)
Definition getKey (pc ssn : Z) : string :=
  pretty pc +:+ ":" +:+ pretty ssn.

(** A missing key reads as the nil pointer. *)
Definition GetEntry (pc ssn : Z) : M world (option ptr) :=
  do w <- get; ret (entries (sm w) !! getKey pc ssn).

(** [&SSNEntry{...}] allocates: the pointer is one the heap does not
    hold yet. *)
Definition AddEntry (now : Z) (pc ssn : Z) (isLocal : bool) : M world ptr :=
  do w <- get;
  let key := getKey pc ssn in
  let entry := fresh (dom (heap w)) in
  assign entry
    (mkSSNEntry ssn pc
       SSNStateProhibited (* Start as prohibited *)
       isLocal now None (DefaultTestInterval (sm w)) 0
       (MaxTestRetries_ (sm w)));;;
  modify (λ w, mkWorld (heap w)
                 (set_entries (<[key := entry]> (entries (sm w))) (sm w))
                 (calls w));;;
  ret entry.

(** HandleUserInService - Handle N-STATE Request with UIS *)
Definition HandleUserInService (now : Z) (pc ssn : Z) : M world unit :=
  do entry <- GetEntry pc ssn;
  match entry with
  | None => fail (ErrEntryNotFound pc ssn)
  | Some entry =>
      do x <- deref entry;
      if negb (IsLocal x) then fail ErrNotLocal else
      do prohibited <- IsProhibited entry;
      if prohibited then
        MarkAllowed now entry;;;
        (* Trigger callbacks *)
        (do w <- get;
         if OnStateChange (sm w)
         then invoke (CallOnStateChange entry SSNStateAllowed
                        ReasonUserInitiated)
         else ret tt);;;
        (* Broadcast SSA to network *)
        (do w <- get;
         if OnBroadcast (sm w)
         then invoke (CallOnBroadcast BroadcastSSA entry)
         else ret tt);;;
        ret tt
      else ret tt
  end.

End SSN.

(** ** Worlds of the manager used in the scenarios *)

Module World.
Import SSN.

(** A manager with both callbacks set, and the world it starts in. *)
Definition listening : world :=
  mkWorld ∅ (mkSSNStateManager ∅ (30 * second) (300 * second) 5 true true) [].

(** A local subsystem was registered at time 5 and put in service at
    time 6. *)
Definition in_service : world :=
  fst (HandleUserInService 6 10 7 (fst (AddEntry 5 10 7 true listening))).

End World.

(** ** The rest of udt.go *)

Module Address.

Definition createSCCPAddress (ai pc ssn : Z) : list Z :=
  let addr : list Z := [] in
  (* Address Indicator *)
  let addr := addr ++ [ai] in
  (* Point Code (2 bytes, little endian) *)
  let addr := addr ++ [uint8 (Z.land pc 0xFF)] in        (* Low byte *)
  let addr := addr ++ [uint8 (Z.land (pc ≫ 8) 0xFF)] in  (* High byte *)
  (* Subsystem Number *)
  let addr := addr ++ [ssn] in
  addr.

End Address.

(** The octets of a UDT built by [NewUDT] as [MarshalTo] lays them
    out: type, protocol class, three pointers, then the three
    parameters, each behind its length octet. *)
(** ** The UDT decoder over the readers of package params *)

Module UDTOver.
Import params UDT.

(** What a reader came to, without the value it read. *)
Definition void {A} (r : result A) : result unit :=
  match r with
  | Ok _ => Ok tt
  | Err e => Err e
  | Panic => Panic
  end.

Section Readers.

(** Modelled from the spec: package [params] is not among the sources
    and the spec gives its readers by their interface only.  Here the
    three readers that [UnmarshalBinary] calls are parameters: each is
    handed a slice and returns a value with a length, returns an error,
    or panics.  Nothing else is assumed of them. *)
Variable parse_called : list Z → result (PartyAddress * Z).
Variable parse_calling : list Z → result (PartyAddress * Z).
Variable data_read : list Z → M params.Data Z.

(** [u.Data = &params.Data{}] followed by [u.Data.Read(s)]. *)
Definition read_Data (s : list Z) : M UDT Z :=
  λ u, let '(d, r) := data_read s (mkData []) in
       (set_Data (Some d) u, r).

(** UnmarshalBinary sets the values retrieved from byte sequence in a
    SCCP UDT. *)
Definition UnmarshalBinary (b : list Z) : M UDT unit :=
  let l := len b in
  if l <=? 4 then fail ErrUnexpectedEOF else
  do b0 <- lift (index b 0); modify (set_Type b0);;;
  let offset := 1 in
  do p1 <- lift (index b offset); modify (set_ptr1 p1);;;
  do p2 <- lift (index b (offset + 1)); modify (set_ptr2 p2);;;
  do p3 <- lift (index b (offset + 2)); modify (set_ptr3 p3);;;
  (* Called Party Address *)
  let offsetPtr1 := offset + p1 in
  if l <? offsetPtr1 + 1 then fail ErrUnexpectedEOF else
  do cdpaLen <- lift (index b offsetPtr1);
  let cdpaEnd := offsetPtr1 + cdpaLen + 1 in
  (* Calling Party Address - starts after Called Party Address *)
  let offsetPtr2 := cdpaEnd in
  if l <? offsetPtr2 + 1 then fail ErrUnexpectedEOF else
  do cgpaLen <- lift (index b offsetPtr2);
  let cgpaEnd := offsetPtr2 + cgpaLen + 1 in
  (* Data section *)
  let offsetPtr3 := cgpaEnd in
  if l <? offsetPtr3 + 1 then fail ErrUnexpectedEOF else
  do dataLen <- lift (index b offsetPtr3);
  let dataEnd := offsetPtr3 + dataLen + 1 in
  if (l <? cdpaEnd) || (l <? cgpaEnd) || (l <? dataEnd)
  then fail ErrUnexpectedEOF else
  do s1 <- lift (slice b offsetPtr1 cdpaEnd);
  assign_parsed set_CalledPartyAddress (parse_called s1);;;
  do s2 <- lift (slice b offsetPtr2 cgpaEnd);
  assign_parsed set_CallingPartyAddress (parse_calling s2);;;
  do s3 <- lift (slice b offsetPtr3 dataEnd);
  read_Data s3;;;
  ret tt.

(** The three readers on their slices, one after the other. *)
Definition read_parameters (s1 s2 s3 : list Z) : M UDT unit :=
  assign_parsed set_CalledPartyAddress (parse_called s1);;;
  assign_parsed set_CallingPartyAddress (parse_calling s2);;;
  read_Data s3;;;
  ret tt.

End Readers.

End UDTOver.

Module UDTMethods.
Import params UDT.

(** MessageType returns the Message Type in int. *)
Definition MessageType (u : UDT) : Z := MsgTypeUDT.

(** method to get protocol class info *)
Definition GetProtocolClassInfo (u : UDT) : Z * bool :=
  match UDT.ProtocolClass u with
  | None => (0, false)
  | Some p => (GetProtocolClass p, HasReturnOption p)
  end.

End UDTMethods.

Definition NewUDT_wire (pcls : Z) (retOnErr : bool)
    (cdpa cgpa : params.PartyAddress) (data : list Z) : list Z :=
  let Lcd := len (params.address_octets cdpa) in
  let Lcg := len (params.address_octets cgpa) in
  [UDT.MsgTypeUDT; params.octet (params.NewProtocolClass pcls retOnErr);
   3; 3 + Lcd; 3 + Lcd + Lcg]
  ++ (Lcd :: params.address_octets cdpa)
  ++ (Lcg :: params.address_octets cgpa)
  ++ (uint8 (len data) :: data).

(** A frame as [UDT.UnmarshalBinary] reads it: the pointers right
    behind the message type, the first of them leading over [pad] to
    the three parameters, each behind its length octet, then [rest]. *)
Definition decoder_frame (t p2 p3 : Z) (pad a1 a2 d rest : list Z) : list Z :=
  [t; 3 + len pad; p2; p3] ++ pad
  ++ (len a1 :: a1) ++ (len a2 :: a2) ++ (len d :: d) ++ rest.

(** ** The characters of a key *)

From Stdlib Require Import Ascii.

(** No character of the string is the colon. *)
Fixpoint colon_free (s : string) : bool :=
  match s with
  | EmptyString => true
  | String c s => negb (Ascii.eqb c ":"%char) && colon_free s
  end.

(** ** Errors that wrap errors, and what a call comes to *)

(** [fmt.Errorf("...: %w", err)] wraps an error behind a message.
    Modelled from the spec: [UnsupportedTypeError] is declared outside
    the sources; it is the error of a message type that the dispatcher
    does not implement, and it is made of the type octet. *)
Inductive gerror : Type :=
| Plain (e : error)
| Wrapped (format : string) (e : gerror)
| UnsupportedTypeError (t : Z).

Inductive outcome (A : Type) : Type :=
| Returns (a : A)
| Fails (e : gerror)
| Panics.
Arguments Returns {A} a.
Arguments Fails {A} e.
Arguments Panics {A}.

Definition outcome_of {A} (r : result A) : outcome A :=
  match r with
  | Ok a => Returns a
  | Err e => Fails (Plain e)
  | Panic => Panics
  end.

(** ** The message dispatcher (sccp.go) *)

Module Dispatch.

(* Message Type definitions. *)
Definition MsgTypeCR : Z := 1.
Definition MsgTypeCC : Z := 2.
Definition MsgTypeCREF : Z := 3.
Definition MsgTypeRLSD : Z := 4.
Definition MsgTypeRLC : Z := 5.
Definition MsgTypeDT1 : Z := 6.
Definition MsgTypeDT2 : Z := 7.
Definition MsgTypeAK : Z := 8.
Definition MsgTypeUDT : Z := 9.
Definition MsgTypeUDTS : Z := 10.
Definition MsgTypeED : Z := 11.
Definition MsgTypeEA : Z := 12.
Definition MsgTypeRSR : Z := 13.
Definition MsgTypeRSC : Z := 14.
Definition MsgTypeERR : Z := 15.
Definition MsgTypeIT : Z := 16.
Definition MsgTypeXUDT : Z := 17.
Definition MsgTypeXUDTS : Z := 18.
Definition MsgTypeLUDT : Z := 19.
Definition MsgTypeLUDTS : Z := 20.

Section ParseMessage.

(** Modelled from the spec: the XUDT message is not among the sources
    and its codec is not written; its type, its zero value and its
    decoder are parameters, and nothing is assumed of them. *)
Variable XUDT : Type.
Variable XUDT_zero : XUDT.
Variable XUDT_UnmarshalBinary : list Z → M XUDT unit.

(** The Message interface, for the two types that [ParseMessage]
    makes. *)
Inductive Message : Type :=
| MessageUDT (u : UDT.UDT)
| MessageXUDT (x : XUDT).

(** [m.UnmarshalBinary(b)] through the interface. *)
Definition Message_UnmarshalBinary (b : list Z) : M Message unit :=
  λ m, match m with
       | MessageUDT u =>
           let '(u', r) := UDT.UnmarshalBinary b u in (MessageUDT u', r)
       | MessageXUDT x =>
           let '(x', r) := XUDT_UnmarshalBinary b x in (MessageXUDT x', r)
       end.

(** The part behind the switch. *)
Definition ParseMessage_decode (b : list Z) (m : Message) : outcome Message :=
  match Message_UnmarshalBinary b m with
  | (m', Ok _) => Returns m'
  | (_, Err e) => Fails (Plain e)
  | (_, Panic) => Panics
  end.

Definition ParseMessage (b : list Z) : outcome Message :=
  if len b <? 1 then
    Fails (Wrapped "invalid SCCP message %v: %w" (Plain ErrUnexpectedEOF))
  else
    match index b 0 with
    | Ok t =>
        if t =? MsgTypeUDT then
          let m := MessageUDT UDT.zero in
          match Message_UnmarshalBinary b m with
          | (m, Ok _) => ParseMessage_decode b m
          | (_, Err e) =>
              Fails (Wrapped "failed to parse UDT message: %w" (Plain e))
          | (_, Panic) => Panics
          end
        else if t =? MsgTypeXUDT then
          let m := MessageXUDT XUDT_zero in
          ParseMessage_decode b m
        else Fails (UnsupportedTypeError t)
    | _ => Panics
    end.

End ParseMessage.

End Dispatch.

(** ** The state manager with its locks, its timers and its log *)

(** The handlers of the SCMG file take the locks of sccp.go, start and
    stop timers and write to the log.  The methods of [SSN] are what the
    methods of sccp.go do between [Lock] and [Unlock]; here they run
    with their locks.  Calls are taken one at a time, each from the state
    that the calls before it left: a call runs to its end, unless it
    comes to a lock that is held; then it stays there, and the state is
    the one it has reached.  Two calls that run at the same time are
    outside this model. *)

Module Net.
Import SSN.

(** [sync.RWMutex]: held by one writer, or by a number of readers. *)
Record RWMutex : Type := mkRWMutex {
  writer : bool;
  readers : nat
}.

Global Instance RWMutex_eq_dec : EqDecision RWMutex.
Proof. solve_decision. Defined.

Definition unlocked : RWMutex := mkRWMutex false 0.

(** The [mutex] field of the manager, or of an entry. *)
Inductive mutex_of : Type :=
| OfManager
| OfEntry (e : ptr).

(** [*time.Timer] made by [time.AfterFunc(d, func() { sm.performSST(entry) })]:
    the duration, the entry of the function, and whether it is still to
    fire. *)
Record Timer : Type := mkTimer {
  duration : Z;
  target : ptr;
  pending : bool
}.

Inductive logarg : Type :=
| LogInt (z : Z)
| LogOctets (b : list Z)
| LogError (e : gerror).

(** Modelled from the spec: [logf] is not among the sources, and the
    sinks of the log are outside the core; a call is kept with its format
    and its arguments and does nothing else. *)
Record logline : Type := Logf {
  format : string;
  args : list logarg
}.

Record net : Type := mkNet {
  ssn_world : world;
  timers : gmap nat Timer;
  logs : list logline;
  sm_mutex : RWMutex;
  (* the mutex of an entry; one that is not held is not in the map *)
  mutexes : gmap nat RWMutex
}.

Definition set_world (w : world) (n : net) : net :=
  mkNet w (timers n) (logs n) (sm_mutex n) (mutexes n).
Definition set_timers (t : gmap nat Timer) (n : net) : net :=
  mkNet (ssn_world n) t (logs n) (sm_mutex n) (mutexes n).
Definition set_logs (l : list logline) (n : net) : net :=
  mkNet (ssn_world n) (timers n) l (sm_mutex n) (mutexes n).

Inductive progress (A : Type) : Type :=
| Done (o : outcome A)
| Blocked.
Arguments Done {A} o.
Arguments Blocked {A}.

Definition T (A : Type) : Type := net → net * progress A.

Definition tret {A} (a : A) : T A := λ n, (n, Done (Returns a)).
Definition tfail {A} (e : gerror) : T A := λ n, (n, Done (Fails e)).
Definition tpanic {A} : T A := λ n, (n, Done Panics).
Definition tbind {A B} (m : T A) (k : A → T B) : T B :=
  λ n, match m n with
       | (n', Done (Returns a)) => k a n'
       | (n', Done (Fails e)) => (n', Done (Fails e))
       | (n', Done Panics) => (n', Done Panics)
       | (n', Blocked) => (n', Blocked)
       end.

Notation "'act' x <- m ; k" := (tbind m (λ x, k))
  (at level 10, x name, m at level 100, k at level 200, only parsing).
Notation "m ;;> k" := (tbind m (λ _, k))
  (at level 100, k at level 200, right associativity, only parsing).

(** A step on the entries, the manager and the callbacks. *)
Definition in_world {A} (m : M world A) : T A :=
  λ n, let '(w, r) := m (ssn_world n) in (set_world w n, Done (outcome_of r)).

(** [if err := m; err != nil { h(err) }] *)
Definition on_error (m : T unit) (h : gerror → T unit) : T unit :=
  λ n, match m n with
       | (n', Done (Fails e)) => h e n'
       | other => other
       end.

(** [defer cleanup] before [body]: the cleanup runs when the body is
    left, by a return or by a panic. *)
Definition defer {A} (cleanup : T unit) (body : T A) : T A :=
  λ n, match body n with
       | (n1, Done o) =>
           match cleanup n1 with
           | (n2, Done (Returns _)) => (n2, Done o)
           | (n2, Done (Fails e)) => (n2, Done (Fails e))
           | (n2, Done Panics) => (n2, Done Panics)
           | (n2, Blocked) => (n2, Blocked)
           end
       | (n1, Blocked) => (n1, Blocked)
       end.

(** *** The locks *)

Definition mutex (l : mutex_of) (n : net) : RWMutex :=
  match l with
  | OfManager => sm_mutex n
  | OfEntry e => default unlocked (mutexes n !! e)
  end.

Definition set_mutex (l : mutex_of) (m : RWMutex) (n : net) : net :=
  match l with
  | OfManager => mkNet (ssn_world n) (timers n) (logs n) m (mutexes n)
  | OfEntry e =>
      mkNet (ssn_world n) (timers n) (logs n) (sm_mutex n)
        (if decide (m = unlocked) then delete e (mutexes n)
         else <[e := m]> (mutexes n))
  end.

(** [Lock] waits while a writer or a reader holds the mutex. *)
Definition Lock (l : mutex_of) : T unit :=
  λ n, let m := mutex l n in
       if writer m || negb (Nat.eqb (readers m) 0) then (n, Blocked)
       else (set_mutex l (mkRWMutex true (readers m)) n, Done (Returns tt)).

(** [Unlock] of a mutex that is not locked for writing is a fatal
    error. *)
Definition Unlock (l : mutex_of) : T unit :=
  λ n, let m := mutex l n in
       if writer m
       then (set_mutex l (mkRWMutex false (readers m)) n, Done (Returns tt))
       else (n, Done Panics).

(** [RLock] waits while a writer holds the mutex. *)
Definition RLock (l : mutex_of) : T unit :=
  λ n, let m := mutex l n in
       if writer m then (n, Blocked)
       else (set_mutex l (mkRWMutex false (S (readers m))) n,
             Done (Returns tt)).

Definition RUnlock (l : mutex_of) : T unit :=
  λ n, let m := mutex l n in
       match readers m with
       | S r => (set_mutex l (mkRWMutex (writer m) r) n, Done (Returns tt))
       | O => (n, Done Panics)
       end.

(** *** The log and the timers *)

Definition logf (format : string) (args : list logarg) : T unit :=
  λ n, (set_logs (logs n ++ [Logf format args]) n, Done (Returns tt)).

(** [time.AfterFunc(d, func() { sm.performSST(entry) })] *)
Definition AfterFunc (d : Z) (entry : ptr) : T nat :=
  λ n, let t := fresh (dom (timers n)) in
       (set_timers (<[t := mkTimer d entry true]> (timers n)) n,
        Done (Returns t)).

Definition stopped (tm : Timer) : Timer :=
  mkTimer (duration tm) (target tm) false.

(** [t.Stop()]: the timer will not fire. *)
Definition Timer_Stop (t : nat) : T unit :=
  λ n, (set_timers (alter stopped t (timers n)) n, Done (Returns tt)).

(** *** sccp.go with its locks *)

Definition IsAllowed (s : ptr) : T bool :=
  RLock (OfEntry s);;>
  defer (RUnlock (OfEntry s)) (in_world (SSN.IsAllowed s)).

Definition IsProhibited (s : ptr) : T bool :=
  RLock (OfEntry s);;>
  defer (RUnlock (OfEntry s)) (in_world (SSN.IsProhibited s)).

Definition MarkAllowed (now : Z) (s : ptr) : T unit :=
  Lock (OfEntry s);;>
  defer (Unlock (OfEntry s)) (in_world (SSN.MarkAllowed now s)).

Definition MarkProhibited (now : Z) (s : ptr) : T unit :=
  Lock (OfEntry s);;>
  defer (Unlock (OfEntry s)) (in_world (SSN.MarkProhibited now s)).

Definition GetEntry (pc ssn : Z) : T (option ptr) :=
  RLock OfManager;;>
  defer (RUnlock OfManager) (in_world (SSN.GetEntry pc ssn)).

Definition AddEntry (now : Z) (pc ssn : Z) (isLocal : bool) : T ptr :=
  Lock OfManager;;>
  defer (Unlock OfManager) (in_world (SSN.AddEntry now pc ssn isLocal)).

(** *** Fields of an entry that the SCMG file writes *)

Definition set_TestTimer (t : option nat) (x : SSNEntry) : SSNEntry :=
  mkSSNEntry (SSN x) (PointCode x) (State x) (IsLocal x) (LastStateChange x)
             t (TestInterval x) (TestRetries x) (MaxTestRetries x).
Definition set_TestInterval (d : Z) (x : SSNEntry) : SSNEntry :=
  mkSSNEntry (SSN x) (PointCode x) (State x) (IsLocal x) (LastStateChange x)
             (TestTimer x) d (TestRetries x) (MaxTestRetries x).
Definition set_TestRetries (r : Z) (x : SSNEntry) : SSNEntry :=
  mkSSNEntry (SSN x) (PointCode x) (State x) (IsLocal x) (LastStateChange x)
             (TestTimer x) (TestInterval x) r (MaxTestRetries x).

(** [int] and [time.Duration] are 64-bit signed. *)
Definition int64 (z : Z) : Z := (z + 2 ^ 63) mod 2 ^ 64 - 2 ^ 63.

(** [if sm.OnStateChange != nil { sm.OnStateChange(entry, st, r) }] *)
Definition OnStateChange_if_set (entry : ptr) (st : SSNState)
    (r : StateChangeReason) : T unit :=
  in_world (do w <- get;
            if OnStateChange (sm w)
            then invoke (CallOnStateChange entry st r)
            else ret tt).

(** [if sm.OnBroadcast != nil { sm.OnBroadcast(t, entry) }] *)
Definition OnBroadcast_if_set (t : BroadcastType) (entry : ptr) : T unit :=
  in_world (do w <- get;
            if OnBroadcast (sm w)
            then invoke (CallOnBroadcast t entry)
            else ret tt).

(** *** The SCMG file: the SST loop *)

(** scheduleSST - Schedule next SST message *)
Definition scheduleSST (entry : ptr) : T unit :=
  act x <- in_world (deref entry);
  act t <- AfterFunc (TestInterval x) entry;
  act x <- in_world (deref entry);
  in_world (assign entry (set_TestTimer (Some t) x)).

(** startSST, under the lock of the entry *)
Definition startSST_locked (entry : ptr) : T unit :=
  act x <- in_world (deref entry);
  (* Stop existing timer *)
  (match TestTimer x with
   | Some t => Timer_Stop t
   | None => tret tt
   end);;>
  (* Reset retry count and interval *)
  (act x <- in_world (deref entry);
   in_world (assign entry (set_TestRetries 0 x)));;>
  (act x <- in_world (deref entry);
   act w <- in_world get;
   in_world (assign entry
               (set_TestInterval (DefaultTestInterval (sm w)) x)));;>
  (* Start testing *)
  scheduleSST entry;;>
  act x <- in_world (deref entry);
  logf "Started SST for PC=%d, SSN=%d"
       [LogInt (PointCode x); LogInt (SSN x)].

(** startSST - Start subsystem testing with exponential backoff *)
Definition startSST (entry : ptr) : T unit :=
  act x <- in_world (deref entry);
  if IsLocal x then tret tt (* Don't test local subsystems *) else
  Lock (OfEntry entry);;>
  defer (Unlock (OfEntry entry)) (startSST_locked entry).

(** stopSST, under the lock of the entry *)
Definition stopSST_locked (entry : ptr) : T unit :=
  act x <- in_world (deref entry);
  (match TestTimer x with
   | Some t =>
       Timer_Stop t;;>
       act x <- in_world (deref entry);
       in_world (assign entry (set_TestTimer None x))
   | None => tret tt
   end);;>
  (act x <- in_world (deref entry);
   in_world (assign entry (set_TestRetries 0 x)));;>
  act x <- in_world (deref entry);
  logf "Stopped SST for PC=%d, SSN=%d"
       [LogInt (PointCode x); LogInt (SSN x)].

(** stopSST - Stop subsystem testing *)
Definition stopSST (entry : ptr) : T unit :=
  Lock (OfEntry entry);;>
  defer (Unlock (OfEntry entry)) (stopSST_locked entry).

(** sendSST - Send SST SCMG message *)
Definition sendSST (pc ssn : Z) : T unit :=
  (* Create SST SCMG message *)
  let sst := SCMG.NewSCMG SCMG.SCMGTypeSST ssn pc 0 0 in
  logf "Sending SST to PC=%d, SSN=%d" [LogInt pc; LogInt ssn];;>
  (* For now, just log the message that would be sent *)
  match SCMG.MarshalBinary sst with
  | Ok sstBytes => logf "SST message bytes: %x" [LogOctets sstBytes]
  | Err err => tfail (Wrapped "failed to marshal SST: %w" (Plain err))
  | Panic => tpanic
  end.

(** performSST, under the lock of the entry *)
Definition performSST_locked (entry : ptr) : T unit :=
  act allowed <- IsAllowed entry;
  if allowed then tret tt (* Subsystem became available, stop testing *)
  else
  (* Send SST message *)
  (act x <- in_world (deref entry);
   on_error (sendSST (PointCode x) (SSN x))
     (λ err, logf "Failed to send SST: %v" [LogError err]));;>
  (act x <- in_world (deref entry);
   in_world (assign entry
               (set_TestRetries (int64 (TestRetries x + 1)) x)));;>
  act x <- in_world (deref entry);
  if MaxTestRetries x <=? TestRetries x then
    logf "Max SST retries reached for PC=%d, SSN=%d"
         [LogInt (PointCode x); LogInt (SSN x)]
  else
  (* Exponential backoff *)
  in_world (assign entry
              (set_TestInterval (int64 (TestInterval x * 2)) x));;>
  (act x <- in_world (deref entry);
   act w <- in_world get;
   if MaxTestInterval (sm w) <? TestInterval x
   then in_world (assign entry
                    (set_TestInterval (MaxTestInterval (sm w)) x))
   else tret tt);;>
  (* Schedule next test *)
  scheduleSST entry.

(** performSST - Perform actual SST with exponential backoff *)
Definition performSST (entry : ptr) : T unit :=
  Lock (OfEntry entry);;>
  defer (Unlock (OfEntry entry)) (performSST_locked entry).

(** The timer [t] fires: its function runs, in a goroutine of its
    own.  A timer that was stopped, or has fired, does not fire. *)
Definition fire (t : nat) : T unit :=
  λ n, match timers n !! t with
       | Some tm =>
           if pending tm then
             performSST (target tm)
               (set_timers (<[t := stopped tm]> (timers n)) n)
           else (n, Done (Returns tt))
       | None => (n, Done (Returns tt))
       end.

(** *** The SCMG file: the handlers *)

(** HandleUserInService - Handle N-STATE Request with UIS *)
Definition HandleUserInService (now : Z) (pc ssn : Z) : T unit :=
  act entry <- GetEntry pc ssn;
  match entry with
  | None => tfail (Plain (ErrEntryNotFound pc ssn))
  | Some entry =>
      act x <- in_world (deref entry);
      if negb (IsLocal x) then tfail (Plain ErrNotLocal) else
      act prohibited <- IsProhibited entry;
      if prohibited then
        MarkAllowed now entry;;>
        (* Trigger callbacks *)
        OnStateChange_if_set entry SSNStateAllowed ReasonUserInitiated;;>
        (* Broadcast SSA to network *)
        OnBroadcast_if_set BroadcastSSA entry;;>
        logf "Local subsystem allowed: PC=%d, SSN=%d" [LogInt pc; LogInt ssn]
      else tret tt
  end.

(** HandleUserOutOfService - Handle N-STATE Request with UOS *)
Definition HandleUserOutOfService (now : Z) (pc ssn : Z) : T unit :=
  act entry <- GetEntry pc ssn;
  match entry with
  | None => tfail (Plain (ErrEntryNotFound pc ssn))
  | Some entry =>
      act x <- in_world (deref entry);
      if negb (IsLocal x) then tfail (Plain ErrNotLocal) else
      act allowed <- IsAllowed entry;
      if allowed then
        MarkProhibited now entry;;>
        (* Stop any ongoing tests *)
        stopSST entry;;>
        (* Trigger callbacks *)
        OnStateChange_if_set entry SSNStateProhibited ReasonUserInitiated;;>
        (* Broadcast SSP to network *)
        OnBroadcast_if_set BroadcastSSP entry;;>
        logf "Local subsystem prohibited: PC=%d, SSN=%d"
             [LogInt pc; LogInt ssn]
      else tret tt
  end.

(** [entry := sm.GetEntry(pc, ssn); if entry == nil { entry =
    sm.AddEntry(pc, ssn, false) }] *)
Definition GetEntry_or_add (now : Z) (pc ssn : Z) : T ptr :=
  act entry <- GetEntry pc ssn;
  match entry with
  | None => AddEntry now pc ssn false
  | Some entry => tret entry
  end.

(** HandleSSA - Handle remote Subsystem Allowed message.  [now_add] is
    the time that [AddEntry] reads, [now] the one that [MarkAllowed]
    reads. *)
Definition HandleSSA (now_add now : Z) (pc ssn : Z) : T unit :=
  act entry <- GetEntry_or_add now_add pc ssn;
  act prohibited <- IsProhibited entry;
  if prohibited then
    MarkAllowed now entry;;>
    (* Stop subsystem testing *)
    stopSST entry;;>
    (* Trigger callbacks *)
    OnStateChange_if_set entry SSNStateAllowed ReasonNetworkInitiated;;>
    logf "Remote subsystem allowed: PC=%d, SSN=%d" [LogInt pc; LogInt ssn]
  else tret tt.

(** HandleSSP - Handle remote Subsystem Prohibited message *)
Definition HandleSSP (now_add now : Z) (pc ssn : Z) : T unit :=
  act entry <- GetEntry_or_add now_add pc ssn;
  act allowed <- IsAllowed entry;
  if allowed then
    MarkProhibited now entry;;>
    (* Start subsystem testing *)
    startSST entry;;>
    (* Trigger callbacks *)
    OnStateChange_if_set entry SSNStateProhibited ReasonNetworkInitiated;;>
    logf "Remote subsystem prohibited: PC=%d, SSN=%d" [LogInt pc; LogInt ssn]
  else tret tt.

(** HandleSST - Handle Subsystem Test message *)
Definition HandleSST (now_add : Z) (pc ssn : Z) : T unit :=
  act entry <- GetEntry_or_add now_add pc ssn;
  act x <- in_world (deref entry);
  (* [entry.IsLocal && entry.IsAllowed()] *)
  act available <- (if IsLocal x then IsAllowed entry else tret false);
  (* If local subsystem is available, respond with SSA *)
  if available then
    (* Send SSA response *)
    let ssa := SCMG.NewSCMG SCMG.SCMGTypeSSA ssn pc 0 0 in
    match SCMG.MarshalBinary ssa with
    | Ok ssaBytes =>
        logf "Responding to SST with SSA for PC=%d, SSN=%d: %x"
             [LogInt pc; LogInt ssn; LogOctets ssaBytes]
    | Err err =>
        tfail (Wrapped "failed to marshal SSA response: %w" (Plain err))
    | Panic => tpanic
    end
  else
    act x <- in_world (deref entry);
    act unavailable <- (if IsLocal x then IsProhibited entry else tret false);
    if unavailable then
      (* Local subsystem is prohibited, don't respond (let SST timeout) *)
      logf "Local subsystem prohibited, not responding to SST: PC=%d, SSN=%d"
           [LogInt pc; LogInt ssn]
    else tret tt.

(** ProcessSCMGMessage - Process incoming SCMG messages *)
Definition ProcessSCMGMessage (now_add now : Z) (scmg : SCMG.SCMG) : T unit :=
  let t := SCMG.Type_ scmg in
  if t =? SCMG.SCMGTypeSSA then
    HandleSSA now_add now (SCMG.AffectedPC scmg) (SCMG.AffectedSSN scmg)
  else if t =? SCMG.SCMGTypeSSP then
    HandleSSP now_add now (SCMG.AffectedPC scmg) (SCMG.AffectedSSN scmg)
  else if t =? SCMG.SCMGTypeSST then
    HandleSST now_add (SCMG.AffectedPC scmg) (SCMG.AffectedSSN scmg)
  else
    logf "Unhandled SCMG message type: %v" [LogInt t];;>
    tret tt.

(** The mutex is not held. *)
Definition free (l : mutex_of) (n : net) : Prop :=
  match l with
  | OfManager => sm_mutex n = unlocked
  | OfEntry e => mutexes n !! e = None
  end.

(** A state in which no lock is held. *)
Definition calm (n : net) : Prop :=
  sm_mutex n = unlocked ∧ mutexes n = ∅.

(** A computation that takes no lock and looks at none. *)
Definition lockfree {A} (body : T A) : Prop :=
  ∀ n, ∃ n' o,
    body n = (n', Done o) ∧
    sm_mutex n' = sm_mutex n ∧ mutexes n' = mutexes n ∧
    ∀ l x, body (set_mutex l x n) = (set_mutex l x n', Done o).

(** What the entries, the keys and the timers keep between calls: a key
    leads to an entry; an entry with a timer is remote and Prohibited; a
    timer that is still to fire is the timer of its entry. *)
Definition sound_of (h : gmap nat SSNEntry) (en : gmap string nat)
    (ts : gmap nat Timer) : Prop :=
  (∀ k e, en !! k = Some e → is_Some (h !! e))
  ∧ (∀ e x, h !! e = Some x → is_Some (TestTimer x) →
       IsLocal x = false ∧ State x = SSNStateProhibited)
  ∧ (∀ t tm, ts !! t = Some tm → pending tm = true →
       ∃ x, h !! target tm = Some x ∧ TestTimer x = Some t).

Definition sound (n : net) : Prop :=
  sound_of (heap (ssn_world n)) (entries (sm (ssn_world n))) (timers n).

(** *** The calls of a user of the manager *)

Inductive request : Type :=
| Register (now pc ssn : Z) (isLocal : bool)
| UserInService (now pc ssn : Z)
| UserOutOfService (now pc ssn : Z)
| ReceiveSSA (now_add now pc ssn : Z)
| ReceiveSSP (now_add now pc ssn : Z)
| ReceiveSST (now_add pc ssn : Z)
| Receive (now_add now : Z) (scmg : SCMG.SCMG).

Definition serve (r : request) : T unit :=
  match r with
  | Register now pc ssn isLocal => AddEntry now pc ssn isLocal;;> tret tt
  | UserInService now pc ssn => HandleUserInService now pc ssn
  | UserOutOfService now pc ssn => HandleUserOutOfService now pc ssn
  | ReceiveSSA now_add now pc ssn => HandleSSA now_add now pc ssn
  | ReceiveSSP now_add now pc ssn => HandleSSP now_add now pc ssn
  | ReceiveSST now_add pc ssn => HandleSST now_add pc ssn
  | Receive now_add now scmg => ProcessSCMGMessage now_add now scmg
  end.

(** The calls one after the other; the caller goes on after a call that
    returns an error. *)
Fixpoint serve_all (rs : list request) : T unit :=
  match rs with
  | [] => tret tt
  | r :: rs =>
      λ n, match serve r n with
           | (n', Done (Returns _)) => serve_all rs n'
           | (n', Done (Fails _)) => serve_all rs n'
           | (n', Done Panics) => (n', Done Panics)
           | (n', Blocked) => (n', Blocked)
           end
  end.

(** A call that returns, with or without an error, in a state that is
    calm and sound. *)
Definition goes_on (r : net * progress unit) : Prop :=
  ∃ n', (r = (n', Done (Returns tt)) ∨ ∃ err, r = (n', Done (Fails err)))
        ∧ calm n' ∧ sound n'.

(** The manager of [NewSSNStateManager], before any call. *)
Definition start : net :=
  mkNet (mkWorld ∅ NewSSNStateManager []) ∅ [] unlocked ∅.

(** The same with both callbacks set. *)
Definition listening : net :=
  mkNet World.listening ∅ [] unlocked ∅.

(** The remote subsystem 7 of point code 10 was announced by an SSA:
    registered at time 1, allowed at time 2. *)
Definition remote_allowed : net :=
  fst (HandleSSA 1 2 10 7 listening).

(** The remote subsystem was then reported prohibited at time 4: its
    test is on. *)
Definition remote_testing : net :=
  fst (HandleSSP 3 4 10 7 remote_allowed).

(** The local subsystem 7 of point code 10 was registered at time 5. *)
Definition local_registered : net :=
  fst (AddEntry 5 10 7 true listening).

(** It was put in service at time 6. *)
Definition local_allowed : net :=
  fst (HandleUserInService 6 10 7 local_registered).

(** Calls of a day of the manager. *)
Definition a_day : list request :=
  [ReceiveSSA 1 2 10 7; ReceiveSSP 3 4 10 7; Register 5 10 8 true;
   UserInService 6 10 8; ReceiveSST 7 10 8; ReceiveSSP 8 9 10 8;
   ReceiveSSA 10 11 10 7; UserOutOfService 12 10 8;
   Receive 13 14 (SCMG.NewSCMG SCMG.SCMGTypeSSP 7 10 0 0);
   Receive 15 16 (SCMG.NewSCMG SCMG.SCMGTypeSOG 7 10 0 0)].

End Net.

(** * Properties *)

Section Octets.

Lemma uint16_split (v : Z) :
  is_uint16 v → Z.lor (uint8 v) (uint8 (v ≫ 8) ≪ 8) = v.
Proof.
  intros [Hlo Hhi]. unfold uint8.
  change 256 with (2 ^ 8).
  apply Z.bits_inj'; intros n Hn.
  rewrite Z.lor_spec.
  destruct (Z.lt_ge_cases n 8) as [Hlt | Hge].
  - rewrite Z.mod_pow2_bits_low by lia.
    rewrite Z.shiftl_spec_low by lia. apply orb_false_r.
  - rewrite Z.mod_pow2_bits_high by lia.
    rewrite Z.shiftl_spec by lia. simpl.
    destruct (Z.lt_ge_cases (n - 8) 8) as [Hlt' | Hge'].
    + rewrite Z.mod_pow2_bits_low by lia.
      rewrite Z.shiftr_spec by lia. f_equal; lia.
    + rewrite Z.mod_pow2_bits_high by lia.
      symmetry. apply (Z.bits_above_log2 v n); [lia|].
      destruct (Z.eq_dec v 0) as [-> | Hv]; [simpl; lia|].
      apply Z.log2_lt_pow2; [lia|].
      apply Z.lt_le_trans with (2 ^ 16); [lia|].
      apply Z.pow_le_mono_r; lia.
Qed.

End Octets.

(** Decides the bounds tests of the goal once the lengths are known. *)
Ltac bounds :=
  repeat match goal with
    | |- context [Z.ltb ?a ?b] =>
        first [ rewrite (proj2 (Z.ltb_lt a b)) by (unfold len in *; simpl length in *; lia)
              | rewrite (proj2 (Z.ltb_ge a b)) by (unfold len in *; simpl length in *; lia) ]
    | |- context [Z.leb ?a ?b] =>
        first [ rewrite (proj2 (Z.leb_le a b)) by (unfold len in *; simpl length in *; lia)
              | rewrite (proj2 (Z.leb_gt a b)) by (unfold len in *; simpl length in *; lia) ]
    end.

Ltac closed_positive p :=
  lazymatch p with
  | xH => idtac
  | xO ?q => closed_positive q
  | xI ?q => closed_positive q
  end.

(** Turns the literal offsets into numerals of [nat]. *)
Ltac offsets :=
  repeat match goal with
    | |- context [Z.to_nat 0] => change (Z.to_nat 0) with 0%nat
    | |- context [Z.to_nat (Zpos ?p)] =>
        closed_positive p;
        let n := eval compute in (Z.to_nat (Zpos p)) in
        change (Z.to_nat (Zpos p)) with n
    | |- context [Z.sub (Zpos ?p) (Zpos ?q)] =>
        closed_positive p; closed_positive q;
        let n := eval compute in (Z.sub (Zpos p) (Zpos q)) in
        change (Z.sub (Zpos p) (Zpos q)) with n
    end.

(** Runs a computation of [M] on a buffer whose first octets are known. *)
Ltac run :=
  unfold bind, get, ret, fail, panic, lift, modify, store, with_slice, slice,
    index, LittleEndian.PutUint16, LittleEndian.Uint16;
  repeat (progress (cbn -[Z.of_nat Z.ltb Z.leb Z.eqb Z.shiftl Z.shiftr Z.lor
                          Z.land Z.add Z.sub Z.modulo uint8 len];
                    bounds; offsets)).

Section SCMGFacts.
Import SCMG.

Lemma MarshalTo_short (s : SCMG) (b : list Z) :
  len b < 5 → MarshalTo s b = (b, Err ErrUnexpectedEOF).
Proof.
  intros Hl. unfold MarshalTo, MarshalLen.
  destruct (Type_ s =? SCMGTypeSSC); run; reflexivity.
Qed.

Lemma MarshalTo_long (s : SCMG) (b0 b1 b2 b3 b4 : Z) (rest : list Z) :
  MarshalTo s (b0 :: b1 :: b2 :: b3 :: b4 :: rest) =
    let hd := λ tl, Type_ s :: AffectedSSN s :: uint8 (AffectedPC s)
                :: uint8 (AffectedPC s ≫ 8)
                :: SubsystemMultiplicityIndicator s :: tl in
    if Type_ s =? SCMGTypeSSC then
      match rest with
      | [] => (b0 :: b1 :: b2 :: b3 :: b4 :: rest, Err ErrUnexpectedEOF)
      | _ :: rest' => (hd (SCCPCongestionLevel s :: rest'), Ok tt)
      end
    else (hd rest, Ok tt).
Proof.
  unfold MarshalTo, MarshalLen.
  destruct (Type_ s =? SCMGTypeSSC); [destruct rest|]; run; reflexivity.
Qed.
End SCMGFacts.

Section SCMGTheorems.
Import SCMG.

Lemma MarshalBinary_octets (s : SCMG) :
  MarshalBinary s =
    Ok (Type_ s :: AffectedSSN s :: uint8 (AffectedPC s)
          :: uint8 (AffectedPC s ≫ 8) :: SubsystemMultiplicityIndicator s
          :: (if Type_ s =? SCMGTypeSSC then [SCCPCongestionLevel s] else [])).
Proof.
  unfold MarshalBinary, MarshalLen.
  destruct (Type_ s =? SCMGTypeSSC) eqn:E.
  - change (replicate (Z.to_nat (5 + 1)) 0) with [0; 0; 0; 0; 0; 0].
    rewrite MarshalTo_long, E. reflexivity.
  - change (replicate (Z.to_nat 5) 0) with [0; 0; 0; 0; 0].
    rewrite MarshalTo_long, E. reflexivity.
Qed.

Lemma UnmarshalBinary_short (b : list Z) (r : SCMG) :
  len b < 5 → UnmarshalBinary b r = (r, Err ErrUnexpectedEOF).
Proof. intros Hl. unfold UnmarshalBinary. run. reflexivity. Qed.

Lemma UnmarshalBinary_long (t a lo hi m : Z) (rest : list Z) (r : SCMG) :
  UnmarshalBinary (t :: a :: lo :: hi :: m :: rest) r =
    let s := mkSCMG t a (Z.lor lo (hi ≪ 8)) m (SCCPCongestionLevel r) in
    if t =? SCMGTypeSSC then
      match rest with
      | [] => (s, Err ErrUnexpectedEOF)
      | c :: _ => (set_SCCPCongestionLevel c s, Ok tt)
      end
    else (s, Ok tt).
Proof.
  unfold UnmarshalBinary. run.
  destruct (t =? SCMGTypeSSC); [destruct rest|]; run; reflexivity.
Qed.

(** C4 — SCMG round trip.  A well-formed SCMG value whose congestion
    level is zero unless its type is SSC is recovered exactly by decoding
    its encoding into a fresh value (as [ParseSCMG] does).  For SSC the
    congestion level is the sixth octet and is read back whatever the
    receiver held; for the other types the encoding has five octets,
    none of them the congestion level, and decoding leaves the
    receiver's level as it was: zero for a fresh receiver. *)
Theorem scmg_round_trip (v : SCMG) :
  wf v →
  (Type_ v ≠ SCMGTypeSSC → SCCPCongestionLevel v = 0) →
  ∃ b, MarshalBinary v = Ok b
     ∧ UnmarshalBinary b zero = (v, Ok tt)
     ∧ ParseSCMG b = Ok v
     ∧ len b = (if decide (Type_ v = SCMGTypeSSC) then 6 else 5)
     ∧ ∀ r, UnmarshalBinary b r =
             (if decide (Type_ v = SCMGTypeSSC) then v
              else set_SCCPCongestionLevel (SCCPCongestionLevel r) v,
              Ok tt).
Proof.
  intros (_ & _ & Hpc & _ & _) Hscl.
  eexists. split; [apply MarshalBinary_octets|].
  assert (Hall : ∀ r,
    UnmarshalBinary
      (Type_ v :: AffectedSSN v :: uint8 (AffectedPC v)
         :: uint8 (AffectedPC v ≫ 8) :: SubsystemMultiplicityIndicator v
         :: (if Type_ v =? SCMGTypeSSC then [SCCPCongestionLevel v] else [])) r =
    (if decide (Type_ v = SCMGTypeSSC) then v
     else set_SCCPCongestionLevel (SCCPCongestionLevel r) v, Ok tt)).
  { intros r. rewrite UnmarshalBinary_long, (uint16_split _ Hpc).
    destruct v as [t a pc m c]; simpl in *.
    destruct (Z.eqb_spec t SCMGTypeSSC) as [-> | Hne].
    - rewrite decide_True by reflexivity. reflexivity.
    - rewrite decide_False by assumption. reflexivity. }
  assert (Hzero :
    (if decide (Type_ v = SCMGTypeSSC) then v
     else set_SCCPCongestionLevel (SCCPCongestionLevel zero) v) = v).
  { destruct (decide (Type_ v = SCMGTypeSSC)) as [|Hne]; [reflexivity|].
    destruct v as [t a pc m c]; simpl in *.
    rewrite (Hscl Hne). reflexivity. }
  repeat split.
  - rewrite Hall, Hzero. reflexivity.
  - unfold ParseSCMG. rewrite Hall, Hzero. reflexivity.
  - destruct (Z.eqb_spec (Type_ v) SCMGTypeSSC) as [E | Hne].
    + rewrite decide_True by assumption. reflexivity.
    + rewrite decide_False by assumption. reflexivity.
  - exact Hall.
Qed.

Lemma scmg_round_trip_witness :
  let v := NewSCMG SCMGTypeSSC 8 0x1234 0 5 in
  ∃ b, MarshalBinary v = Ok b
     ∧ UnmarshalBinary b zero = (v, Ok tt)
     ∧ ParseSCMG b = Ok v
     ∧ len b = (if decide (Type_ v = SCMGTypeSSC) then 6 else 5)
     ∧ ∀ r, UnmarshalBinary b r =
             (if decide (Type_ v = SCMGTypeSSC) then v
              else set_SCCPCongestionLevel (SCCPCongestionLevel r) v,
              Ok tt).
Proof.
  apply (scmg_round_trip (NewSCMG SCMGTypeSSC 8 0x1234 0 5)).
  - unfold wf, is_uint8, is_uint16, NewSCMG, SCMGTypeSSC.
    cbn [Type_ AffectedSSN AffectedPC SubsystemMultiplicityIndicator
         SCCPCongestionLevel]. lia.
  - intros H. exfalso. apply H. reflexivity.
Defined.

(** C5 — SCMG wire length.  [MarshalLen], and the length of what
    [MarshalBinary] returns, is 6 for SSC and 5 for every other type.
    Decoding fewer than five octets fails with the unexpected-end error
    and so does decoding exactly five octets of which the first is SSC;
    five octets of another type, or six and more, decode. *)
Theorem scmg_wire_length :
  (∀ s, MarshalLen s = (if decide (Type_ s = SCMGTypeSSC) then 6 else 5)
        ∧ ∃ b, MarshalBinary s = Ok b ∧ len b = MarshalLen s)
  ∧ (∀ b r, len b < 5 → UnmarshalBinary b r = (r, Err ErrUnexpectedEOF))
  ∧ (∀ b r, len b = 5 → index b 0 = Ok SCMGTypeSSC →
            snd (UnmarshalBinary b r) = Err ErrUnexpectedEOF)
  ∧ (∀ b r, 5 ≤ len b → (index b 0 = Ok SCMGTypeSSC → 6 ≤ len b) →
            snd (UnmarshalBinary b r) = Ok tt).
Proof.
  repeat split.
  - unfold MarshalLen.
    destruct (Z.eqb_spec (Type_ s) SCMGTypeSSC) as [E | Hne].
    + rewrite decide_True by assumption. reflexivity.
    + rewrite decide_False by assumption. reflexivity.
  - eexists. split; [apply MarshalBinary_octets|].
    unfold MarshalLen. destruct (Type_ s =? SCMGTypeSSC); reflexivity.
  - intros b r Hl. apply UnmarshalBinary_short, Hl.
  - intros b r Hl H0.
    destruct b as [|b0 [|b1 [|b2 [|b3 [|b4 [|]]]]]];
      try (unfold len in Hl; cbn [length] in Hl; lia).
    cbn in H0. injection H0 as ->. rewrite UnmarshalBinary_long. reflexivity.
  - intros b r Hl H6.
    destruct b as [|b0 [|b1 [|b2 [|b3 [|b4 rest]]]]];
      try (unfold len in Hl; cbn [length] in Hl; lia).
    rewrite UnmarshalBinary_long.
    destruct (Z.eqb_spec b0 SCMGTypeSSC) as [-> | Hne]; [|reflexivity].
    destruct rest; [|reflexivity].
    specialize (H6 eq_refl). unfold len in H6. cbn [length] in H6. lia.
Qed.

Lemma scmg_wire_length_witness :
  (MarshalLen (NewSCMG SCMGTypeSSC 8 0x1234 0 5) = 6
   ∧ MarshalLen (NewSCMG SCMGTypeSSA 8 0x1234 0 0) = 5)
  ∧ UnmarshalBinary [6; 8; 0x34; 0x12] zero = (zero, Err ErrUnexpectedEOF)
  ∧ snd (UnmarshalBinary [6; 8; 0x34; 0x12; 0] zero) = Err ErrUnexpectedEOF
  ∧ snd (UnmarshalBinary [6; 8; 0x34; 0x12; 0; 5] zero) = Ok tt.
Proof.
  destruct scmg_wire_length as (Hlen & Hshort & Hssc & Hok).
  split; [split|split; [|split]].
  - apply (proj1 (Hlen (NewSCMG SCMGTypeSSC 8 0x1234 0 5))).
  - apply (proj1 (Hlen (NewSCMG SCMGTypeSSA 8 0x1234 0 0))).
  - apply Hshort. unfold len. cbn [length]. lia.
  - apply Hssc; reflexivity.
  - apply Hok.
    + unfold len. cbn [length]. lia.
    + intros _. unfold len. cbn [length]. lia.
Defined.

(** C6 — SCMG point code is little endian.  In every buffer that
    [MarshalTo] filled, octet 2 is the low and octet 3 the high octet of
    the affected point code.  The SSA message of the specification's
    scenario S1 encodes to 01 08 34 12 00. *)
Theorem scmg_point_code_little_endian :
  (∀ (s : SCMG) (b b' : list Z),
     is_uint16 (AffectedPC s) →
     MarshalTo s b = (b', Ok tt) →
     ∃ lo hi, b' !! 2%nat = Some lo ∧ b' !! 3%nat = Some hi
              ∧ Z.lor lo (hi ≪ 8) = AffectedPC s)
  ∧ MarshalBinary (NewSCMG SCMGTypeSSA 8 0x1234 0 0)
    = Ok [0x01; 0x08; 0x34; 0x12; 0x00].
Proof.
  split; [|reflexivity].
  intros s b b' Hpc Hm.
  destruct (Z.lt_ge_cases (len b) 5) as [Hl | Hl].
  { rewrite MarshalTo_short in Hm by assumption. discriminate Hm. }
  destruct b as [|b0 [|b1 [|b2 [|b3 [|b4 rest]]]]];
    try (unfold len in Hl; cbn [length] in Hl; lia).
  rewrite MarshalTo_long in Hm. cbv zeta in Hm.
  exists (uint8 (AffectedPC s)), (uint8 (AffectedPC s ≫ 8)).
  destruct (Type_ s =? SCMGTypeSSC); [destruct rest|];
    inversion Hm; subst b'; auto using uint16_split.
Qed.

Lemma scmg_point_code_little_endian_witness :
  ∃ lo hi, [0x01; 0x08; 0x34; 0x12; 0x00; 0x05] !! 2%nat = Some lo
           ∧ [0x01; 0x08; 0x34; 0x12; 0x00; 0x05] !! 3%nat = Some hi
           ∧ Z.lor lo (hi ≪ 8) = 0x1234.
Proof.
  apply (proj1 scmg_point_code_little_endian
           (NewSCMG SCMGTypeSSA 8 0x1234 0 0) [0; 0; 0; 0; 0; 0x05]).
  - unfold is_uint16, NewSCMG. cbn [AffectedPC]. lia.
  - reflexivity.
Defined.

(** C10 — SCMG decoding is not atomic on error.  Decoding exactly five
    octets of which the first is SSC returns the unexpected-end error,
    and the receiver is left with Type, AffectedSSN, AffectedPC and
    SubsystemMultiplicityIndicator read from the buffer; only its
    SCCPCongestionLevel is what it was. *)
Theorem scmg_decode_not_atomic (r : SCMG) (b : list Z) :
  len b = 5 → index b 0 = Ok SCMGTypeSSC →
  ∃ b1 b2 b3 b4, b = [SCMGTypeSSC; b1; b2; b3; b4] ∧
    UnmarshalBinary b r =
      (mkSCMG SCMGTypeSSC b1 (Z.lor b2 (b3 ≪ 8)) b4 (SCCPCongestionLevel r),
       Err ErrUnexpectedEOF).
Proof.
  intros Hl H0.
  destruct b as [|b0 [|b1 [|b2 [|b3 [|b4 [|]]]]]];
    try (unfold len in Hl; cbn [length] in Hl; lia).
  cbn in H0. injection H0 as ->.
  exists b1, b2, b3, b4. split; [reflexivity|].
  rewrite UnmarshalBinary_long. reflexivity.
Qed.

Lemma scmg_decode_not_atomic_witness :
  ∃ b1 b2 b3 b4, [6; 8; 0x34; 0x12; 1] = [SCMGTypeSSC; b1; b2; b3; b4] ∧
    UnmarshalBinary [6; 8; 0x34; 0x12; 1] (NewSCMG SCMGTypeSSA 9 7 3 2) =
      (mkSCMG SCMGTypeSSC b1 (Z.lor b2 (b3 ≪ 8)) b4
         (SCCPCongestionLevel (NewSCMG SCMGTypeSSA 9 7 3 2)),
       Err ErrUnexpectedEOF).
Proof.
  apply (scmg_decode_not_atomic (NewSCMG SCMGTypeSSA 9 7 3 2)
           [6; 8; 0x34; 0x12; 1]); reflexivity.
Defined.

End SCMGTheorems.

(** ** Inversion of successful computations *)

Section Inversion.
Context {S A B : Type}.

Lemma bind_Ok (m : M S A) (k : A → M S B) (s s'' : S) (b : B) :
  bind m k s = (s'', Ok b) →
  ∃ a s', m s = (s', Ok a) ∧ k a s' = (s'', Ok b).
Proof.
  unfold bind. destruct (m s) as [s' [a | e |]]; intros H;
    [eauto | discriminate H | discriminate H].
Qed.

End Inversion.

Section Buffers.
Implicit Types b s : list Z.

Lemma len_nonneg b : 0 ≤ len b.
Proof. unfold len. lia. Qed.

Lemma len_insert b (i : nat) (v : Z) : len (<[i := v]> b) = len b.
Proof. unfold len. rewrite length_insert. reflexivity. Qed.

Lemma store_Ok (i v : Z) b b' :
  store i v b = (b', Ok tt) → 0 ≤ i < len b ∧ b' = <[Z.to_nat i := v]> b.
Proof.
  unfold store.
  destruct (Z.leb_spec 0 i), (Z.ltb_spec i (len b)); simpl; intros Hw;
    inversion Hw; subst; split; (lia || reflexivity).
Qed.

Lemma slice_Ok b (lo hi : Z) s :
  slice b lo hi = Ok s →
  0 ≤ lo ∧ lo ≤ hi ∧ hi ≤ len b ∧
  s = take (Z.to_nat (hi - lo)) (drop (Z.to_nat lo) b) ∧
  len s = hi - lo.
Proof.
  unfold slice.
  destruct (Z.leb_spec 0 lo), (Z.leb_spec lo hi), (Z.leb_spec hi (len b));
    simpl; intros Hw; inversion Hw; subst.
  repeat split; try lia.
  unfold len in *. rewrite length_take, length_drop. lia.
Qed.

Lemma with_slice_Ok {A} (lo hi : Z) (w : list Z → result (list Z * A))
    b b' (a : A) :
  with_slice lo hi w b = (b', Ok a) →
  ∃ s s', slice b lo hi = Ok s ∧ w s = Ok (s', a) ∧ b' = splice b lo s'.
Proof.
  unfold with_slice.
  destruct (slice b lo hi) as [s | e |]; try (intros Hw; discriminate Hw).
  destruct (w s) as [[s' a'] | e |] eqn:Ew; try (intros Hw; discriminate Hw).
  intros Hw; inversion Hw; subst. exists s, s'. auto.
Qed.

Lemma len_splice b (lo : Z) s :
  0 ≤ lo → lo + len s ≤ len b → len (splice b lo s) = len b.
Proof.
  unfold splice, len. intros Hlo Hhi.
  rewrite !length_app, length_take, length_drop. lia.
Qed.

(** Octets before the slice are not touched. *)
Lemma lookup_splice_lt b (lo : Z) s (i : nat) :
  (i < Z.to_nat lo)%nat → lo ≤ len b → splice b lo s !! i = b !! i.
Proof.
  unfold splice, len. intros Hi Hlo.
  rewrite lookup_app_l by (rewrite length_take; lia).
  apply lookup_take_lt, Hi.
Qed.

(** The first octet written through the slice lands at its start. *)
Lemma lookup_splice_at b (lo : Z) (x : Z) (tl : list Z) :
  0 ≤ lo ≤ len b → splice b lo (x :: tl) !! Z.to_nat lo = Some x.
Proof.
  unfold splice, len. intros Hlo.
  rewrite lookup_app_r by (rewrite length_take; lia).
  rewrite length_take.
  replace (Z.to_nat lo - Z.to_nat lo `min` length b)%nat with 0%nat by lia.
  reflexivity.
Qed.

End Buffers.

Section Writers.
Import params.

Lemma ProtocolClass_Write_Ok (p : ProtocolClass) (s s' : list Z) (n : Z) :
  ProtocolClassCodec.Write p s = Ok (s', n) →
  n = 1 ∧ len s' = len s ∧ ∃ tl, s' = octet p :: tl.
Proof.
  unfold ProtocolClassCodec.Write.
  destruct (Z.ltb_spec (len s) 1) as [|Hl]; intros Hw; inversion Hw; subst.
  rewrite len_insert. repeat split.
  destruct s as [|x tl]; [unfold len in Hl; simpl in Hl; lia|].
  exists tl. reflexivity.
Qed.

Lemma PartyAddress_Write_Ok (p : PartyAddress) (s s' : list Z) (n : Z) :
  PartyAddressCodec.Write p s = Ok (s', n) →
  1 + len (address_octets p) ≤ len s ∧ len s' = len s ∧
  ∃ tl, s' = uint8 (len (address_octets p)) :: tl.
Proof.
  unfold PartyAddressCodec.Write, PartyAddressCodec.MarshalLen.
  destruct (Z.ltb_spec (len s) (1 + len (address_octets p)));
    intros Hw; inversion Hw; subst.
  split; [lia|]. split; [|eauto].
  unfold len in *. cbn [length]. rewrite length_app, length_drop. lia.
Qed.

Lemma Data_Write_Ok (d : Data) (s s' : list Z) (n : Z) :
  DataCodec.Write d s = Ok (s', n) →
  1 + len (value d) ≤ len s ∧ len s' = len s ∧
  ∃ tl, s' = uint8 (len (value d)) :: tl.
Proof.
  unfold DataCodec.Write, DataCodec.MarshalLen.
  destruct (Z.ltb_spec (len s) (1 + len (value d)));
    intros Hw; inversion Hw; subst.
  split; [lia|]. split; [|eauto].
  unfold len in *. cbn [length]. rewrite length_app, length_drop. lia.
Qed.

End Writers.


Section UDTEncoding.
Import params UDT.

(** What a successful [MarshalTo] leaves in the buffer. *)
Lemma MarshalTo_Ok (u : UDT) (b b' : list Z)
    (pc : params.ProtocolClass) (cd cg : PartyAddress) (d : params.Data) :
  ProtocolClass u = Some pc → CalledPartyAddress u = Some cd →
  CallingPartyAddress u = Some cg → Data u = Some d →
  MarshalTo u b = (b', Ok tt) →
  let cdpaEnd := uint8 (ptr2 u + 3) in
  let cgpaEnd := uint8 (ptr3 u + 4) in
  (5 + (1 + len (address_octets cd)) ≤ cdpaEnd ∧
   cdpaEnd + (1 + len (address_octets cg)) ≤ cgpaEnd ∧
   cgpaEnd + (1 + len (value d)) ≤ len b) ∧
  len b' = len b ∧
  b' !! 0%nat = Some (Type_ u) ∧
  b' !! 1%nat = Some (octet pc) ∧
  b' !! 2%nat = Some (ptr1 u) ∧
  b' !! 3%nat = Some (ptr2 u) ∧
  b' !! 4%nat = Some (ptr3 u) ∧
  b' !! 5%nat = Some (uint8 (len (address_octets cd))) ∧
  b' !! Z.to_nat cdpaEnd = Some (uint8 (len (address_octets cg))) ∧
  b' !! Z.to_nat cgpaEnd = Some (uint8 (len (value d))).
Proof.
  intros Hpc Hcd Hcg Hd H. unfold MarshalTo in H.
  rewrite Hpc, Hcd, Hcg, Hd in H. cbn [through] in H. cbv zeta in H.
  apply bind_Ok in H as (b0 & t0 & Hget & H).
  unfold get in Hget. injection Hget as <- <-.
  destruct (Z.ltb_spec (len b) 6) as [|Hl]; [discriminate H|].
  apply bind_Ok in H as ([] & b1 & H1 & H). apply store_Ok in H1 as [_ ->].
  apply bind_Ok in H as (m & b2 & H2 & H).
  apply with_slice_Ok in H2 as (s0 & s0' & Hs0 & Hw0 & ->).
  apply ProtocolClass_Write_Ok in Hw0 as (-> & Hl0 & tl0 & ->).
  apply slice_Ok in Hs0 as (_ & _ & _ & _ & Hls0).
  (* the header: type and protocol class *)
  set (B2 := splice _ 1 _) in H.
  assert (L2 : len B2 = len b).
  { subst B2. rewrite len_splice; rewrite ?len_insert; lia. }
  assert (K0 : B2 !! 0%nat = Some (Type_ u)).
  { subst B2. rewrite lookup_splice_lt by (rewrite ?len_insert; lia).
    apply list_lookup_insert_eq. unfold len in Hl. lia. }
  assert (K1 : B2 !! 1%nat = Some (octet pc)).
  { subst B2. apply (lookup_splice_at _ 1). rewrite len_insert. lia. }
  clearbody B2.
  (* the three pointers *)
  apply bind_Ok in H as ([] & B3 & H3 & H). apply store_Ok in H3 as [_ ->].
  apply bind_Ok in H as ([] & B4 & H4 & H). apply store_Ok in H4 as [_ ->].
  apply bind_Ok in H as ([] & B5 & H5 & H). apply store_Ok in H5 as [_ ->].
  change (Z.to_nat (1 + 1)) with 2%nat in H.
  change (Z.to_nat (1 + 1 + 1)) with 3%nat in H.
  change (Z.to_nat (1 + 1 + 2)) with 4%nat in H.
  change (1 + 1 + 3) with 5 in H.
  set (B5 := <[4%nat := _]> _) in H.
  assert (L5 : len B5 = len b).
  { subst B5. rewrite !len_insert. exact L2. }
  assert (Hn : (5 < length B2)%nat) by (unfold len in L2, Hl; lia).
  assert (K50 : B5 !! 0%nat = Some (Type_ u)).
  { subst B5. rewrite !list_lookup_insert_ne by lia. exact K0. }
  assert (K51 : B5 !! 1%nat = Some (octet pc)).
  { subst B5. rewrite !list_lookup_insert_ne by lia. exact K1. }
  assert (K52 : B5 !! 2%nat = Some (ptr1 u)).
  { subst B5. rewrite !list_lookup_insert_ne by lia.
    apply list_lookup_insert_eq. lia. }
  assert (K53 : B5 !! 3%nat = Some (ptr2 u)).
  { subst B5. rewrite list_lookup_insert_ne by lia.
    apply list_lookup_insert_eq. rewrite length_insert. lia. }
  assert (K54 : B5 !! 4%nat = Some (ptr3 u)).
  { subst B5. apply list_lookup_insert_eq. rewrite !length_insert. lia. }
  clearbody B5. clear K0 K1 Hn L2 B2.
  (* the called party address *)
  apply bind_Ok in H as (n1 & B6 & H6 & H).
  apply with_slice_Ok in H6 as (s1 & s1' & Hs1 & Hw1 & ->).
  apply PartyAddress_Write_Ok in Hw1 as (Hcdl & Hl1 & tl1 & ->).
  apply slice_Ok in Hs1 as (_ & Hlo1 & Hhi1 & _ & Hls1).
  set (B6 := splice B5 5 _) in H.
  assert (L6 : len B6 = len b) by (subst B6; rewrite len_splice; lia).
  assert (K6 : ∀ i, (i < 5)%nat → B6 !! i = B5 !! i).
  { intros i Hi. subst B6. apply lookup_splice_lt; lia. }
  assert (K65 : B6 !! 5%nat = Some (uint8 (len (address_octets cd)))).
  { subst B6. apply (lookup_splice_at _ 5). lia. }
  clearbody B6.
  (* the calling party address *)
  apply bind_Ok in H as (n2 & B7 & H7 & H).
  apply with_slice_Ok in H7 as (s2 & s2' & Hs2 & Hw2 & ->).
  apply PartyAddress_Write_Ok in Hw2 as (Hcgl & Hl2 & tl2 & ->).
  apply slice_Ok in Hs2 as (_ & Hlo2 & Hhi2 & _ & Hls2).
  pose proof (len_nonneg (address_octets cd)) as Hcd0.
  pose proof (len_nonneg (address_octets cg)) as Hcg0.
  pose proof (len_nonneg (value d)) as Hd0.
  set (B7 := splice B6 _ _) in H.
  assert (L7 : len B7 = len b) by (subst B7; rewrite len_splice; lia).
  assert (K7 : ∀ i, (i < 6)%nat → B7 !! i = B6 !! i).
  { intros i Hi. subst B7. apply lookup_splice_lt; lia. }
  assert (K7e : B7 !! Z.to_nat (uint8 (ptr2 u + 3))
                = Some (uint8 (len (address_octets cg)))).
  { subst B7. apply lookup_splice_at. lia. }
  clearbody B7.
  (* the data *)
  apply bind_Ok in H as (n3 & B8 & H8 & H).
  apply with_slice_Ok in H8 as (s3 & s3' & Hs3 & Hw3 & ->).
  apply Data_Write_Ok in Hw3 as (Hdl & Hl3 & tl3 & ->).
  apply slice_Ok in Hs3 as (_ & Hlo3 & Hhi3 & _ & Hls3).
  unfold ret in H. injection H as <-.
  set (B8 := splice B7 _ _).
  assert (K8 : ∀ i, (i < Z.to_nat (uint8 (ptr3 u + 4)))%nat → B8 !! i = B7 !! i).
  { intros i Hi. subst B8. apply lookup_splice_lt; lia. }
  cbv zeta. split; [lia|].
  split; [subst B8; rewrite len_splice; lia|].
  rewrite !K8, !K7, !K6 by lia.
  repeat (split; [assumption|]).
  subst B8. apply lookup_splice_at. lia.
Qed.
End UDTEncoding.

Section UDTEncodes.
Import params UDT.

Lemma bind_run {S A B} (m : M S A) (k : A → M S B) (s s' : S) (a : A) :
  m s = (s', Ok a) → bind m k s = k a s'.
Proof. unfold bind. intros ->. reflexivity. Qed.

Lemma store_run (i v : Z) (b : list Z) :
  0 ≤ i < len b → store i v b = (<[Z.to_nat i := v]> b, Ok tt).
Proof.
  intros Hi. unfold store.
  rewrite (proj2 (Z.leb_le 0 i)), (proj2 (Z.ltb_lt i (len b))) by lia.
  reflexivity.
Qed.

Lemma with_slice_run {A} (lo hi : Z) (w : list Z → result (list Z * A))
    (b s' : list Z) (a : A) :
  0 ≤ lo → lo ≤ hi → hi ≤ len b →
  w (take (Z.to_nat (hi - lo)) (drop (Z.to_nat lo) b)) = Ok (s', a) →
  with_slice lo hi w b = (splice b lo s', Ok a).
Proof.
  intros Hlo Hhi Hl Hw. unfold with_slice, slice.
  rewrite (proj2 (Z.leb_le 0 lo)), (proj2 (Z.leb_le lo hi)),
    (proj2 (Z.leb_le hi (len b))) by lia.
  cbn [andb]. rewrite Hw. reflexivity.
Qed.

Lemma len_slice (b : list Z) (lo hi : Z) :
  0 ≤ lo → lo ≤ hi → hi ≤ len b →
  len (take (Z.to_nat (hi - lo)) (drop (Z.to_nat lo) b)) = hi - lo.
Proof.
  intros Hlo Hhi Hl. unfold len in *. rewrite length_take, length_drop. lia.
Qed.

(** The pointers of [NewUDT] when the two addresses fit. *)
Lemma NewUDT_pointers (pcls : Z) (retOnErr : bool) (cdpa cgpa : PartyAddress)
    (data : list Z) :
  let u := NewUDT pcls retOnErr cdpa cgpa data in
  len (address_octets cdpa) + len (address_octets cgpa) ≤ 248 →
  ptr1 u = 3 ∧
  ptr2 u = 3 + len (address_octets cdpa) ∧
  ptr3 u = 3 + len (address_octets cdpa) + len (address_octets cgpa) ∧
  uint8 (ptr2 u + 3) = 6 + len (address_octets cdpa) ∧
  uint8 (ptr3 u + 4)
    = 7 + len (address_octets cdpa) + len (address_octets cgpa).
Proof.
  cbv zeta. intros Hfit.
  cbn [NewUDT ptr1 ptr2 ptr3 set_ptr1 set_ptr2 set_ptr3].
  unfold PartyAddressCodec.MarshalLen.
  pose proof (len_nonneg (address_octets cdpa)) as Hcd0.
  pose proof (len_nonneg (address_octets cgpa)) as Hcg0.
  set (Lcd := len (address_octets cdpa)) in *.
  set (Lcg := len (address_octets cgpa)) in *.
  clearbody Lcd Lcg.
  assert (E2 : uint8 (uint8 (3 + uint8 (1 + Lcd)) - 1) = 3 + Lcd).
  { unfold uint8. Z.to_euclidean_division_equations. lia. }
  rewrite E2.
  assert (E3 : uint8 (uint8 (3 + Lcd + uint8 (1 + Lcg)) - 1) = 3 + Lcd + Lcg).
  { unfold uint8. Z.to_euclidean_division_equations. lia. }
  rewrite E3.
  repeat split; unfold uint8; Z.to_euclidean_division_equations; lia.
Qed.

(** [MarshalTo] encodes every UDT of [NewUDT] whose addresses fit the
    one-octet pointers, into any buffer that is long enough. *)
Lemma MarshalTo_NewUDT_encodes (pcls : Z) (retOnErr : bool)
    (cdpa cgpa : PartyAddress) (data : list Z) (b : list Z) :
  len (address_octets cdpa) + len (address_octets cgpa) ≤ 248 →
  8 + len (address_octets cdpa) + len (address_octets cgpa) + len data
    ≤ len b →
  ∃ b', MarshalTo (NewUDT pcls retOnErr cdpa cgpa data) b = (b', Ok tt).
Proof.
  intros Hfit Hb.
  destruct (NewUDT_pointers pcls retOnErr cdpa cgpa data Hfit)
    as (P1 & P2 & P3 & E2 & E3).
  pose proof (len_nonneg (address_octets cdpa)) as Hcd0.
  pose proof (len_nonneg (address_octets cgpa)) as Hcg0.
  pose proof (len_nonneg data) as Hd0.
  unfold MarshalTo. rewrite E2, E3, P1, P2, P3.
  cbn [NewUDT ProtocolClass CalledPartyAddress CallingPartyAddress Data
       Type_ set_ptr1 set_ptr2 set_ptr3 through].
  cbv zeta.
  rewrite (bind_run get _ b b b) by reflexivity.
  rewrite (proj2 (Z.ltb_ge (len b) 6)) by lia.
  erewrite bind_run by (apply store_run; lia).
  erewrite bind_run.
  2:{ apply with_slice_run; rewrite ?len_insert; try lia.
      unfold ProtocolClassCodec.Write.
      rewrite (proj2 (Z.ltb_ge _ 1))
        by (rewrite len_slice; rewrite ?len_insert; lia).
      reflexivity. }
  set (B2 := splice _ 1 _).
  assert (L2 : len B2 = len b).
  { subst B2. rewrite len_splice; rewrite ?len_insert; try lia.
    rewrite len_slice; rewrite ?len_insert; lia. }
  clearbody B2.
  erewrite bind_run by (apply store_run; lia).
  erewrite bind_run by (apply store_run; rewrite len_insert; lia).
  erewrite bind_run by (apply store_run; rewrite !len_insert; lia).
  set (B5 := <[_ := _]> _).
  assert (L5 : len B5 = len b) by (subst B5; rewrite !len_insert; exact L2).
  clearbody B5.
  erewrite bind_run.
  2:{ apply with_slice_run; try lia.
      unfold PartyAddressCodec.Write, PartyAddressCodec.MarshalLen.
      rewrite (proj2 (Z.ltb_ge _ _)) by (rewrite len_slice; lia).
      reflexivity. }
  set (B6 := splice B5 _ _).
  assert (L6 : len B6 = len b).
  { subst B6. rewrite len_splice; try lia.
    unfold len in *. cbn [length].
    rewrite length_app, length_drop, length_take, length_drop. lia. }
  clearbody B6.
  erewrite bind_run.
  2:{ apply with_slice_run; try lia.
      unfold PartyAddressCodec.Write, PartyAddressCodec.MarshalLen.
      rewrite (proj2 (Z.ltb_ge _ _)) by (rewrite len_slice; lia).
      reflexivity. }
  set (B7 := splice B6 _ _).
  assert (L7 : len B7 = len b).
  { subst B7. rewrite len_splice; try lia.
    unfold len in *. cbn [length].
    rewrite length_app, length_drop, length_take, length_drop. lia. }
  clearbody B7.
  erewrite bind_run.
  2:{ apply with_slice_run; try lia.
      unfold DataCodec.Write, DataCodec.MarshalLen. cbn [value NewData].
      rewrite (proj2 (Z.ltb_ge _ _)) by (rewrite len_slice; lia).
      reflexivity. }
  eexists. reflexivity.
Qed.

End UDTEncodes.

Section UDTTheorems.
Import params UDT.

(** C3 — UDT pointer invariants (as amended).  In every buffer that
    [MarshalTo] filled from a UDT built by [NewUDT], octet 2 is 3 and
    each pointer, counted from its own octet, leads to the length octet
    of its parameter: Called at 2 + buf[2], Calling at 3 + buf[3], Data
    at 4 + buf[4].  The second pointer is 3 plus the length of the
    Called address and the third is the second plus the length of the
    Calling address; for two addresses of 11 octets they are 14 and
    25.  ([MarshalTo_NewUDT_encodes] above: the buffer is filled whenever
    the two addresses have at most 248 octets together and the buffer is
    long enough.) *)
Theorem udt_pointer_invariants (pcls : Z) (retOnErr : bool)
    (cdpa cgpa : PartyAddress) (data : list Z) (b b' : list Z) :
  MarshalTo (NewUDT pcls retOnErr cdpa cgpa data) b = (b', Ok tt) →
  ∃ p2 p3,
    b' !! 2%nat = Some 3 ∧ b' !! 3%nat = Some p2 ∧ b' !! 4%nat = Some p3 ∧
    b' !! Z.to_nat (2 + 3) = Some (len (address_octets cdpa)) ∧
    b' !! Z.to_nat (3 + p2) = Some (len (address_octets cgpa)) ∧
    b' !! Z.to_nat (4 + p3) = Some (uint8 (len data)) ∧
    p2 = 3 + len (address_octets cdpa) ∧
    p3 = p2 + len (address_octets cgpa) ∧
    (len (address_octets cdpa) = 11 → len (address_octets cgpa) = 11 →
     p2 = 14 ∧ p3 = 25).
Proof.
  intros H.
  eapply MarshalTo_Ok in H; try reflexivity.
  cbv zeta in H.
  destruct H as ((Hcd & Hcg & Hd) & _ & _ & _ & K2 & K3 & K4 & K5 & Kcg & Kd).
  cbn [NewUDT ptr1 ptr2 ptr3 set_ptr1 set_ptr2 set_ptr3 value NewData
       Type_ ProtocolClass SLS CalledPartyAddress CallingPartyAddress Data]
    in *.
  unfold PartyAddressCodec.MarshalLen in *.
  pose proof (len_nonneg (address_octets cdpa)) as Hcd0.
  pose proof (len_nonneg (address_octets cgpa)) as Hcg0.
  set (Lcd := len (address_octets cdpa)) in *.
  set (Lcg := len (address_octets cgpa)) in *.
  set (p2 := uint8 (uint8 (3 + uint8 (1 + Lcd)) - 1)) in *.
  set (p3 := uint8 (uint8 (p2 + uint8 (1 + Lcg)) - 1)) in *.
  assert (E2 : p2 = 3 + Lcd ∧ uint8 (p2 + 3) = 3 + p2 ∧ uint8 Lcd = Lcd).
  { subst p2. unfold uint8 in *. clear K2 K3 K4 K5 Kcg Kd Hcg Hd.
    clearbody Lcd. Z.to_euclidean_division_equations. lia. }
  destruct E2 as (E2 & E2' & E2'').
  assert (E3 : p3 = p2 + Lcg ∧ uint8 (p3 + 4) = 4 + p3 ∧ uint8 Lcg = Lcg).
  { rewrite E2' in Hcg. subst p3. clearbody p2. subst p2.
    unfold uint8 in *. clear K2 K3 K4 K5 Kcg Kd Hd E2' E2''.
    clearbody Lcd Lcg. Z.to_euclidean_division_equations. lia. }
  destruct E3 as (E3 & E3' & E3'').
  exists p2, p3.
  rewrite E2' in Kcg. rewrite E3' in Kd. rewrite E2'' in K5.
  rewrite E3'' in Kcg.
  repeat (split; [assumption|]).
  intros H11 H11'. lia.
Qed.

End UDTTheorems.

Section UDTDecoding.
Import params UDT.

Lemma lift_Ok {S A} (r : result A) (s s' : S) (a : A) :
  lift r s = (s', Ok a) → r = Ok a ∧ s' = s.
Proof. unfold lift. intros H. inversion H. auto. Qed.

Lemma assign_parsed_Ok (set : option PartyAddress → UDT → UDT)
    (r : result (PartyAddress * Z)) (u u' : UDT) :
  assign_parsed set r u = (u', Ok tt) →
  ∃ a n, r = Ok (a, n) ∧ u' = set (Some a) u.
Proof.
  destruct r as [[a n] | e |]; cbn; intros H; inversion H; eauto.
Qed.

(** Where a successful [UnmarshalBinary] found the three parameters. *)
Lemma UnmarshalBinary_Ok (b : list Z) (u v : UDT) :
  UnmarshalBinary b u = (v, Ok tt) →
  ∃ p1 L1 L2 L3 s1 s2 s3 a1 n1 a2 n2 d n3,
    let o1 := 1 + p1 in
    let o2 := o1 + L1 + 1 in
    let o3 := o2 + L2 + 1 in
    index b 1 = Ok p1 ∧
    index b o1 = Ok L1 ∧ index b o2 = Ok L2 ∧ index b o3 = Ok L3 ∧
    slice b o1 o2 = Ok s1 ∧ slice b o2 o3 = Ok s2 ∧
    slice b o3 (o3 + L3 + 1) = Ok s3 ∧
    ParseCalledPartyAddress s1 = Ok (a1, n1) ∧
    ParseCallingPartyAddress s2 = Ok (a2, n2) ∧
    DataCodec.Read s3 (mkData []) = (d, Ok n3) ∧
    CalledPartyAddress v = Some a1 ∧ CallingPartyAddress v = Some a2 ∧
    Data v = Some d ∧ ProtocolClass v = ProtocolClass u.
Proof.
  unfold UnmarshalBinary. intros H.
  destruct (len b <=? 4); [discriminate H|].
  apply bind_Ok in H as (b0 & u0 & H0 & H). apply lift_Ok in H0 as [_ ->].
  apply bind_Ok in H as ([] & u1 & Hm & H). injection Hm as <-.
  apply bind_Ok in H as (p1 & u2 & Hp1 & H). apply lift_Ok in Hp1 as [Hp1 ->].
  apply bind_Ok in H as ([] & u2 & Hm & H). injection Hm as <-.
  apply bind_Ok in H as (p2 & u3 & Hp2 & H). apply lift_Ok in Hp2 as [_ ->].
  apply bind_Ok in H as ([] & u3 & Hm & H). injection Hm as <-.
  apply bind_Ok in H as (p3 & u4 & Hp3 & H). apply lift_Ok in Hp3 as [_ ->].
  apply bind_Ok in H as ([] & u4 & Hm & H). injection Hm as <-.
  cbv zeta in H.
  destruct (len b <? 1 + p1 + 1); [discriminate H|].
  apply bind_Ok in H as (L1 & u5 & HL1 & H). apply lift_Ok in HL1 as [HL1 ->].
  destruct (len b <? 1 + p1 + L1 + 1 + 1); [discriminate H|].
  apply bind_Ok in H as (L2 & u5 & HL2 & H). apply lift_Ok in HL2 as [HL2 ->].
  destruct (len b <? 1 + p1 + L1 + 1 + L2 + 1 + 1); [discriminate H|].
  apply bind_Ok in H as (L3 & u5 & HL3 & H). apply lift_Ok in HL3 as [HL3 ->].
  destruct (_ || _ || _); [discriminate H|].
  apply bind_Ok in H as (s1 & u5 & Hs1 & H). apply lift_Ok in Hs1 as [Hs1 ->].
  apply bind_Ok in H as ([] & u5 & Ha1 & H).
  apply assign_parsed_Ok in Ha1 as (a1 & n1 & Ha1 & ->).
  apply bind_Ok in H as (s2 & u6 & Hs2 & H). apply lift_Ok in Hs2 as [Hs2 ->].
  apply bind_Ok in H as ([] & u6 & Ha2 & H).
  apply assign_parsed_Ok in Ha2 as (a2 & n2 & Ha2 & ->).
  apply bind_Ok in H as (s3 & u7 & Hs3 & H). apply lift_Ok in Hs3 as [Hs3 ->].
  apply bind_Ok in H as (n3 & u7 & Hd & H).
  injection H as <-.
  unfold read_Data in Hd.
  destruct (DataCodec.Read s3 (mkData [])) as [d r] eqn:Hr.
  injection Hd as <- ->.
  exists p1, L1, L2, L3, s1, s2, s3, a1, n1, a2, n2, d, n3.
  cbv zeta. repeat (split; [assumption|]). repeat split.
Qed.

Lemma index_Ok_lt (b : list Z) (i x : Z) :
  index b i = Ok x → 0 ≤ i < len b.
Proof.
  unfold index, len. destruct (Z.leb_spec 0 i); [|discriminate].
  destruct (b !! Z.to_nat i) eqn:E; [|discriminate].
  apply lookup_lt_Some in E. lia.
Qed.

Lemma index_lt_Ok (b : list Z) (i : Z) :
  0 ≤ i < len b → ∃ x, index b i = Ok x.
Proof.
  unfold index, len. intros Hi.
  rewrite (proj2 (Z.leb_le 0 i)) by lia.
  destruct (lookup_lt_is_Some_2 b (Z.to_nat i)) as [x ->]; [lia|].
  eauto.
Qed.

(** The converse of [UnmarshalBinary_Ok]: the decoding that the octets
    read along the way determine. *)
Lemma UnmarshalBinary_run (b : list Z) (u : UDT)
    (t p1 p2 p3 L1 L2 L3 : Z) (s1 s2 s3 : list Z)
    (a1 a2 : PartyAddress) (n1 n2 n3 : Z) (d : params.Data) :
  let o1 := 1 + p1 in
  let o2 := o1 + L1 + 1 in
  let o3 := o2 + L2 + 1 in
  index b 0 = Ok t → index b 1 = Ok p1 →
  index b 2 = Ok p2 → index b 3 = Ok p3 → 4 < len b →
  index b o1 = Ok L1 → index b o2 = Ok L2 → index b o3 = Ok L3 →
  slice b o1 o2 = Ok s1 → slice b o2 o3 = Ok s2 →
  slice b o3 (o3 + L3 + 1) = Ok s3 →
  ParseCalledPartyAddress s1 = Ok (a1, n1) →
  ParseCallingPartyAddress s2 = Ok (a2, n2) →
  DataCodec.Read s3 (mkData []) = (d, Ok n3) →
  UnmarshalBinary b u =
    (mkUDT t (ProtocolClass u) (SLS u) (Some a1) (Some a2) (Some d) p1 p2 p3,
     Ok tt).
Proof.
  cbv zeta. intros H0 H1 H2 H3 Hl HL1 HL2 HL3 Hs1 Hs2 Hs3 Ha1 Ha2 Hd.
  pose proof (index_Ok_lt _ _ _ HL1) as B1.
  pose proof (index_Ok_lt _ _ _ HL2) as B2.
  pose proof (index_Ok_lt _ _ _ HL3) as B3.
  pose proof (slice_Ok _ _ _ _ Hs1) as (_ & _ & E1 & _).
  pose proof (slice_Ok _ _ _ _ Hs2) as (_ & _ & E2 & _).
  pose proof (slice_Ok _ _ _ _ Hs3) as (_ & _ & E3 & _).
  unfold UnmarshalBinary.
  rewrite (proj2 (Z.leb_gt (len b) 4)) by lia.
  unfold bind, lift, modify, ret.
  change (1 + 1) with 2. change (1 + 2) with 3.
  rewrite H0, H1, H2, H3. cbv beta iota zeta.
  rewrite (proj2 (Z.ltb_ge (len b) (1 + p1 + 1))) by lia.
  rewrite HL1. cbv beta iota.
  rewrite (proj2 (Z.ltb_ge (len b) (1 + p1 + L1 + 1 + 1))) by lia.
  rewrite HL2. cbv beta iota.
  rewrite (proj2 (Z.ltb_ge (len b) (1 + p1 + L1 + 1 + L2 + 1 + 1))) by lia.
  rewrite HL3. cbv beta iota.
  rewrite (proj2 (Z.ltb_ge (len b) (1 + p1 + L1 + 1))) by lia.
  rewrite (proj2 (Z.ltb_ge (len b) (1 + p1 + L1 + 1 + L2 + 1))) by lia.
  rewrite (proj2 (Z.ltb_ge (len b) (1 + p1 + L1 + 1 + L2 + 1 + L3 + 1)))
    by lia.
  cbn [orb]. rewrite Hs1, Ha1. cbn [assign_parsed modify].
  rewrite Hs2, Ha2. cbn [assign_parsed modify].
  rewrite Hs3. unfold read_Data. rewrite Hd. reflexivity.
Qed.

Lemma index_agree (b b' : list Z) (i : Z) :
  agree_but_ptr2_ptr3 b b' → i ≠ 2 → i ≠ 3 → index b i = index b' i.
Proof.
  intros [_ Hag] H2 H3. unfold index.
  destruct (Z.leb_spec 0 i); [|reflexivity].
  rewrite (Hag (Z.to_nat i)) by lia. reflexivity.
Qed.

Lemma slice_agree (b b' : list Z) (lo hi : Z) :
  agree_but_ptr2_ptr3 b b' → 4 ≤ lo → slice b lo hi = slice b' lo hi.
Proof.
  intros [Hlen Hag] Hlo. unfold slice, len. rewrite Hlen.
  destruct (_ && _ && _); [|reflexivity].
  do 2 f_equal. apply list_eq. intros i.
  rewrite !lookup_drop. apply Hag; lia.
Qed.

(** C9 — UDT decoding does not use ptr2 and ptr3 to find the
    parameters (as amended).  [UnmarshalBinary] starts the Calling
    Party Address right after the Called Party Address and the Data
    right after the Calling Party Address.  When the octet at offset 1,
    which it reads as ptr1, is at least 3, so that the Called Party
    Address starts at offset 4 or later, and a buffer decodes, every
    buffer that differs from it only at offsets 2 and 3 decodes too, into
    the same CalledPartyAddress, CallingPartyAddress and Data. *)
Theorem udt_decode_ignores_ptr2_ptr3 (b b' : list Z) (u u' v : UDT)
    (p1 : Z) :
  agree_but_ptr2_ptr3 b b' →
  index b 1 = Ok p1 → 3 ≤ p1 →
  UnmarshalBinary b u = (v, Ok tt) →
  ∃ v', UnmarshalBinary b' u' = (v', Ok tt) ∧
        CalledPartyAddress v' = CalledPartyAddress v ∧
        CallingPartyAddress v' = CallingPartyAddress v ∧
        Data v' = Data v.
Proof.
  intros Hag Hp1 H3 H.
  apply UnmarshalBinary_Ok in H
    as (q1 & L1 & L2 & L3 & s1 & s2 & s3 & a1 & n1 & a2 & n2 & d & n3 & H).
  cbv zeta in H.
  destruct H as (Hq & HL1 & HL2 & HL3 & Hs1 & Hs2 & Hs3 & Ha1 & Ha2 & Hd
                 & -> & -> & -> & _).
  rewrite Hp1 in Hq. injection Hq as <-.
  pose proof (slice_Ok _ _ _ _ Hs1) as (_ & Ho2 & _).
  pose proof (slice_Ok _ _ _ _ Hs2) as (_ & Ho3 & _).
  pose proof (index_Ok_lt _ _ _ HL1) as Hl.
  assert (Hl' : len b' = len b) by (unfold len; destruct Hag as [-> _]; lia).
  destruct (index_lt_Ok b' 0) as [t' H0']; [lia|].
  destruct (index_lt_Ok b' 2) as [p2' H2']; [lia|].
  destruct (index_lt_Ok b' 3) as [p3' H3']; [lia|].
  rewrite (index_agree b b') in Hp1, HL1, HL2, HL3 by (assumption || lia).
  rewrite (slice_agree b b') in Hs1, Hs2, Hs3 by (assumption || lia).
  eexists. split.
  - eapply UnmarshalBinary_run; eauto. lia.
  - repeat split.
Qed.

End UDTDecoding.

Section UDTScenarios.
Import params UDT.

Lemma udt_pointer_invariants_witness :
  ∃ p2 p3,
    Scenario.S3_frame !! 2%nat = Some 3 ∧
    Scenario.S3_frame !! 3%nat = Some p2 ∧
    Scenario.S3_frame !! 4%nat = Some p3 ∧
    Scenario.S3_frame !! Z.to_nat (2 + 3)
      = Some (len (address_octets Scenario.called)) ∧
    Scenario.S3_frame !! Z.to_nat (3 + p2)
      = Some (len (address_octets Scenario.calling)) ∧
    Scenario.S3_frame !! Z.to_nat (4 + p3)
      = Some (uint8 (len Scenario.payload)) ∧
    p2 = 3 + len (address_octets Scenario.called) ∧
    p3 = p2 + len (address_octets Scenario.calling) ∧
    (len (address_octets Scenario.called) = 11 →
     len (address_octets Scenario.calling) = 11 → p2 = 14 ∧ p3 = 25).
Proof.
  apply (udt_pointer_invariants 1 true Scenario.called Scenario.calling
           Scenario.payload (replicate 35 0) Scenario.S3_frame).
  vm_compute. reflexivity.
Defined.

(** C3, as the specification words it, fails on scenario S3: the two
    addresses have 11 octets and the buffer holds 14 and 25 at offsets
    3 and 4, not 15 and 27. *)
Lemma udt_pointer_values_counterexample :
  MarshalBinary (NewUDT 1 true Scenario.called Scenario.calling
                   Scenario.payload) = Ok Scenario.S3_frame ∧
  len (address_octets Scenario.called) = 11 ∧
  len (address_octets Scenario.calling) = 11 ∧
  ¬ (Scenario.S3_frame !! 3%nat = Some 15 ∧
     Scenario.S3_frame !! 4%nat = Some 27).
Proof.
  repeat split; try (vm_compute; reflexivity).
  intros [H _]. vm_compute in H. discriminate H.
Qed.

Lemma index_not_Err (b : list Z) (i : Z) (e : error) : index b i ≠ Err e.
Proof.
  unfold index. destruct (0 <=? i); [|discriminate].
  destruct (b !! Z.to_nat i); discriminate.
Qed.

Lemma slice_not_Err (b : list Z) (lo hi : Z) (e : error) :
  slice b lo hi ≠ Err e.
Proof. unfold slice. destruct (_ && _ && _); discriminate. Qed.

(** Every error of [UnmarshalBinary] is the unexpected-end error, and
    the protocol class of the receiver is never assigned. *)
Lemma UnmarshalBinary_errors (b : list Z) (u : UDT) :
  ProtocolClass (fst (UnmarshalBinary b u)) = ProtocolClass u ∧
  ∀ e, snd (UnmarshalBinary b u) = Err e → e = ErrUnexpectedEOF.
Proof.
  unfold UnmarshalBinary, bind, lift, modify, fail, ret, panic,
    assign_parsed, read_Data, ParseCalledPartyAddress,
    ParseCallingPartyAddress, ParsePartyAddress, DataCodec.Read.
  cbv zeta.
  repeat match goal with
    | |- context [if ?c then _ else _] => destruct c
    | |- context [index ?x ?y] =>
        let E := fresh "E" in
        destruct (index x y) eqn:E; [| apply index_not_Err in E as [] |]
    | |- context [slice ?x ?y ?z] =>
        let E := fresh "E" in
        destruct (slice x y z) as [[|? ?]| |] eqn:E;
        [| | apply slice_not_Err in E as [] |]
    end;
    cbn; (split; [reflexivity|]); intros err Herr; congruence.
Qed.

(** C1 — UDT round trip: the code does not have it.  [MarshalTo] puts
    the protocol class at offset 1 and the pointers at offsets 2 to 4;
    [UnmarshalBinary] reads the pointers from offset 1 on.  The message
    of scenario S3 (class 1, return on error) encodes to a frame whose
    decoding fails: its octet 0x81 is read as ptr1, which leads behind
    the end of the 35 octets, and the decoder returns the unexpected-end
    error before it hands anything to a parser of the parameters. *)
Theorem udt_round_trip_fails :
  MarshalBinary Scenario.S3 = Ok Scenario.S3_frame ∧
  snd (UnmarshalBinary Scenario.S3_frame zero) = Err ErrUnexpectedEOF.
Proof.
  split; [vm_compute; reflexivity|].
  vm_compute. reflexivity.
Qed.

(** C2 — UDT decoding does not reject protocol class 2: the code does
    not validate the class.  On the frame of scenario S3 with 0x02 at
    offset 1, [UnmarshalBinary] reads that octet as ptr1 and returns
    the unexpected-end error, not the invalid-protocol-class error that
    [ValidateProtocolClass] gives for a message of class 2.
    ([UnmarshalBinary_errors] above: with the parameters read as they
    are modelled here, on no buffer does it return another error than
    the unexpected end; on no buffer does it assign the protocol
    class.) *)
Theorem udt_decode_does_not_validate_class :
  Scenario.S4_frame !! 1%nat = Some 0x02 ∧
  snd (UnmarshalBinary Scenario.S4_frame zero) = Err ErrUnexpectedEOF ∧
  ptr1 (fst (UnmarshalBinary Scenario.S4_frame zero)) = 0x02 ∧
  ProtocolClass (fst (UnmarshalBinary Scenario.S4_frame zero)) = None ∧
  ValidateProtocolClass
    (NewUDT 2 false Scenario.called Scenario.calling Scenario.payload)
  = Err (ErrInvalidProtocolClass 2).
Proof. repeat split; vm_compute; reflexivity. Qed.

Lemma udt_decode_ignores_ptr2_ptr3_witness :
  let v := fst (UnmarshalBinary (Scenario.plain_frame 6 9) zero) in
  ∃ v', UnmarshalBinary (Scenario.plain_frame 0 0) zero = (v', Ok tt) ∧
        CalledPartyAddress v' = CalledPartyAddress v ∧
        CallingPartyAddress v' = CallingPartyAddress v ∧
        Data v' = Data v.
Proof.
  apply (udt_decode_ignores_ptr2_ptr3
           (Scenario.plain_frame 6 9) (Scenario.plain_frame 0 0)
           zero zero _ 3).
  - split; [reflexivity|]. intros i H2 H3.
    do 4 (destruct i as [|i]; [reflexivity || congruence|]). reflexivity.
  - reflexivity.
  - lia.
  - vm_compute. reflexivity.
Defined.

(** C9, as stated for any two buffers, fails when the Called Party
    Address overlaps the pointer octets: the two frames differ at
    offset 3 only, both decode, and the Called Party Addresses differ. *)
Lemma udt_decode_ptr_octets_counterexample :
  let b := Scenario.overlap_frame 0x42 in
  let b' := Scenario.overlap_frame 0x02 in
  agree_but_ptr2_ptr3 b b' ∧
  ∃ v v', UnmarshalBinary b zero = (v, Ok tt) ∧
          UnmarshalBinary b' zero = (v', Ok tt) ∧
          CalledPartyAddress v = Some (mkPartyAddress [0x42; 0x08]) ∧
          CalledPartyAddress v' = Some (mkPartyAddress [0x02; 0x08]) ∧
          CalledPartyAddress v ≠ CalledPartyAddress v'.
Proof.
  cbv zeta. split.
  - split; [reflexivity|]. intros i H2 H3.
    do 4 (destruct i as [|i]; [reflexivity || congruence|]). reflexivity.
  - eexists _, _. split; [vm_compute; reflexivity|].
    split; [vm_compute; reflexivity|].
    repeat split. discriminate.
Qed.

End UDTScenarios.

Section SSNTheorems.
Import SSN.

(** C7 — AddEntry (as amended).  [AddEntry] always allocates a new
    entry, in state Prohibited, with the default test interval and the
    maximum number of retries of the manager, registers it under the
    key of (pc, ssn) and returns it, whether or not the key was taken:
    an entry registered before under that key is replaced in the
    registry.  The entries the heap held are left as they were. *)
Theorem add_entry_registers_new (w : world) (now pc ssn : Z)
    (isLocal : bool) :
  ∃ w' e,
    AddEntry now pc ssn isLocal w = (w', Ok e) ∧
    heap w !! e = None ∧
    heap w' !! e =
      Some (mkSSNEntry ssn pc SSNStateProhibited isLocal now None
              (DefaultTestInterval (sm w)) 0 (MaxTestRetries_ (sm w))) ∧
    GetEntry pc ssn w' = (w', Ok (Some e)) ∧
    (∀ e0, e0 ≠ e → heap w' !! e0 = heap w !! e0) ∧
    calls w' = calls w.
Proof.
  unfold AddEntry, assign, modify, bind, get, ret. cbn.
  eexists _, (fresh (dom (heap w))).
  split; [reflexivity|].
  split; [apply not_elem_of_dom, is_fresh|].
  cbn. split; [apply lookup_insert_eq|].
  split.
  - unfold GetEntry, bind, get, ret. cbn. rewrite lookup_insert_eq.
    reflexivity.
  - split; [|reflexivity].
    intros e0 Hne. apply lookup_insert_ne. congruence.
Qed.

(** C7, as the specification words it, fails: the key (10, 7) holds an
    entry in state Allowed, and [AddEntry] returns another entry, in
    state Prohibited, which takes its place in the registry. *)
Lemma add_entry_existing_counterexample :
  ∃ e0 x0 w' e x,
    GetEntry 10 7 World.in_service = (World.in_service, Ok (Some e0)) ∧
    heap World.in_service !! e0 = Some x0 ∧
    State x0 = SSNStateAllowed ∧
    AddEntry 7 10 7 true World.in_service = (w', Ok e) ∧
    e ≠ e0 ∧
    heap w' !! e = Some x ∧ x ≠ x0 ∧ State x = SSNStateProhibited ∧
    GetEntry 10 7 w' = (w', Ok (Some e)).
Proof.
  eexists _, _, _, _, _.
  split; [vm_compute; reflexivity|].
  split; [vm_compute; reflexivity|].
  split; [reflexivity|].
  split; [vm_compute; reflexivity|].
  split; [discriminate|].
  split; [vm_compute; reflexivity|].
  split; [discriminate|].
  split; [reflexivity|].
  vm_compute. reflexivity.
Qed.

(** C8 — HandleUserInService.  With no entry under the key the call
    fails with the entry-not-found error, with an entry that is not
    local it fails with the not-local error, and the world is left as
    it was.  For a local entry in state Prohibited the entry becomes
    Allowed, its last state change is the current time, and the
    callbacks that are set are called in this order:
    [OnStateChange(entry, Allowed, UserInitiated)], then
    [OnBroadcast(SSA, entry)].  For a local entry in state Allowed
    nothing changes, nothing is called and no error is returned. *)
Theorem handle_user_in_service (w : world) (now pc ssn : Z) :
  (entries (sm w) !! getKey pc ssn = None →
   HandleUserInService now pc ssn w = (w, Err (ErrEntryNotFound pc ssn)))
  ∧
  (∀ e x, entries (sm w) !! getKey pc ssn = Some e → heap w !! e = Some x →
     (IsLocal x = false →
      HandleUserInService now pc ssn w = (w, Err ErrNotLocal))
     ∧
     (IsLocal x = true → State x = SSNStateProhibited →
      HandleUserInService now pc ssn w =
        (mkWorld
           (<[e := mkSSNEntry (SSN x) (PointCode x) SSNStateAllowed
                     (IsLocal x) now (TestTimer x) (TestInterval x)
                     (TestRetries x) (MaxTestRetries x)]> (heap w))
           (sm w)
           (calls w
            ++ (if OnStateChange (sm w)
                then [CallOnStateChange e SSNStateAllowed ReasonUserInitiated]
                else [])
            ++ (if OnBroadcast (sm w)
                then [CallOnBroadcast BroadcastSSA e]
                else [])),
         Ok tt))
     ∧
     (IsLocal x = true → State x = SSNStateAllowed →
      HandleUserInService now pc ssn w = (w, Ok tt))).
Proof.
  split.
  - intros Hk. unfold HandleUserInService, GetEntry, bind, get, ret, fail.
    cbv beta iota zeta. rewrite Hk. reflexivity.
  - intros e x Hk Hx.
    unfold HandleUserInService, GetEntry, IsProhibited, MarkAllowed, deref,
      assign, invoke, modify, bind, get, ret, fail.
    cbv beta iota zeta. rewrite Hk. cbv beta iota zeta. rewrite Hx.
    repeat split.
    + intros ->. reflexivity.
    + intros Hl Hs. rewrite Hl. cbv beta iota zeta delta [negb].
      rewrite Hx. cbv beta iota zeta. rewrite Hs.
      rewrite bool_decide_eq_true_2 by reflexivity.
      cbv beta iota zeta. rewrite Hx. cbn -[getKey].
      destruct (OnStateChange (sm w)); cbn -[getKey];
        destruct (OnBroadcast (sm w)); cbn;
        rewrite <- ?app_assoc, ?app_nil_r, ?Hl; reflexivity.
    + intros Hl Hs. rewrite Hl. cbv beta iota zeta delta [negb].
      rewrite Hx. cbv beta iota zeta. rewrite Hs.
      rewrite bool_decide_eq_false_2 by discriminate.
      reflexivity.
Qed.

Lemma handle_user_in_service_witness :
  HandleUserInService 6 10 7 World.listening
    = (World.listening, Err (ErrEntryNotFound 10 7))
  ∧ HandleUserInService 6 10 7 (fst (AddEntry 5 10 7 false World.listening))
    = (fst (AddEntry 5 10 7 false World.listening), Err ErrNotLocal)
  ∧ calls World.in_service
    = [CallOnStateChange 0%nat SSNStateAllowed ReasonUserInitiated;
       CallOnBroadcast BroadcastSSA 0%nat]
  ∧ HandleUserInService 9 10 7 World.in_service = (World.in_service, Ok tt).
Proof.
  split; [|split; [|split]].
  - apply (proj1 (handle_user_in_service World.listening 6 10 7)).
    vm_compute. reflexivity.
  - refine (proj1 (proj2 (handle_user_in_service _ 6 10 7) 0%nat
                     (mkSSNEntry 7 10 SSNStateProhibited false 5 None
                        (30 * second) 0 5) _ _) _);
      vm_compute; reflexivity.
  - unfold World.in_service.
    rewrite (proj1 (proj2 (proj2 (handle_user_in_service
                (fst (AddEntry 5 10 7 true World.listening)) 6 10 7) 0%nat
                (mkSSNEntry 7 10 SSNStateProhibited true 5 None
                   (30 * second) 0 5)
                ltac:(vm_compute; reflexivity)
                ltac:(vm_compute; reflexivity)))
              ltac:(reflexivity) ltac:(reflexivity)).
    reflexivity.
  - refine (proj2 (proj2 (proj2 (handle_user_in_service World.in_service 9 10 7)
                     0%nat
                     (mkSSNEntry 7 10 SSNStateAllowed true 6 None
                        (30 * second) 0 5) _ _)) _ _);
      vm_compute; reflexivity.
Defined.

End SSNTheorems.

(** * Further properties of the code *)

Section SCMGExtras.
Import SCMG.

Lemma uint16_join (lo hi : Z) :
  is_uint8 lo → is_uint8 hi →
  is_uint16 (lo + 256 * hi) ∧ Z.lor lo (hi ≪ 8) = lo + 256 * hi.
Proof.
  unfold is_uint8, is_uint16. intros Hlo Hhi.
  assert (Hv : is_uint16 (lo + 256 * hi)) by (unfold is_uint16; lia).
  split; [exact Hv|].
  etransitivity; [|apply (uint16_split _ Hv)].
  unfold uint8. rewrite Z.shiftr_div_pow2 by lia. change (2 ^ 8) with 256.
  replace ((lo + 256 * hi) mod 256) with lo
    by (Z.to_euclidean_division_equations; lia).
  replace ((lo + 256 * hi) / 256 mod 256) with hi
    by (Z.to_euclidean_division_equations; lia).
  reflexivity.
Qed.

(** X1 — SCMG [MarshalTo] and the buffer.  A buffer shorter than
    [MarshalLen] is refused with the unexpected-end error and left as it
    was.  A longer one receives, in its first [MarshalLen] octets, exactly
    the octets that [MarshalBinary] returns; the octets behind them are
    not touched. *)
Theorem scmg_marshal_to_frame (s : SCMG) (b : list Z) :
  (len b < MarshalLen s → MarshalTo s b = (b, Err ErrUnexpectedEOF)) ∧
  (MarshalLen s ≤ len b →
   ∃ wire, MarshalBinary s = Ok wire ∧ len wire = MarshalLen s ∧
           MarshalTo s b = (wire ++ drop (Z.to_nat (MarshalLen s)) b, Ok tt)).
Proof.
  rewrite MarshalBinary_octets. unfold MarshalLen.
  destruct (Z.lt_ge_cases (len b) 5) as [Hl | Hl].
  { split; intros H.
    - apply MarshalTo_short, Hl.
    - destruct (Type_ s =? SCMGTypeSSC); lia. }
  destruct b as [|b0 [|b1 [|b2 [|b3 [|b4 rest]]]]];
    try (unfold len in Hl; cbn [length] in Hl; lia).
  rewrite MarshalTo_long. cbv zeta.
  destruct (Type_ s =? SCMGTypeSSC); [destruct rest as [|b5 rest]|];
    split; intros H; try (unfold len in H; cbn [length] in H; lia);
    try reflexivity; eexists; repeat split.
Qed.

Lemma scmg_marshal_to_frame_witness :
  MarshalTo (NewSCMG SCMGTypeSSC 8 0x1234 0 5) [7; 7; 7; 7; 7]
    = ([7; 7; 7; 7; 7], Err ErrUnexpectedEOF)
  ∧ ∃ wire, MarshalBinary (NewSCMG SCMGTypeSSA 8 0x1234 0 0) = Ok wire ∧
            len wire = 5 ∧
            MarshalTo (NewSCMG SCMGTypeSSA 8 0x1234 0 0) [7; 7; 7; 7; 7; 7; 7]
              = (wire ++ [7; 7], Ok tt).
Proof.
  split.
  - apply (proj1 (scmg_marshal_to_frame (NewSCMG SCMGTypeSSC 8 0x1234 0 5)
                    [7; 7; 7; 7; 7])).
    vm_compute. reflexivity.
  - apply (proj2 (scmg_marshal_to_frame (NewSCMG SCMGTypeSSA 8 0x1234 0 0)
                    [7; 7; 7; 7; 7; 7; 7])).
    vm_compute. discriminate.
Defined.

(** X2 — SCMG decoding followed by encoding.  What [ParseSCMG] returns
    for a buffer of octets fits the field types, and encoding it gives
    back the octets that were read: the first [MarshalLen] octets of the
    buffer, whatever the type octet is.  Octets behind them play no part
    in the decoding. *)
Theorem scmg_parse_then_marshal (b : list Z) (s : SCMG) :
  Forall is_uint8 b → ParseSCMG b = Ok s →
  wf s ∧
  MarshalBinary s = Ok (take (Z.to_nat (MarshalLen s)) b) ∧
  ∀ rest, ParseSCMG (take (Z.to_nat (MarshalLen s)) b ++ rest) = Ok s.
Proof.
  intros Hb Hp. unfold ParseSCMG in *.
  destruct (Z.lt_ge_cases (len b) 5) as [Hl | Hl].
  { rewrite UnmarshalBinary_short in Hp by assumption. discriminate Hp. }
  destruct b as [|t [|a [|lo [|hi [|m rest]]]]];
    try (unfold len in Hl; cbn [length] in Hl; lia).
  rewrite UnmarshalBinary_long in Hp. cbv zeta in Hp.
  rewrite MarshalBinary_octets. unfold MarshalLen.
  repeat match goal with
         | H : Forall _ (_ :: _) |- _ => apply Forall_cons in H as [? H]
         end.
  destruct (uint16_join lo hi) as [Hpc Hlor]; [assumption..|].
  assert (E1 : uint8 (lo + 256 * hi) = lo)
    by (unfold uint8, is_uint8 in *; Z.to_euclidean_division_equations; lia).
  assert (E2 : uint8 ((lo + 256 * hi) ≫ 8) = hi).
  { rewrite Z.shiftr_div_pow2 by lia. change (2 ^ 8) with 256.
    unfold uint8, is_uint8 in *. Z.to_euclidean_division_equations. lia. }
  rewrite Hlor in Hp.
  destruct (Z.eqb_spec t SCMGTypeSSC) as [-> | Hne].
  - destruct rest as [|c rest]; [discriminate Hp|].
    apply Forall_cons in Hb as [Hc _].
    injection Hp as <-.
    cbn [Type_ AffectedSSN AffectedPC SubsystemMultiplicityIndicator
         SCCPCongestionLevel set_SCCPCongestionLevel].
    rewrite E1, E2. split; [|split].
    + unfold wf, is_uint8, is_uint16, SCMGTypeSSC, set_SCCPCongestionLevel
        in *.
      cbn [Type_ AffectedSSN AffectedPC SubsystemMultiplicityIndicator
           SCCPCongestionLevel]. lia.
    + reflexivity.
    + intros rest'.
      change (take _ (SCMGTypeSSC :: a :: lo :: hi :: m :: c :: rest))
        with [SCMGTypeSSC; a; lo; hi; m; c].
      cbn [app]. rewrite UnmarshalBinary_long, Hlor. reflexivity.
  - injection Hp as <-.
    cbn [Type_ AffectedSSN AffectedPC SubsystemMultiplicityIndicator
         SCCPCongestionLevel zero].
    rewrite E1, E2, (proj2 (Z.eqb_neq t SCMGTypeSSC)) by assumption.
    split; [|split].
    + unfold wf, is_uint8, is_uint16 in *.
      cbn [Type_ AffectedSSN AffectedPC SubsystemMultiplicityIndicator
           SCCPCongestionLevel]. lia.
    + reflexivity.
    + intros rest'.
      change (take _ (t :: a :: lo :: hi :: m :: rest)) with [t; a; lo; hi; m].
      cbn [app]. rewrite UnmarshalBinary_long, Hlor.
      rewrite (proj2 (Z.eqb_neq t SCMGTypeSSC)) by assumption.
      reflexivity.
Qed.

Lemma scmg_parse_then_marshal_witness :
  let b := [0x2A; 8; 0x34; 0x12; 3; 0xFF; 0xFF] in
  let s := mkSCMG 0x2A 8 0x1234 3 0 in
  wf s ∧
  MarshalBinary s = Ok (take (Z.to_nat (MarshalLen s)) b) ∧
  ∀ rest, ParseSCMG (take (Z.to_nat (MarshalLen s)) b ++ rest) = Ok s.
Proof.
  apply (scmg_parse_then_marshal [0x2A; 8; 0x34; 0x12; 3; 0xFF; 0xFF]
           (mkSCMG 0x2A 8 0x1234 3 0)).
  - repeat constructor; unfold is_uint8; lia.
  - vm_compute. reflexivity.
Defined.

End SCMGExtras.

Section UDTExtras.
Import params UDT.

Lemma index_uint8 (b : list Z) (i x : Z) :
  Forall is_uint8 b → index b i = Ok x → is_uint8 x.
Proof.
  intros Hb. unfold index. destruct (0 <=? i); [|discriminate].
  destruct (b !! Z.to_nat i) as [y|] eqn:E; [|discriminate].
  intros [= <-]. exact (proj1 (Forall_lookup _ _) Hb _ _ E).
Qed.

Lemma slice_le_Ok (b : list Z) (lo hi : Z) :
  0 ≤ lo → lo ≤ hi → hi ≤ len b →
  slice b lo hi = Ok (take (Z.to_nat (hi - lo)) (drop (Z.to_nat lo) b)).
Proof.
  intros Hlo Hhi Hl. unfold slice.
  rewrite (proj2 (Z.leb_le 0 lo)), (proj2 (Z.leb_le lo hi)),
    (proj2 (Z.leb_le hi (len b))) by lia.
  reflexivity.
Qed.

(** The decoder of the claims is the decoder over the readers as they
    are modelled in [params]. *)
Lemma UnmarshalBinary_over_params (b : list Z) :
  UnmarshalBinary b
  = UDTOver.UnmarshalBinary ParseCalledPartyAddress ParseCallingPartyAddress
      DataCodec.Read b.
Proof. reflexivity. Qed.

Section OverReaders.

Variable parse_called : list Z → result (PartyAddress * Z).
Variable parse_calling : list Z → result (PartyAddress * Z).
Variable data_read : list Z → M params.Data Z.

Local Abbreviation decode :=
  (UDTOver.UnmarshalBinary parse_called parse_calling data_read).
Local Abbreviation readers :=
  (UDTOver.read_parameters parse_called parse_calling data_read).

(** Behind its length checks the decoder is the three readers, each on
    its slice. *)
Lemma UnmarshalBinary_over_slices (b : list Z) (u : UDT)
    (t p1 p2 p3 L1 L2 L3 : Z) (s1 s2 s3 : list Z) :
  let o1 := 1 + p1 in
  let o2 := o1 + L1 + 1 in
  let o3 := o2 + L2 + 1 in
  index b 0 = Ok t → index b 1 = Ok p1 →
  index b 2 = Ok p2 → index b 3 = Ok p3 → 4 < len b →
  index b o1 = Ok L1 → index b o2 = Ok L2 → index b o3 = Ok L3 →
  slice b o1 o2 = Ok s1 → slice b o2 o3 = Ok s2 →
  slice b o3 (o3 + L3 + 1) = Ok s3 →
  decode b u
  = readers s1 s2 s3
      (mkUDT t (ProtocolClass u) (SLS u) (CalledPartyAddress u)
         (CallingPartyAddress u) (Data u) p1 p2 p3).
Proof.
  cbv zeta. intros H0 H1 H2 H3 Hl HL1 HL2 HL3 Hs1 Hs2 Hs3.
  pose proof (index_Ok_lt _ _ _ HL1) as B1.
  pose proof (index_Ok_lt _ _ _ HL2) as B2.
  pose proof (index_Ok_lt _ _ _ HL3) as B3.
  pose proof (slice_Ok _ _ _ _ Hs1) as (_ & _ & E1 & _).
  pose proof (slice_Ok _ _ _ _ Hs2) as (_ & _ & E2 & _).
  pose proof (slice_Ok _ _ _ _ Hs3) as (_ & _ & E3 & _).
  unfold UDTOver.UnmarshalBinary, UDTOver.read_parameters.
  rewrite (proj2 (Z.leb_gt (len b) 4)) by lia.
  unfold bind at 1 2 3 4 5 6 7 8, lift, modify.
  change (1 + 1) with 2. change (1 + 2) with 3.
  rewrite H0, H1, H2, H3. cbv beta iota zeta.
  rewrite (proj2 (Z.ltb_ge (len b) (1 + p1 + 1))) by lia.
  unfold bind at 1. rewrite HL1. cbv beta iota.
  rewrite (proj2 (Z.ltb_ge (len b) (1 + p1 + L1 + 1 + 1))) by lia.
  unfold bind at 1. rewrite HL2. cbv beta iota.
  rewrite (proj2 (Z.ltb_ge (len b) (1 + p1 + L1 + 1 + L2 + 1 + 1))) by lia.
  unfold bind at 1. rewrite HL3. cbv beta iota.
  rewrite (proj2 (Z.ltb_ge (len b) (1 + p1 + L1 + 1))) by lia.
  rewrite (proj2 (Z.ltb_ge (len b) (1 + p1 + L1 + 1 + L2 + 1))) by lia.
  rewrite (proj2 (Z.ltb_ge (len b) (1 + p1 + L1 + 1 + L2 + 1 + L3 + 1)))
    by lia.
  cbn [orb]. unfold bind, lift. rewrite Hs1.
  destruct u as [ty pc sls cd cg da q1 q2 q3].
  cbn [set_Type set_ptr1 set_ptr2 set_ptr3 Type_ UDT.ProtocolClass SLS
       CalledPartyAddress CallingPartyAddress UDT.Data ptr1 ptr2 ptr3].
  destruct (assign_parsed set_CalledPartyAddress (parse_called s1) _)
    as [u1 [[]|e|]]; [|reflexivity..].
  rewrite Hs2.
  destruct (assign_parsed set_CallingPartyAddress (parse_calling s2) _)
    as [u2 [[]|e|]]; [|reflexivity..].
  rewrite Hs3. reflexivity.
Qed.

(** What the readers return, in the order of the calls. *)
Lemma read_parameters_result (s1 s2 s3 : list Z) (u : UDT) :
  let r := snd (readers s1 s2 s3 u) in
  r = Ok tt
  ∨ (r ≠ Ok tt
     ∧ (r = UDTOver.void (parse_called s1)
        ∨ r = UDTOver.void (parse_calling s2)
        ∨ r = UDTOver.void (snd (data_read s3 (mkData []))))).
Proof.
  cbv zeta. unfold UDTOver.read_parameters, UDTOver.read_Data, bind, ret.
  destruct (parse_called s1) as [[a1 n1]|e|]; cbn [assign_parsed];
    unfold bind, modify, fail, panic; cbn [snd UDTOver.void];
    [|right; split; [discriminate | auto]..].
  destruct (parse_calling s2) as [[a2 n2]|e|]; cbn [assign_parsed];
    unfold bind, modify, fail, panic; cbn [snd UDTOver.void];
    [|right; split; [discriminate | auto]..].
  destruct (data_read s3 (mkData [])) as [d [n3|e|]];
    cbn [snd UDTOver.void];
    [left; reflexivity | right; split; [discriminate | auto]..].
Qed.

(** X3 — The decoder of a UDT reads inside the buffer only.  On every
    buffer of octets, whatever the readers of the parameters are, the
    code of [UnmarshalBinary] itself does not panic and returns no error
    but the unexpected end: it either succeeds, or returns the
    unexpected-end error, or ends as one of the three readers ended (by
    an error, which is returned as it is, or by a panic) on a slice of
    the buffer that is not empty.  So if no reader panics, decoding does
    not panic. *)
Theorem udt_decode_never_panics (b : list Z) (u : UDT) :
  Forall is_uint8 b →
  let r := snd (decode b u) in
  (r = Ok tt ∨ r = Err ErrUnexpectedEOF
   ∨ ∃ lo hi s,
       0 ≤ lo ∧ lo < hi ∧ hi ≤ len b ∧ slice b lo hi = Ok s ∧ r ≠ Ok tt
       ∧ (r = UDTOver.void (parse_called s)
          ∨ r = UDTOver.void (parse_calling s)
          ∨ r = UDTOver.void (snd (data_read s (mkData [])))))
  ∧ ((∀ s, parse_called s ≠ Panic) → (∀ s, parse_calling s ≠ Panic) →
     (∀ s, snd (data_read s (mkData [])) ≠ Panic) → r ≠ Panic).
Proof.
  intros Hb. cbv zeta.
  assert (Hmain :
    snd (decode b u) = Ok tt ∨ snd (decode b u) = Err ErrUnexpectedEOF
    ∨ ∃ lo hi s,
        0 ≤ lo ∧ lo < hi ∧ hi ≤ len b ∧ slice b lo hi = Ok s
        ∧ snd (decode b u) ≠ Ok tt
        ∧ (snd (decode b u) = UDTOver.void (parse_called s)
           ∨ snd (decode b u) = UDTOver.void (parse_calling s)
           ∨ snd (decode b u)
             = UDTOver.void (snd (data_read s (mkData []))))).
  { destruct (Z.leb_spec (len b) 4) as [Hs|Hl].
    { right; left. unfold UDTOver.UnmarshalBinary.
      rewrite (proj2 (Z.leb_le _ _) Hs). reflexivity. }
    destruct (index_lt_Ok b 0) as [t H0]; [lia|].
    destruct (index_lt_Ok b 1) as [p1 H1]; [lia|].
    destruct (index_lt_Ok b 2) as [p2 H2]; [lia|].
    destruct (index_lt_Ok b 3) as [p3 H3]; [lia|].
    pose proof (index_uint8 _ _ _ Hb H1) as B1. unfold is_uint8 in B1.
    destruct (Z.ltb_spec (len b) (1 + p1 + 1)) as [Hs1|Hl1].
    { right; left. unfold UDTOver.UnmarshalBinary.
      rewrite (proj2 (Z.leb_gt (len b) 4)) by lia.
      unfold bind, lift, modify. change (1 + 1) with 2.
      change (1 + 2) with 3. rewrite H0, H1, H2, H3. cbv beta iota zeta.
      rewrite (proj2 (Z.ltb_lt _ _) Hs1). reflexivity. }
    destruct (index_lt_Ok b (1 + p1)) as [L1 HL1]; [lia|].
    pose proof (index_uint8 _ _ _ Hb HL1) as BL1. unfold is_uint8 in BL1.
    destruct (Z.ltb_spec (len b) (1 + p1 + L1 + 1 + 1)) as [Hs2|Hl2].
    { right; left. unfold UDTOver.UnmarshalBinary.
      rewrite (proj2 (Z.leb_gt (len b) 4)) by lia.
      unfold bind, lift, modify. change (1 + 1) with 2.
      change (1 + 2) with 3. rewrite H0, H1, H2, H3. cbv beta iota zeta.
      rewrite (proj2 (Z.ltb_ge (len b) (1 + p1 + 1))) by lia.
      rewrite HL1. cbv beta iota.
      rewrite (proj2 (Z.ltb_lt _ _) Hs2). reflexivity. }
    destruct (index_lt_Ok b (1 + p1 + L1 + 1)) as [L2 HL2]; [lia|].
    pose proof (index_uint8 _ _ _ Hb HL2) as BL2. unfold is_uint8 in BL2.
    destruct (Z.ltb_spec (len b) (1 + p1 + L1 + 1 + L2 + 1 + 1))
      as [Hs3|Hl3].
    { right; left. unfold UDTOver.UnmarshalBinary.
      rewrite (proj2 (Z.leb_gt (len b) 4)) by lia.
      unfold bind, lift, modify. change (1 + 1) with 2.
      change (1 + 2) with 3. rewrite H0, H1, H2, H3. cbv beta iota zeta.
      rewrite (proj2 (Z.ltb_ge (len b) (1 + p1 + 1))) by lia.
      rewrite HL1. cbv beta iota.
      rewrite (proj2 (Z.ltb_ge (len b) (1 + p1 + L1 + 1 + 1))) by lia.
      rewrite HL2. cbv beta iota.
      rewrite (proj2 (Z.ltb_lt _ _) Hs3). reflexivity. }
    destruct (index_lt_Ok b (1 + p1 + L1 + 1 + L2 + 1)) as [L3 HL3]; [lia|].
    pose proof (index_uint8 _ _ _ Hb HL3) as BL3. unfold is_uint8 in BL3.
    destruct (Z.ltb_spec (len b) (1 + p1 + L1 + 1 + L2 + 1 + L3 + 1))
      as [Hs4|Hl4].
    { right; left. unfold UDTOver.UnmarshalBinary.
      rewrite (proj2 (Z.leb_gt (len b) 4)) by lia.
      unfold bind, lift, modify. change (1 + 1) with 2.
      change (1 + 2) with 3. rewrite H0, H1, H2, H3. cbv beta iota zeta.
      rewrite (proj2 (Z.ltb_ge (len b) (1 + p1 + 1))) by lia.
      rewrite HL1. cbv beta iota.
      rewrite (proj2 (Z.ltb_ge (len b) (1 + p1 + L1 + 1 + 1))) by lia.
      rewrite HL2. cbv beta iota.
      rewrite (proj2 (Z.ltb_ge (len b) (1 + p1 + L1 + 1 + L2 + 1 + 1)))
        by lia.
      rewrite HL3. cbv beta iota.
      rewrite (proj2 (Z.ltb_lt (len b) (1 + p1 + L1 + 1 + L2 + 1 + L3 + 1))
                 Hs4).
      rewrite !orb_true_r. reflexivity. }
    pose proof (slice_le_Ok b (1 + p1) (1 + p1 + L1 + 1)
                  ltac:(lia) ltac:(lia) ltac:(lia)) as S1.
    pose proof (slice_le_Ok b (1 + p1 + L1 + 1) (1 + p1 + L1 + 1 + L2 + 1)
                  ltac:(lia) ltac:(lia) ltac:(lia)) as S2.
    pose proof (slice_le_Ok b (1 + p1 + L1 + 1 + L2 + 1)
                  (1 + p1 + L1 + 1 + L2 + 1 + L3 + 1)
                  ltac:(lia) ltac:(lia) ltac:(lia)) as S3.
    rewrite (UnmarshalBinary_over_slices b u t p1 p2 p3 L1 L2 L3 _ _ _
               H0 H1 H2 H3 Hl HL1 HL2 HL3 S1 S2 S3).
    destruct (read_parameters_result
                (take (Z.to_nat (1 + p1 + L1 + 1 - (1 + p1)))
                   (drop (Z.to_nat (1 + p1)) b))
                (take (Z.to_nat (1 + p1 + L1 + 1 + L2 + 1
                                 - (1 + p1 + L1 + 1)))
                   (drop (Z.to_nat (1 + p1 + L1 + 1)) b))
                (take (Z.to_nat (1 + p1 + L1 + 1 + L2 + 1 + L3 + 1
                                 - (1 + p1 + L1 + 1 + L2 + 1)))
                   (drop (Z.to_nat (1 + p1 + L1 + 1 + L2 + 1)) b))
                (mkUDT t (ProtocolClass u) (SLS u) (CalledPartyAddress u)
                   (CallingPartyAddress u) (Data u) p1 p2 p3))
      as [Hok | [Hne [Hr | [Hr | Hr]]]].
    - left. exact Hok.
    - right; right. eexists _, _, _. repeat split; [| | |exact S1|exact Hne|];
        [lia..|]. left. exact Hr.
    - right; right. eexists _, _, _. repeat split; [| | |exact S2|exact Hne|];
        [lia..|]. right; left. exact Hr.
    - right; right. eexists _, _, _. repeat split; [| | |exact S3|exact Hne|];
        [lia..|]. right; right. exact Hr. }
  split; [exact Hmain|].
  intros P1 P2 P3 Hp.
  destruct Hmain as [H | [H | (lo & hi & s & _ & _ & _ & _ & _ & H)]];
    [congruence..|].
  rewrite Hp in H. destruct H as [H | [H | H]].
  - specialize (P1 s). destruct (parse_called s); cbn in H; congruence.
  - specialize (P2 s). destruct (parse_calling s); cbn in H; congruence.
  - specialize (P3 s). destruct (snd (data_read s (mkData [])));
      cbn in H; congruence.
Qed.

End OverReaders.

Lemma udt_decode_never_panics_witness :
  let b := [0x09; 0x03; 0; 0; 1; 2; 0; 0] in
  let r := snd (UDTOver.UnmarshalBinary ParseCalledPartyAddress
                  ParseCallingPartyAddress DataCodec.Read b zero) in
  (r = Ok tt ∨ r = Err ErrUnexpectedEOF
   ∨ ∃ lo hi s,
       0 ≤ lo ∧ lo < hi ∧ hi ≤ len b ∧ slice b lo hi = Ok s ∧ r ≠ Ok tt
       ∧ (r = UDTOver.void (ParseCalledPartyAddress s)
          ∨ r = UDTOver.void (ParseCallingPartyAddress s)
          ∨ r = UDTOver.void (snd (DataCodec.Read s (mkData [])))))
  ∧ ((∀ s, ParseCalledPartyAddress s ≠ Panic) →
     (∀ s, ParseCallingPartyAddress s ≠ Panic) →
     (∀ s, snd (DataCodec.Read s (mkData [])) ≠ Panic) → r ≠ Panic).
Proof.
  apply (udt_decode_never_panics ParseCalledPartyAddress
           ParseCallingPartyAddress DataCodec.Read
           [0x09; 0x03; 0; 0; 1; 2; 0; 0] zero).
  repeat constructor; unfold is_uint8; lia.
Defined.

(** X4 — A decoded UDT never passes the protocol class validation.
    [UnmarshalBinary] does not assign the protocol class, so whatever a
    fresh UDT decodes, and whether the decoding fails or not,
    [ValidateProtocolClass] answers that the protocol class is nil and
    [IsValidForProcessing] is false. *)
Theorem udt_decoded_is_not_valid (b : list Z) :
  ValidateProtocolClass (fst (UnmarshalBinary b zero))
    = Err ErrProtocolClassNil ∧
  IsValidForProcessing (fst (UnmarshalBinary b zero)) = false.
Proof.
  unfold IsValidForProcessing, ValidateProtocolClass.
  rewrite (proj1 (UnmarshalBinary_errors b zero)). split; reflexivity.
Qed.

End UDTExtras.

Section UDTLayout.
Import params UDT.

(** Writing at the end of a written prefix extends the prefix. *)
Lemma store_put (x b : list Z) (i v : Z) :
  Z.to_nat i = length x → 0 ≤ i → i < len b →
  store i v (x ++ drop (length x) b)
  = ((x ++ [v]) ++ drop (length (x ++ [v])) b, Ok tt).
Proof.
  intros Hi H0 Hl. unfold len in Hl.
  rewrite store_run
    by (unfold len; rewrite length_app, length_drop; lia).
  f_equal. rewrite Hi.
  rewrite insert_app_r_alt by lia. rewrite Nat.sub_diag.
  destruct (lookup_lt_is_Some_2 b (length x)) as [y Hy]; [lia|].
  rewrite (drop_S _ _ _ Hy). cbn [insert list_insert].
  rewrite <- app_assoc, length_app. cbn [app length].
  replace (length x + 1)%nat with (S (length x)) by lia. reflexivity.
Qed.

Lemma with_slice_put {A} (x y b : list Z) (lo hi : Z)
    (w : list Z → result (list Z * A)) (a : A) :
  Z.to_nat lo = length x → 0 ≤ lo → lo ≤ hi → hi ≤ len b →
  len y ≤ hi - lo →
  (∀ s, len s = hi - lo → w s = Ok (y ++ drop (length y) s, a)) →
  with_slice lo hi w (x ++ drop (length x) b)
  = ((x ++ y) ++ drop (length (x ++ y)) b, Ok a).
Proof.
  intros Hx H0 Hlo Hhi Hy Hw.
  assert (HB : len (x ++ drop (length x) b) = len b).
  { unfold len in *. rewrite length_app, length_drop. lia. }
  erewrite with_slice_run; [| lia | lia | rewrite HB; lia |].
  2:{ apply Hw. rewrite len_slice; rewrite ?HB; lia. }
  unfold len in *.
  f_equal. unfold splice. rewrite Hx.
  rewrite take_app_length, drop_app_length.
  set (R := drop (length x) b).
  set (n := Z.to_nat (hi - lo)).
  assert (Hn : (length y ≤ n ∧ n ≤ length R)%nat).
  { subst n R. rewrite length_drop. lia. }
  rewrite <- !app_assoc. f_equal. f_equal.
  rewrite !length_app, length_drop, length_take.
  replace (length x + (length y + (n `min` length R - length y)))%nat
    with (length x + n)%nat by lia.
  rewrite drop_app_add.
  transitivity (drop (length y) (take n R ++ drop n R)).
  - symmetry. apply drop_app_le. rewrite length_take. lia.
  - rewrite take_drop. subst R. rewrite drop_drop. reflexivity.
Qed.

Lemma ProtocolClass_Write_put (p : params.ProtocolClass) (s : list Z) :
  1 ≤ len s →
  ProtocolClassCodec.Write p s = Ok ([octet p] ++ drop (length [octet p]) s, 1).
Proof.
  intros Hs. unfold ProtocolClassCodec.Write.
  rewrite (proj2 (Z.ltb_ge (len s) 1)) by lia.
  destruct s as [|z s]; [unfold len in Hs; cbn [length] in Hs; lia|].
  reflexivity.
Qed.

Lemma PartyAddress_Write_put (p : PartyAddress) (s : list Z) :
  1 + len (address_octets p) ≤ len s →
  PartyAddressCodec.Write p s
  = Ok ((uint8 (len (address_octets p)) :: address_octets p)
          ++ drop (length (uint8 (len (address_octets p)) :: address_octets p)) s,
        1 + len (address_octets p)).
Proof.
  intros Hs. unfold PartyAddressCodec.Write, PartyAddressCodec.MarshalLen.
  rewrite (proj2 (Z.ltb_ge (len s) _)) by lia. reflexivity.
Qed.

Lemma Data_Write_put (d : params.Data) (s : list Z) :
  1 + len (value d) ≤ len s →
  DataCodec.Write d s
  = Ok ((uint8 (len (value d)) :: value d)
          ++ drop (length (uint8 (len (value d)) :: value d)) s,
        1 + len (value d)).
Proof.
  intros Hs. unfold DataCodec.Write, DataCodec.MarshalLen.
  rewrite (proj2 (Z.ltb_ge (len s) _)) by lia. reflexivity.
Qed.

Lemma len_NewUDT_wire (pcls : Z) (retOnErr : bool) (cdpa cgpa : PartyAddress)
    (data : list Z) :
  len (NewUDT_wire pcls retOnErr cdpa cgpa data)
  = 8 + len (address_octets cdpa) + len (address_octets cgpa) + len data.
Proof.
  unfold NewUDT_wire, len. cbv zeta.
  cbn [app length]. rewrite !length_app. cbn [length].
  rewrite ?length_app. cbn [length]. lia.
Qed.

(** The buffer that [MarshalTo] leaves when the message fits. *)
Lemma MarshalTo_NewUDT_run (pcls : Z) (retOnErr : bool)
    (cdpa cgpa : PartyAddress) (data : list Z) (b : list Z) :
  len (address_octets cdpa) + len (address_octets cgpa) ≤ 248 →
  8 + len (address_octets cdpa) + len (address_octets cgpa) + len data
    ≤ len b →
  MarshalTo (NewUDT pcls retOnErr cdpa cgpa data) b
  = (NewUDT_wire pcls retOnErr cdpa cgpa data
       ++ drop (length (NewUDT_wire pcls retOnErr cdpa cgpa data)) b,
     Ok tt).
Proof.
  intros Hfit Hb.
  destruct (NewUDT_pointers pcls retOnErr cdpa cgpa data Hfit)
    as (P1 & P2 & P3 & E2 & E3).
  pose proof (len_nonneg (address_octets cdpa)) as Hcd0.
  pose proof (len_nonneg (address_octets cgpa)) as Hcg0.
  pose proof (len_nonneg data) as Hd0.
  assert (U1 : uint8 (len (address_octets cdpa)) = len (address_octets cdpa))
    by (unfold uint8; Z.to_euclidean_division_equations; lia).
  assert (U2 : uint8 (len (address_octets cgpa)) = len (address_octets cgpa))
    by (unfold uint8; Z.to_euclidean_division_equations; lia).
  unfold MarshalTo. rewrite E2, E3, P1, P2, P3.
  cbn [NewUDT ProtocolClass CalledPartyAddress CallingPartyAddress Data
       Type_ set_ptr1 set_ptr2 set_ptr3 through].
  cbv zeta.
  rewrite (bind_run get _ b b b) by reflexivity.
  rewrite (proj2 (Z.ltb_ge (len b) 6)) by lia.
  erewrite bind_run by (apply (store_put [] b 0); [reflexivity | lia..]).
  erewrite bind_run.
  2:{ eapply (with_slice_put _
                 [octet (NewProtocolClass pcls retOnErr)]).
      - reflexivity.
      - lia.
      - lia.
      - lia.
      - unfold len in *. cbn [length]. lia.
      - intros s Hs. apply ProtocolClass_Write_put. lia. }
  erewrite bind_run by (apply store_put; [reflexivity | lia..]).
  erewrite bind_run by (apply store_put; [reflexivity | lia..]).
  erewrite bind_run by (apply store_put; [reflexivity | lia..]).
  erewrite bind_run.
  2:{ eapply (with_slice_put _
                 (uint8 (len (address_octets cdpa)) :: address_octets cdpa)).
      - reflexivity.
      - lia.
      - lia.
      - lia.
      - unfold len in *. cbn [length]. lia.
      - intros s Hs. apply PartyAddress_Write_put. lia. }
  erewrite bind_run.
  2:{ eapply (with_slice_put _
                 (uint8 (len (address_octets cgpa)) :: address_octets cgpa)).
      - rewrite length_app. unfold len. cbn [length app]. lia.
      - lia.
      - lia.
      - lia.
      - unfold len in *. cbn [length]. lia.
      - intros s Hs. apply PartyAddress_Write_put. lia. }
  erewrite bind_run.
  2:{ eapply (with_slice_put _ (uint8 (len data) :: data)).
      - rewrite !length_app. unfold len. cbn [length app]. lia.
      - lia.
      - lia.
      - lia.
      - unfold len in *. cbn [length value NewData]. lia.
      - intros s Hs. apply Data_Write_put. cbn [value NewData]. lia. }
  unfold ret. rewrite U1, U2. unfold NewUDT_wire. cbv zeta.
  cbn [value NewData]. rewrite <- !app_assoc. reflexivity.
Qed.

(** A successful [MarshalTo] means that the message fits. *)
Lemma MarshalTo_NewUDT_fits (pcls : Z) (retOnErr : bool)
    (cdpa cgpa : PartyAddress) (data : list Z) (b b' : list Z) :
  MarshalTo (NewUDT pcls retOnErr cdpa cgpa data) b = (b', Ok tt) →
  len (address_octets cdpa) + len (address_octets cgpa) ≤ 248 ∧
  8 + len (address_octets cdpa) + len (address_octets cgpa) + len data
    ≤ len b.
Proof.
  intros H.
  eapply MarshalTo_Ok in H; try reflexivity. cbv zeta in H.
  destruct H as ((Hcd & Hcg & Hd) & _).
  cbn [NewUDT ptr1 ptr2 ptr3 set_ptr1 set_ptr2 set_ptr3 value NewData]
    in Hcd, Hcg, Hd.
  unfold PartyAddressCodec.MarshalLen in *.
  pose proof (len_nonneg (address_octets cdpa)) as Hcd0.
  pose proof (len_nonneg (address_octets cgpa)) as Hcg0.
  pose proof (len_nonneg data) as Hd0.
  revert Hcd Hcg Hd Hcd0 Hcg0 Hd0.
  generalize (len (address_octets cdpa)) (len (address_octets cgpa))
    (len data) (len b).
  intros Lcd Lcg Ld l. unfold uint8.
  intros. Z.to_euclidean_division_equations. lia.
Qed.

(** X5 — The wire layout of [MarshalTo] for a UDT of [NewUDT].  The
    encoding succeeds exactly when the two addresses have at most 248
    octets together, so that the one-octet pointers do not wrap around,
    and the buffer has room for 8 octets more than the addresses and the
    data.  The buffer then starts with the message type, the protocol
    class octet, the pointers 3, 3 + L_cd and 3 + L_cd + L_cg, followed at
    once by the Called address, the Calling address and the data, each
    behind its length octet; the octets behind the message are not
    touched. *)
Theorem udt_marshal_to_layout (pcls : Z) (retOnErr : bool)
    (cdpa cgpa : PartyAddress) (data : list Z) (b b' : list Z) :
  MarshalTo (NewUDT pcls retOnErr cdpa cgpa data) b = (b', Ok tt) ↔
  len (address_octets cdpa) + len (address_octets cgpa) ≤ 248 ∧
  8 + len (address_octets cdpa) + len (address_octets cgpa) + len data
    ≤ len b ∧
  b' = NewUDT_wire pcls retOnErr cdpa cgpa data
         ++ drop (length (NewUDT_wire pcls retOnErr cdpa cgpa data)) b.
Proof.
  split.
  - intros H.
    destruct (MarshalTo_NewUDT_fits _ _ _ _ _ _ _ H) as [Hfit Hb].
    split; [exact Hfit|]. split; [exact Hb|].
    rewrite (MarshalTo_NewUDT_run _ _ _ _ _ _ Hfit Hb) in H.
    apply (f_equal fst) in H. cbn [fst] in H. symmetry. exact H.
  - intros (Hfit & Hb & ->). apply MarshalTo_NewUDT_run; assumption.
Qed.

(** X6 — [MarshalBinary] of a UDT and the address length that
    [MarshalLen] has built in.  [MarshalLen] counts 11 octets for each
    address, whatever its length, and one octet for an SLS that is not
    written.  So [MarshalBinary] encodes a UDT of [NewUDT] exactly when
    its two addresses have at most 24 octets together; for longer ones
    the buffer it makes is too short and it fails.  What it returns is the
    message followed by the octets counted in excess, all zero: two of
    them for two addresses of 11 octets. *)
Theorem udt_marshal_binary_fits (pcls : Z) (retOnErr : bool)
    (cdpa cgpa : PartyAddress) (data : list Z) (b' : list Z) :
  MarshalBinary (NewUDT pcls retOnErr cdpa cgpa data) = Ok b' ↔
  len (address_octets cdpa) + len (address_octets cgpa) ≤ 24 ∧
  b' = NewUDT_wire pcls retOnErr cdpa cgpa data
         ++ replicate
              (Z.to_nat (24 - len (address_octets cdpa)
                            - len (address_octets cgpa))) 0.
Proof.
  unfold MarshalBinary.
  assert (HL : MarshalLen (NewUDT pcls retOnErr cdpa cgpa data)
               = 32 + len data).
  { unfold MarshalLen, DataCodec.MarshalLen.
    cbn [NewUDT set_ptr1 set_ptr2 set_ptr3 CalledPartyAddress
         CallingPartyAddress Data NewData value]. lia. }
  rewrite HL.
  set (buf := replicate (Z.to_nat (32 + len data)) 0).
  assert (Hbuf : len buf = 32 + len data).
  { subst buf. unfold len. rewrite length_replicate. lia. }
  pose proof (len_nonneg (address_octets cdpa)) as Hcd0.
  pose proof (len_nonneg (address_octets cgpa)) as Hcg0.
  pose proof (len_NewUDT_wire pcls retOnErr cdpa cgpa data) as Hw.
  assert (Hdrop : len (address_octets cdpa) + len (address_octets cgpa) ≤ 24 →
    drop (length (NewUDT_wire pcls retOnErr cdpa cgpa data)) buf
    = replicate (Z.to_nat (24 - len (address_octets cdpa)
                              - len (address_octets cgpa))) 0).
  { intros Hfit. subst buf. rewrite drop_replicate. f_equal.
    unfold len in *. lia. }
  split.
  - destruct (MarshalTo _ buf) as [b2 [[]|e|]] eqn:Hm; try discriminate.
    intros [= <-].
    destruct (MarshalTo_NewUDT_fits _ _ _ _ _ _ _ Hm) as [Hfit Hb].
    assert (Hfit' : len (address_octets cdpa) + len (address_octets cgpa) ≤ 24)
      by lia.
    split; [exact Hfit'|].
    rewrite (MarshalTo_NewUDT_run _ _ _ _ _ _ Hfit Hb) in Hm.
    apply (f_equal fst) in Hm. cbn [fst] in Hm.
    rewrite <- Hm, Hdrop by assumption. reflexivity.
  - intros (Hfit & ->).
    rewrite MarshalTo_NewUDT_run by lia.
    rewrite Hdrop by assumption. reflexivity.
Qed.

End UDTLayout.

Section UDTDecoderLayout.
Import params UDT.

Lemma index_app_at (pre post : list Z) (x i : Z) :
  i = len pre → index (pre ++ x :: post) i = Ok x.
Proof.
  intros ->. unfold index, len.
  rewrite (proj2 (Z.leb_le 0 _)) by lia.
  rewrite Nat2Z.id, list_lookup_middle by reflexivity. reflexivity.
Qed.

Lemma slice_app_mid (pre s post : list Z) (lo hi : Z) :
  lo = len pre → hi = lo + len s → slice (pre ++ s ++ post) lo hi = Ok s.
Proof.
  intros -> ->. unfold len.
  rewrite slice_le_Ok
    by (unfold len; rewrite ?length_app; lia).
  rewrite Nat2Z.id, drop_app_length.
  replace (Z.to_nat (_ + _ - _)) with (length s) by lia.
  rewrite take_app_length. reflexivity.
Qed.

Section LayoutOverReaders.

Variable parse_called : list Z → result (PartyAddress * Z).
Variable parse_calling : list Z → result (PartyAddress * Z).
Variable data_read : list Z → M params.Data Z.

Local Abbreviation decode :=
  (UDTOver.UnmarshalBinary parse_called parse_calling data_read).

(** On a frame of the decoder's layout the decoder is the three readers,
    each on its parameter with the length octet in front. *)
Lemma decode_frame_readers (t p2 p3 : Z) (pad a1 a2 d rest : list Z)
    (u : UDT) :
  decode (decoder_frame t p2 p3 pad a1 a2 d rest) u
  = UDTOver.read_parameters parse_called parse_calling data_read
      (len a1 :: a1) (len a2 :: a2) (len d :: d)
      (mkUDT t (ProtocolClass u) (SLS u) (CalledPartyAddress u)
         (CallingPartyAddress u) (Data u) (3 + len pad) p2 p3).
Proof.
  pose proof (len_nonneg pad) as Hpad.
  pose proof (len_nonneg a1) as H1.
  pose proof (len_nonneg a2) as H2.
  pose proof (len_nonneg d) as H3.
  eapply (UnmarshalBinary_over_slices parse_called parse_calling data_read
            _ u t (3 + len pad) p2 p3 (len a1) (len a2) (len d));
    unfold decoder_frame.
  - reflexivity.
  - reflexivity.
  - reflexivity.
  - reflexivity.
  - unfold len. rewrite !length_app. cbn [length]. lia.
  - rewrite (app_assoc [_; _; _; _] pad).
    apply index_app_at. unfold len. rewrite length_app. cbn [length]. lia.
  - rewrite (app_assoc [_; _; _; _] pad), (app_assoc _ (len a1 :: a1)).
    apply index_app_at. unfold len. rewrite !length_app. cbn [length]. lia.
  - rewrite (app_assoc [_; _; _; _] pad), (app_assoc _ (len a1 :: a1)),
      (app_assoc _ (len a2 :: a2)).
    apply index_app_at. unfold len. rewrite !length_app. cbn [length]. lia.
  - rewrite (app_assoc [_; _; _; _] pad).
    apply slice_app_mid; unfold len; rewrite ?length_app; cbn [length]; lia.
  - rewrite (app_assoc [_; _; _; _] pad), (app_assoc _ (len a1 :: a1)).
    apply slice_app_mid; unfold len; rewrite ?length_app; cbn [length]; lia.
  - rewrite (app_assoc [_; _; _; _] pad), (app_assoc _ (len a1 :: a1)),
      (app_assoc _ (len a2 :: a2)).
    apply slice_app_mid; unfold len; rewrite ?length_app; cbn [length]; lia.
Qed.

Lemma decode_frame_accepted (t p2 p3 : Z) (pad a1 a2 d rest : list Z)
    (u : UDT) (A1 A2 : PartyAddress) (D : params.Data) (n1 n2 n3 : Z) :
  parse_called (len a1 :: a1) = Ok (A1, n1) →
  parse_calling (len a2 :: a2) = Ok (A2, n2) →
  data_read (len d :: d) (mkData []) = (D, Ok n3) →
  decode (decoder_frame t p2 p3 pad a1 a2 d rest) u
  = (mkUDT t (ProtocolClass u) (SLS u) (Some A1) (Some A2) (Some D)
       (3 + len pad) p2 p3,
     Ok tt).
Proof.
  intros Ha1 Ha2 Hd. rewrite decode_frame_readers.
  unfold UDTOver.read_parameters, UDTOver.read_Data, bind, ret.
  rewrite Ha1. cbn [assign_parsed modify]. rewrite Ha2.
  cbn [assign_parsed modify]. rewrite Hd. reflexivity.
Qed.

(** X7 — What [UnmarshalBinary] decodes, whatever the readers of the
    parameters are.  Take a frame that carries the three pointers right
    behind the message type (no protocol class octet), the first pointer
    leading to the length octet of the Called address, and the three
    parameters one behind the other.  The Called reader is handed the
    first parameter with its length octet, the Calling reader the second,
    the Data reader the third.  If the three accept, the decoder returns
    what they read; the second and third pointer are stored as they are
    and otherwise not used, the octets behind the data are ignored, the
    protocol class and the SLS of the receiver stay as they were, and the
    type octet is stored unchecked in [Type] while [MessageType] answers
    UDT.  An error of a reader is returned as it is, and the readers
    behind it are not what is returned. *)
Theorem udt_decode_own_layout (t p2 p3 : Z) (pad a1 a2 d rest : list Z)
    (u : UDT) :
  let r := decode (decoder_frame t p2 p3 pad a1 a2 d rest) u in
  (∀ A1 n1 A2 n2 D n3,
     parse_called (len a1 :: a1) = Ok (A1, n1) →
     parse_calling (len a2 :: a2) = Ok (A2, n2) →
     data_read (len d :: d) (mkData []) = (D, Ok n3) →
     r = (mkUDT t (ProtocolClass u) (SLS u) (Some A1) (Some A2) (Some D)
            (3 + len pad) p2 p3,
          Ok tt)
     ∧ Type_ (fst r) = t
     ∧ UDTMethods.MessageType (fst r) = MsgTypeUDT)
  ∧ (∀ e, parse_called (len a1 :: a1) = Err e → snd r = Err e)
  ∧ (∀ A1 n1 e,
       parse_called (len a1 :: a1) = Ok (A1, n1) →
       parse_calling (len a2 :: a2) = Err e → snd r = Err e)
  ∧ (∀ A1 n1 A2 n2 D e,
       parse_called (len a1 :: a1) = Ok (A1, n1) →
       parse_calling (len a2 :: a2) = Ok (A2, n2) →
       data_read (len d :: d) (mkData []) = (D, Err e) → snd r = Err e).
Proof.
  cbv zeta. split; [|split; [|split]].
  - intros A1 n1 A2 n2 D n3 Ha1 Ha2 Hd.
    rewrite (decode_frame_accepted _ _ _ _ _ _ _ _ _ _ _ _ _ _ _ Ha1 Ha2 Hd).
    repeat split.
  - intros e Ha1. rewrite decode_frame_readers.
    unfold UDTOver.read_parameters, bind. rewrite Ha1. reflexivity.
  - intros A1 n1 e Ha1 Ha2. rewrite decode_frame_readers.
    unfold UDTOver.read_parameters, bind. rewrite Ha1.
    cbn [assign_parsed modify]. rewrite Ha2. reflexivity.
  - intros A1 n1 A2 n2 D e Ha1 Ha2 Hd. rewrite decode_frame_readers.
    unfold UDTOver.read_parameters, UDTOver.read_Data, bind. rewrite Ha1.
    cbn [assign_parsed modify]. rewrite Ha2. cbn [assign_parsed modify].
    rewrite Hd. reflexivity.
Qed.

(** X8 — The decoder inverts the encoder once the protocol class octet
    is taken out, for readers that accept what the writers wrote.  Take a
    UDT of [NewUDT] with at most 255 octets of data and the buffer that
    [MarshalTo] filled, without its octet at offset 1.  If the Called
    reader returns the Called address from its octets behind their
    length octet, and the Calling and the Data reader likewise, the
    buffer decodes into the same message type, addresses, data and
    pointers; the protocol class is what is lost. *)
Theorem udt_round_trip_without_class_octet (pcls : Z) (retOnErr : bool)
    (cdpa cgpa : PartyAddress) (data : list Z) (b b' : list Z)
    (n1 n2 n3 : Z) :
  len data ≤ 255 →
  MarshalTo (NewUDT pcls retOnErr cdpa cgpa data) b = (b', Ok tt) →
  parse_called (len (address_octets cdpa) :: address_octets cdpa)
  = Ok (cdpa, n1) →
  parse_calling (len (address_octets cgpa) :: address_octets cgpa)
  = Ok (cgpa, n2) →
  data_read (len data :: data) (mkData []) = (NewData data, Ok n3) →
  let u := NewUDT pcls retOnErr cdpa cgpa data in
  decode (delete 1%nat b') zero
  = (mkUDT (Type_ u) None (SLS u) (CalledPartyAddress u)
       (CallingPartyAddress u) (Data u) (ptr1 u) (ptr2 u) (ptr3 u),
     Ok tt).
Proof.
  intros Hd H Ha1 Ha2 Hda. cbv zeta.
  destruct (MarshalTo_NewUDT_fits _ _ _ _ _ _ _ H) as [Hfit Hb].
  rewrite (MarshalTo_NewUDT_run _ _ _ _ _ _ Hfit Hb) in H.
  apply (f_equal fst) in H. cbn [fst] in H. subst b'.
  destruct (NewUDT_pointers pcls retOnErr cdpa cgpa data Hfit)
    as (P1 & P2 & P3 & _).
  rewrite P1, P2, P3.
  pose proof (len_nonneg data) as Hd0.
  assert (U : uint8 (len data) = len data)
    by (unfold uint8; Z.to_euclidean_division_equations; lia).
  set (tail := drop _ b).
  assert (E : delete 1%nat (NewUDT_wire pcls retOnErr cdpa cgpa data ++ tail)
              = decoder_frame MsgTypeUDT (3 + len (address_octets cdpa))
                  (3 + len (address_octets cdpa) + len (address_octets cgpa))
                  [] (address_octets cdpa) (address_octets cgpa) data tail).
  { unfold NewUDT_wire, decoder_frame. cbv zeta. rewrite U.
    cbn [app delete list_delete]. rewrite <- !app_assoc.
    cbn [app]. rewrite <- !app_assoc. reflexivity. }
  rewrite E.
  rewrite (decode_frame_accepted _ _ _ _ _ _ _ _ _ _ _ _ _ _ _ Ha1 Ha2 Hda).
  reflexivity.
Qed.

End LayoutOverReaders.

End UDTDecoderLayout.

Section UDTDecodeAgain.
Import params UDT.

Lemma udt_decode_own_layout_witness :
  let r := UDTOver.UnmarshalBinary ParseCalledPartyAddress
             ParseCallingPartyAddress DataCodec.Read
             (Scenario.plain_frame 6 9) zero in
  r = (mkUDT 9 None 0 (Some (mkPartyAddress [0x42; 0x08]))
         (Some (mkPartyAddress [0x42; 0x06])) (Some (mkData [0xAA]))
         3 6 9,
       Ok tt)
  ∧ Type_ (fst r) = 9
  ∧ UDTMethods.MessageType (fst r) = MsgTypeUDT.
Proof.
  exact (proj1 (udt_decode_own_layout ParseCalledPartyAddress
                  ParseCallingPartyAddress DataCodec.Read
                  9 6 9 [] [0x42; 0x08] [0x42; 0x06] [0xAA] [] zero)
           (mkPartyAddress [0x42; 0x08]) 3 (mkPartyAddress [0x42; 0x06]) 3
           (mkData [0xAA]) 2 eq_refl eq_refl eq_refl).
Defined.

Lemma udt_round_trip_without_class_octet_witness :
  let u := Scenario.S3 in
  UDTOver.UnmarshalBinary ParseCalledPartyAddress ParseCallingPartyAddress
    DataCodec.Read (delete 1%nat Scenario.S3_frame) zero
  = (mkUDT (Type_ u) None (SLS u) (CalledPartyAddress u)
       (CallingPartyAddress u) (Data u) (ptr1 u) (ptr2 u) (ptr3 u),
     Ok tt).
Proof.
  apply (udt_round_trip_without_class_octet ParseCalledPartyAddress
           ParseCallingPartyAddress DataCodec.Read 1 true Scenario.called
           Scenario.calling Scenario.payload (replicate 35 0)
           Scenario.S3_frame 12 12 4).
  - vm_compute. discriminate.
  - vm_compute. reflexivity.
  - vm_compute. reflexivity.
  - vm_compute. reflexivity.
  - vm_compute. reflexivity.
Defined.

Lemma index_app_l (b rest : list Z) (i x : Z) :
  index b i = Ok x → index (b ++ rest) i = Ok x.
Proof.
  unfold index. destruct (0 <=? i); [|discriminate].
  destruct (b !! Z.to_nat i) as [y|] eqn:E; [|discriminate].
  intros [= <-]. rewrite (lookup_app_l_Some _ _ _ _ E). reflexivity.
Qed.

Lemma slice_app_l (b rest : list Z) (lo hi : Z) (s : list Z) :
  slice b lo hi = Ok s → slice (b ++ rest) lo hi = Ok s.
Proof.
  intros H. apply slice_Ok in H as (Hlo & Hhi & Hl & -> & _).
  unfold len in Hl.
  rewrite slice_le_Ok by (unfold len; rewrite ?length_app; lia).
  rewrite drop_app_le by lia.
  rewrite take_app_le by (rewrite length_drop; lia). reflexivity.
Qed.

(** A successful decoding, with the message it leaves in the receiver
    written out. *)
Lemma UnmarshalBinary_Ok_value (b : list Z) (u v : UDT) :
  UnmarshalBinary b u = (v, Ok tt) →
  ∃ t p1 p2 p3 L1 L2 L3 s1 s2 s3 a1 n1 a2 n2 d n3,
    let o1 := 1 + p1 in
    let o2 := o1 + L1 + 1 in
    let o3 := o2 + L2 + 1 in
    (index b 0 = Ok t ∧ index b 1 = Ok p1 ∧
     index b 2 = Ok p2 ∧ index b 3 = Ok p3 ∧ 4 < len b) ∧
    (index b o1 = Ok L1 ∧ index b o2 = Ok L2 ∧ index b o3 = Ok L3) ∧
    (slice b o1 o2 = Ok s1 ∧ slice b o2 o3 = Ok s2 ∧
     slice b o3 (o3 + L3 + 1) = Ok s3) ∧
    (ParseCalledPartyAddress s1 = Ok (a1, n1) ∧
     ParseCallingPartyAddress s2 = Ok (a2, n2) ∧
     DataCodec.Read s3 (mkData []) = (d, Ok n3)) ∧
    v = mkUDT t (ProtocolClass u) (SLS u) (Some a1) (Some a2) (Some d)
          p1 p2 p3.
Proof.
  intros H.
  assert (Hl : 4 < len b).
  { destruct (Z.leb_spec (len b) 4) as [Hle|]; [|assumption].
    unfold UnmarshalBinary in H.
    rewrite (proj2 (Z.leb_le _ _) Hle) in H. discriminate H. }
  destruct (index_lt_Ok b 0) as [t H0]; [lia|].
  destruct (index_lt_Ok b 2) as [p2 H2]; [lia|].
  destruct (index_lt_Ok b 3) as [p3 H3]; [lia|].
  pose proof H as H'.
  apply UnmarshalBinary_Ok in H'
    as (p1 & L1 & L2 & L3 & s1 & s2 & s3 & a1 & n1 & a2 & n2 & d & n3 & H').
  cbv zeta in H'.
  destruct H' as (H1 & HL1 & HL2 & HL3 & Hs1 & Hs2 & Hs3 & Ha1 & Ha2 & Hd & _).
  exists t, p1, p2, p3, L1, L2, L3, s1, s2, s3, a1, n1, a2, n2, d, n3.
  cbv zeta. repeat (split; [auto|]).
  rewrite (UnmarshalBinary_run b u t p1 p2 p3 L1 L2 L3 s1 s2 s3 a1 a2
             n1 n2 n3 d) in H by assumption.
  apply (f_equal fst) in H. cbn [fst] in H. symmetry. exact H.
Qed.

(** Decoding again into the receiver that holds the message. *)
Lemma udt_decode_again (b : list Z) (u v : UDT) :
  UnmarshalBinary b u = (v, Ok tt) → UnmarshalBinary b v = (v, Ok tt).
Proof.
  intros H.
  apply UnmarshalBinary_Ok_value in H
    as (t & p1 & p2 & p3 & L1 & L2 & L3 & s1 & s2 & s3 & a1 & n1 & a2 & n2
        & d & n3 & H).
  cbv zeta in H.
  destruct H as ((H0 & H1 & H2 & H3 & Hl) & (HL1 & HL2 & HL3)
                 & (Hs1 & Hs2 & Hs3) & (Ha1 & Ha2 & Hd) & ->).
  exact (UnmarshalBinary_run b
           (mkUDT t (ProtocolClass u) (SLS u) (Some a1) (Some a2) (Some d)
              p1 p2 p3)
           t p1 p2 p3 L1 L2 L3 s1 s2 s3 a1 a2 n1 n2 n3 d
           H0 H1 H2 H3 Hl HL1 HL2 HL3 Hs1 Hs2 Hs3 Ha1 Ha2 Hd).
Qed.

(** X9 — Decoding a UDT looks at the message only, and can be done
    again.  When a buffer decodes, the same buffer with any octets
    appended decodes into the same message, and decoding the buffer once
    more into the receiver that holds the message changes nothing (as
    [ParseMessage] does, which decodes a UDT twice). *)
Theorem udt_decode_trailing_and_again (b : list Z) (u v : UDT) :
  UnmarshalBinary b u = (v, Ok tt) →
  (∀ rest, UnmarshalBinary (b ++ rest) u = (v, Ok tt)) ∧
  UnmarshalBinary b v = (v, Ok tt).
Proof.
  intros H.
  apply UnmarshalBinary_Ok_value in H
    as (t & p1 & p2 & p3 & L1 & L2 & L3 & s1 & s2 & s3 & a1 & n1 & a2 & n2
        & d & n3 & H).
  cbv zeta in H.
  destruct H as ((H0 & H1 & H2 & H3 & Hl) & (HL1 & HL2 & HL3)
                 & (Hs1 & Hs2 & Hs3) & (Ha1 & Ha2 & Hd) & ->).
  split.
  - intros rest.
    apply (UnmarshalBinary_run _ u t p1 p2 p3 L1 L2 L3 s1 s2 s3 a1 a2
             n1 n2 n3 d);
      auto using index_app_l, slice_app_l.
    unfold len in *. rewrite length_app. lia.
  - exact (UnmarshalBinary_run b
             (mkUDT t (ProtocolClass u) (SLS u) (Some a1) (Some a2) (Some d)
                p1 p2 p3)
             t p1 p2 p3 L1 L2 L3 s1 s2 s3 a1 a2 n1 n2 n3 d
             H0 H1 H2 H3 Hl HL1 HL2 HL3 Hs1 Hs2 Hs3 Ha1 Ha2 Hd).
Qed.

Lemma udt_decode_trailing_and_again_witness :
  let b := Scenario.plain_frame 6 9 in
  let v := fst (UnmarshalBinary b zero) in
  (∀ rest, UnmarshalBinary (b ++ rest) zero = (v, Ok tt)) ∧
  UnmarshalBinary b v = (v, Ok tt).
Proof.
  apply (udt_decode_trailing_and_again (Scenario.plain_frame 6 9) zero).
  vm_compute. reflexivity.
Defined.

End UDTDecodeAgain.

Section AddressExtras.
Import SCMG Address.

(** X10 — [createSCCPAddress] puts the point code in little-endian
    order behind the address indicator, with the same two octets that
    the SCMG encoding has at offsets 2 and 3, and the subsystem number
    last.  Read back as a 16-bit little-endian number the two octets are
    the point code. *)
Theorem create_sccp_address_point_code (ai pc ssn : Z) :
  is_uint16 pc →
  ∃ lo hi,
    createSCCPAddress ai pc ssn = [ai; lo; hi; ssn] ∧
    LittleEndian.Uint16 [lo; hi] = Ok pc ∧
    ∀ typ smi scl wire,
      MarshalBinary (NewSCMG typ ssn pc smi scl) = Ok wire →
      wire !! 2%nat = Some lo ∧ wire !! 3%nat = Some hi.
Proof.
  intros Hpc. exists (uint8 pc), (uint8 (pc ≫ 8)).
  assert (Hlo : uint8 (Z.land pc 255) = uint8 pc).
  { unfold uint8. change 255 with (Z.ones 8). rewrite Z.land_ones by lia.
    change (2 ^ 8) with 256. apply Z.mod_mod. lia. }
  assert (Hhi : uint8 (Z.land (pc ≫ 8) 255) = uint8 (pc ≫ 8)).
  { unfold uint8. change 255 with (Z.ones 8). rewrite Z.land_ones by lia.
    change (2 ^ 8) with 256. apply Z.mod_mod. lia. }
  split; [|split].
  - unfold createSCCPAddress. cbv zeta. cbn [app]. rewrite Hlo, Hhi.
    reflexivity.
  - unfold LittleEndian.Uint16. cbn [lookup list_lookup].
    rewrite uint16_split by assumption. reflexivity.
  - intros typ smi scl wire Hw. rewrite MarshalBinary_octets in Hw.
    injection Hw as <-. split; reflexivity.
Qed.

Lemma create_sccp_address_point_code_witness :
  ∃ lo hi,
    createSCCPAddress 0x43 0x1234 8 = [0x43; lo; hi; 8] ∧
    LittleEndian.Uint16 [lo; hi] = Ok 0x1234 ∧
    ∀ typ smi scl wire,
      MarshalBinary (NewSCMG typ 8 0x1234 smi scl) = Ok wire →
      wire !! 2%nat = Some lo ∧ wire !! 3%nat = Some hi.
Proof.
  apply (create_sccp_address_point_code 0x43 0x1234 8).
  unfold is_uint16. lia.
Defined.

End AddressExtras.

Section DispatchExtras.
Import params UDT Dispatch.

Variable XUDT : Type.
Variable XUDT_zero : XUDT.
Variable XUDT_UnmarshalBinary : list Z → M XUDT unit.

Local Abbreviation ParseMessage' := (ParseMessage XUDT XUDT_zero XUDT_UnmarshalBinary).

(** X11 — What [ParseMessage] refuses.  An empty buffer gives the
    unexpected-end error behind the message of an invalid SCCP message.
    A buffer whose first octet is neither UDT (9) nor XUDT (17) gives
    [UnsupportedTypeError] of that octet, whatever follows it: so do the
    eighteen other message types of the table, and 0 and everything above
    20. *)
Theorem parse_message_refuses :
  ParseMessage' []
  = Fails (Wrapped "invalid SCCP message %v: %w" (Plain ErrUnexpectedEOF))
  ∧ ∀ t rest, t ≠ MsgTypeUDT → t ≠ MsgTypeXUDT →
      ParseMessage' (t :: rest) = Fails (UnsupportedTypeError t).
Proof.
  split; [reflexivity|].
  intros t rest H9 H17. unfold ParseMessage.
  rewrite (proj2 (Z.ltb_ge _ 1)) by (unfold len; cbn [length]; lia).
  change (index (t :: rest) 0) with (Ok t : result Z). cbv iota beta.
  rewrite (proj2 (Z.eqb_neq _ _) H9), (proj2 (Z.eqb_neq _ _) H17).
  reflexivity.
Qed.

(** X12 — [ParseMessage] on a UDT.  For a buffer that starts with the
    UDT type octet, [ParseMessage] returns what [UnmarshalBinary] leaves
    in a fresh UDT when it succeeds (the second decoding that follows the
    switch changes nothing), and the error of [UnmarshalBinary] behind
    the message of a failed UDT parse when it fails.  A message it
    returns carries the type of the first octet. *)
Theorem parse_message_udt (rest : list Z) :
  let b := MsgTypeUDT :: rest in
  (∀ v, UDT.UnmarshalBinary b UDT.zero = (v, Ok tt) →
        ParseMessage' b = Returns (MessageUDT XUDT v) ∧
        UDT.Type_ v = MsgTypeUDT) ∧
  (∀ e, snd (UDT.UnmarshalBinary b UDT.zero) = Err e →
        ParseMessage' b
        = Fails (Wrapped "failed to parse UDT message: %w" (Plain e))).
Proof.
  cbv zeta. unfold ParseMessage.
  rewrite (proj2 (Z.ltb_ge _ 1)) by (unfold len; cbn [length]; lia).
  change (index (MsgTypeUDT :: rest) 0) with (Ok MsgTypeUDT : result Z).
  cbv iota beta. rewrite Z.eqb_refl.
  unfold ParseMessage_decode, Message_UnmarshalBinary. split.
  - intros v Hv. rewrite Hv.
    pose proof (UnmarshalBinary_Ok_value _ _ _ Hv) as Hval.
    destruct Hval as (t & p1 & p2 & p3 & L1 & L2 & L3 & s1 & s2 & s3 & a1
                      & n1 & a2 & n2 & d & n3 & Hval).
    cbv zeta in Hval. destruct Hval as ((H0 & _) & _ & _ & _ & Hv').
    injection H0 as <-.
    rewrite (udt_decode_again _ _ _ Hv). split; [reflexivity|]. rewrite Hv'. reflexivity.
  - intros e He.
    destruct (UDT.UnmarshalBinary (MsgTypeUDT :: rest) UDT.zero) as [v r].
    cbn [snd] in He. subst r. reflexivity.
Qed.

End DispatchExtras.

Lemma parse_message_refuses_witness :
  Dispatch.ParseMessage unit tt (λ _, ret tt) [Dispatch.MsgTypeUDTS; 0; 3]
  = Fails (UnsupportedTypeError Dispatch.MsgTypeUDTS).
Proof.
  apply (proj2 (parse_message_refuses unit tt (λ _, ret tt)));
    unfold Dispatch.MsgTypeUDTS, Dispatch.MsgTypeUDT, Dispatch.MsgTypeXUDT; lia.
Defined.

Lemma parse_message_udt_witness :
  ∃ v, UDT.UnmarshalBinary (Scenario.plain_frame 6 9) UDT.zero = (v, Ok tt)
       ∧ Dispatch.ParseMessage unit tt (λ _, ret tt) (Scenario.plain_frame 6 9)
         = Returns (Dispatch.MessageUDT unit v)
       ∧ UDT.Type_ v = Dispatch.MsgTypeUDT.
Proof.
  eexists. split; [vm_compute; reflexivity|].
  apply (proj1 (parse_message_udt unit tt (λ _, ret tt)
                  (tail (Scenario.plain_frame 6 9)))).
  vm_compute. reflexivity.
Defined.

(** * The state manager: locks that are free *)

Section NetFacts.
Import SSN Net.

Lemma tbind_run {A B} (m : T A) (k : A → T B) (n n1 : net) (a : A) :
  m n = (n1, Done (Returns a)) → tbind m k n = k a n1.
Proof. intros H. unfold tbind. rewrite H. reflexivity. Qed.

Lemma set_mutex_restore (l : mutex_of) (m : RWMutex) (n : net) :
  free l n → m ≠ unlocked → set_mutex l unlocked (set_mutex l m n) = n.
Proof.
  intros Hf Hm. destruct n as [w tm lg smx mx], l as [|e]; cbn in *.
  - subst. reflexivity.
  - rewrite decide_True by reflexivity. rewrite decide_False by assumption.
    rewrite delete_insert_eq, delete_id by assumption. reflexivity.
Qed.

Lemma mutex_set_mutex (l : mutex_of) (m : RWMutex) (n : net) :
  mutex l (set_mutex l m n) = m.
Proof.
  destruct l as [|e]; cbn; [reflexivity|].
  destruct (decide (m = unlocked)) as [-> | Hm].
  - rewrite lookup_delete_eq. reflexivity.
  - rewrite lookup_insert_eq. reflexivity.
Qed.

Lemma mutex_free (l : mutex_of) (n : net) : free l n → mutex l n = unlocked.
Proof. destruct l; cbn; [tauto|]. intros ->. reflexivity. Qed.

Lemma set_mutex_set_mutex (l : mutex_of) (m m' : RWMutex) (n : net) :
  set_mutex l m' (set_mutex l m n) = set_mutex l m' n.
Proof.
  destruct l as [|e]; cbn; [reflexivity|]. f_equal.
  destruct (decide (m' = unlocked)), (decide (m = unlocked));
    rewrite ?delete_insert_eq, ?insert_insert_eq, ?delete_delete_eq,
      ?insert_delete_eq; reflexivity.
Qed.

(** A lock-free body between [Lock] and the deferred [Unlock], when the
    mutex is free: the body, and the mutex is free again. *)
Lemma locked_lockfree {A} (l : mutex_of) (body : T A) (n : net) :
  free l n → lockfree body →
  (Lock l;;> defer (Unlock l) body) n = body n.
Proof.
  intros Hf Hb. destruct (Hb n) as (n' & o & Hn & Hs & Hm & Hl).
  unfold tbind, Lock, defer. rewrite (mutex_free _ _ Hf).
  cbv beta iota zeta delta [writer readers unlocked orb negb Nat.eqb].
  rewrite Hl. unfold Unlock.
  rewrite mutex_set_mutex. cbv beta iota zeta delta [writer readers].
  rewrite set_mutex_set_mutex.
  change (mkRWMutex false 0) with unlocked.
  assert (Hf' : free l n').
  { destruct l; cbn in *; congruence. }
  rewrite Hn. f_equal.
  rewrite <- (set_mutex_restore l (mkRWMutex true 0) n' Hf') at 2
    by discriminate.
  rewrite set_mutex_set_mutex. reflexivity.
Qed.

Lemma rlocked_lockfree {A} (l : mutex_of) (body : T A) (n : net) :
  free l n → lockfree body →
  (RLock l;;> defer (RUnlock l) body) n = body n.
Proof.
  intros Hf Hb. destruct (Hb n) as (n' & o & Hn & Hs & Hm & Hl).
  unfold tbind, RLock, defer. rewrite (mutex_free _ _ Hf).
  cbv beta iota zeta delta [writer readers unlocked].
  rewrite Hl. unfold RUnlock.
  rewrite mutex_set_mutex. cbv beta iota zeta delta [writer readers].
  rewrite set_mutex_set_mutex.
  change (mkRWMutex false 0) with unlocked.
  assert (Hf' : free l n').
  { destruct l; cbn in *; congruence. }
  rewrite Hn. f_equal.
  rewrite <- (set_mutex_restore l (mkRWMutex true 0) n' Hf') at 2
    by discriminate.
  rewrite set_mutex_set_mutex. reflexivity.
Qed.

(** What is lock-free *)

Lemma lockfree_tret {A} (a : A) : lockfree (tret a).
Proof. intros n. exists n, (Returns a). repeat split. Qed.

Lemma lockfree_tfail {A} (e : gerror) : lockfree (@tfail A e).
Proof. intros n. exists n, (Fails e). repeat split. Qed.

Lemma lockfree_tpanic {A} : lockfree (@tpanic A).
Proof. intros n. exists n, Panics. repeat split. Qed.

Lemma lockfree_in_world {A} (m : M world A) : lockfree (in_world m).
Proof.
  intros n. unfold in_world.
  assert (E : ∀ l x, ssn_world (set_mutex l x n) = ssn_world n)
    by (intros [|e] x; reflexivity).
  destruct (m (ssn_world n)) as [w r] eqn:Hm.
  exists (set_world w n), (outcome_of r). repeat split.
  intros l x. rewrite E, Hm. destruct l; reflexivity.
Qed.

Lemma lockfree_logf (f : string) (a : list logarg) : lockfree (logf f a).
Proof.
  intros n. eexists _, _. repeat split. intros [|e] x; reflexivity.
Qed.

Lemma lockfree_AfterFunc (d : Z) (e : ptr) : lockfree (AfterFunc d e).
Proof.
  intros n. eexists _, _. repeat split. intros [|e'] x; reflexivity.
Qed.

Lemma lockfree_Timer_Stop (t : nat) : lockfree (Timer_Stop t).
Proof.
  intros n. eexists _, _. repeat split. intros [|e'] x; reflexivity.
Qed.

Lemma lockfree_tbind {A B} (m : T A) (k : A → T B) :
  lockfree m → (∀ a, lockfree (k a)) → lockfree (tbind m k).
Proof.
  intros Hm Hk n. destruct (Hm n) as (n1 & o & Hn & Hs & Hx & Hl).
  unfold tbind. destruct o as [a | e |].
  - destruct (Hk a n1) as (n2 & o2 & Hn2 & Hs2 & Hx2 & Hl2).
    exists n2, o2. rewrite Hn. repeat split; try congruence.
    intros l x. rewrite Hl. apply Hl2.
  - exists n1, (Fails e). rewrite Hn. repeat split; try congruence.
    intros l x. rewrite Hl. reflexivity.
  - exists n1, Panics. rewrite Hn. repeat split; try congruence.
    intros l x. rewrite Hl. reflexivity.
Qed.

Lemma lockfree_on_error (m : T unit) (h : gerror → T unit) :
  lockfree m → (∀ e, lockfree (h e)) → lockfree (on_error m h).
Proof.
  intros Hm Hh n. destruct (Hm n) as (n1 & o & Hn & Hs & Hx & Hl).
  unfold on_error. destruct o as [a | e |].
  - exists n1, (Returns a). rewrite Hn. repeat split; try congruence.
    intros l x. rewrite Hl. reflexivity.
  - destruct (Hh e n1) as (n2 & o2 & Hn2 & Hs2 & Hx2 & Hl2).
    exists n2, o2. rewrite Hn. repeat split; try congruence.
    intros l x. rewrite Hl. apply Hl2.
  - exists n1, Panics. rewrite Hn. repeat split; try congruence.
    intros l x. rewrite Hl. reflexivity.
Qed.

End NetFacts.

Create HintDb lockfree.
#[export] Hint Resolve lockfree_tret lockfree_tfail lockfree_tpanic
  lockfree_in_world lockfree_logf lockfree_AfterFunc lockfree_Timer_Stop
  lockfree_on_error : lockfree.

(** Proves that a body made of steps on the world, the timers and the
    log is lock-free. *)
Ltac lockfree :=
  repeat first
    [ apply lockfree_tbind; [| intros ?]
    | progress auto with lockfree
    | match goal with
      | |- Net.lockfree (match ?x with _ => _ end) => destruct x
      | |- Net.lockfree (if ?x then _ else _) => destruct x
      end ].

Section NetRuns.
Import SSN Net.

Lemma lockfree_scheduleSST (e : ptr) : lockfree (scheduleSST e).
Proof. unfold scheduleSST. lockfree. Qed.

Lemma lockfree_startSST_locked (e : ptr) : lockfree (startSST_locked e).
Proof.
  unfold startSST_locked. pose proof lockfree_scheduleSST. lockfree.
Qed.

Lemma lockfree_stopSST_locked (e : ptr) : lockfree (stopSST_locked e).
Proof. unfold stopSST_locked. lockfree. Qed.

Lemma lockfree_sendSST (pc ssn : Z) : lockfree (sendSST pc ssn).
Proof. unfold sendSST. lockfree. Qed.

End NetRuns.

Section NetHandlers.
Import SSN Net.

Lemma Net_IsAllowed_free (e : ptr) (n : net) :
  free (OfEntry e) n → IsAllowed e n = in_world (SSN.IsAllowed e) n.
Proof. intros. apply rlocked_lockfree; auto with lockfree. Qed.

Lemma Net_IsProhibited_free (e : ptr) (n : net) :
  free (OfEntry e) n → IsProhibited e n = in_world (SSN.IsProhibited e) n.
Proof. intros. apply rlocked_lockfree; auto with lockfree. Qed.

Lemma Net_MarkAllowed_free (now : Z) (e : ptr) (n : net) :
  free (OfEntry e) n →
  MarkAllowed now e n = in_world (SSN.MarkAllowed now e) n.
Proof. intros. apply locked_lockfree; auto with lockfree. Qed.

Lemma Net_MarkProhibited_free (now : Z) (e : ptr) (n : net) :
  free (OfEntry e) n →
  MarkProhibited now e n = in_world (SSN.MarkProhibited now e) n.
Proof. intros. apply locked_lockfree; auto with lockfree. Qed.

Lemma Net_GetEntry_free (pc ssn : Z) (n : net) :
  free OfManager n → GetEntry pc ssn n = in_world (SSN.GetEntry pc ssn) n.
Proof. intros. apply rlocked_lockfree; auto with lockfree. Qed.

Lemma Net_AddEntry_free (now pc ssn : Z) (isLocal : bool) (n : net) :
  free OfManager n →
  AddEntry now pc ssn isLocal n
  = in_world (SSN.AddEntry now pc ssn isLocal) n.
Proof. intros. apply locked_lockfree; auto with lockfree. Qed.

Lemma Net_stopSST_free (e : ptr) (n : net) :
  free (OfEntry e) n → stopSST e n = stopSST_locked e n.
Proof.
  intros. apply locked_lockfree; auto using lockfree_stopSST_locked.
Qed.

Lemma startSST_locked_free (e : ptr) (n : net) :
  free (OfEntry e) n →
  (Lock (OfEntry e);;> defer (Unlock (OfEntry e)) (startSST_locked e)) n
  = startSST_locked e n.
Proof.
  intros. apply locked_lockfree; auto using lockfree_startSST_locked.
Qed.

Lemma startSST_remote (e : ptr) (x : SSNEntry) (n : net) :
  free (OfEntry e) n → heap (ssn_world n) !! e = Some x →
  IsLocal x = false → startSST e n = startSST_locked e n.
Proof.
  intros Hf Hx Hl. unfold startSST. unfold tbind at 1.
  unfold in_world, deref. rewrite Hx. cbn [outcome_of]. rewrite Hl.
  destruct n as [w tm lg smx mx]. unfold set_world. cbn [ssn_world timers logs sm_mutex mutexes].
  apply startSST_locked_free. exact Hf.
Qed.

Lemma startSST_local (e : ptr) (x : SSNEntry) (n : net) :
  heap (ssn_world n) !! e = Some x →
  IsLocal x = true → startSST e n = (n, Done (Returns tt)).
Proof.
  intros Hx Hl. unfold startSST. unfold tbind at 1.
  unfold in_world, deref. rewrite Hx. cbn [outcome_of]. rewrite Hl.
  destruct n as [[h s c] tm lg smx mx]. reflexivity.
Qed.

End NetHandlers.

(** Runs the steps of a call on a state whose parts are known. *)
Ltac tsteps :=
  repeat first
    [ progress
        (cbv beta iota zeta delta
           [Net.tbind Net.tret Net.tfail Net.tpanic Net.in_world Net.logf
            Net.AfterFunc Net.Timer_Stop Net.on_error
            Net.OnStateChange_if_set Net.OnBroadcast_if_set
            Net.set_world Net.set_timers Net.set_logs outcome_of
            Net.scheduleSST Net.GetEntry_or_add
            SSN.IsAllowed SSN.IsProhibited SSN.MarkAllowed SSN.MarkProhibited
            SSN.GetEntry SSN.AddEntry SSN.deref SSN.assign SSN.invoke
            SSN.set_entries Net.set_TestTimer Net.set_TestInterval
            Net.set_TestRetries
            modify bind get ret fail panic negb];
         cbn [Net.ssn_world Net.timers Net.logs Net.sm_mutex Net.mutexes
              SSN.heap SSN.sm SSN.calls SSN.entries SSN.DefaultTestInterval
              SSN.MaxTestInterval SSN.MaxTestRetries_ SSN.OnStateChange
              SSN.OnBroadcast SSN.SSN SSN.PointCode SSN.State SSN.IsLocal
              SSN.LastStateChange SSN.TestTimer SSN.TestInterval
              SSN.TestRetries SSN.MaxTestRetries fst snd])
    | rewrite lookup_insert_eq
    | match goal with
      | H : ?h !! ?e = _ |- context [?h !! ?e] => rewrite H
      end
    | rewrite Net_GetEntry_free by (cbn; assumption)
    | rewrite Net_IsAllowed_free by (cbn; assumption)
    | rewrite Net_IsProhibited_free by (cbn; assumption)
    | rewrite Net_MarkAllowed_free by (cbn; assumption)
    | rewrite Net_MarkProhibited_free by (cbn; assumption)
    | rewrite Net_AddEntry_free by (cbn; assumption)
    | rewrite Net_stopSST_free by (cbn; assumption) ].

(** Opens a state of the manager into its parts. *)
Ltac open_net n :=
  let h := fresh "h" in let s := fresh "s" in let c := fresh "c" in
  let tm := fresh "tm" in let lg := fresh "lg" in
  let smx := fresh "smx" in let mx := fresh "mx" in
  destruct n as [[h s c] tm lg smx mx];
  cbv zeta;
  cbn [Net.free Net.ssn_world Net.timers Net.logs Net.sm_mutex Net.mutexes
       SSN.heap SSN.sm SSN.calls] in *.

Section NetCases.
Import SSN Net.

Variables (n : net) (pc ssn : Z).
Hypothesis Hm : free OfManager n.

Let w := ssn_world n.
Let key := getKey pc ssn.

(** *** The entry of a call *)

Lemma GetEntry_or_add_known (now : Z) (e : ptr) :
  entries (sm w) !! key = Some e →
  GetEntry_or_add now pc ssn n = (n, Done (Returns e)).
Proof.
  subst w key. intros Hk. open_net n. unfold GetEntry_or_add. tsteps.
  reflexivity.
Qed.

Lemma GetEntry_or_add_unknown (now : Z) :
  entries (sm w) !! key = None →
  let e := fresh (dom (heap w)) in
  GetEntry_or_add now pc ssn n
  = (mkNet
       (mkWorld
          (<[e := mkSSNEntry ssn pc SSNStateProhibited false now None
                    (DefaultTestInterval (sm w)) 0 (MaxTestRetries_ (sm w))]>
             (heap w))
          (set_entries (<[key := e]> (entries (sm w))) (sm w))
          (calls w))
       (timers n) (logs n) (sm_mutex n) (mutexes n),
     Done (Returns e)).
Proof.
  subst w key. intros Hk. open_net n. unfold GetEntry_or_add. tsteps.
  reflexivity.
Qed.

(** *** HandleUserInService *)

Lemma HandleUserInService_unknown (now : Z) :
  entries (sm w) !! key = None →
  HandleUserInService now pc ssn n
  = (n, Done (Fails (Plain (ErrEntryNotFound pc ssn)))).
Proof.
  subst w key. intros Hk. open_net n. unfold HandleUserInService. tsteps.
  reflexivity.
Qed.

Lemma HandleUserInService_dangling (now : Z) (e : ptr) :
  entries (sm w) !! key = Some e → heap w !! e = None →
  HandleUserInService now pc ssn n = (n, Done Panics).
Proof.
  subst w key. intros Hk Hx. open_net n. unfold HandleUserInService. tsteps.
  reflexivity.
Qed.

Lemma HandleUserInService_remote (now : Z) (e : ptr) (x : SSNEntry) :
  entries (sm w) !! key = Some e → heap w !! e = Some x →
  IsLocal x = false →
  HandleUserInService now pc ssn n = (n, Done (Fails (Plain ErrNotLocal))).
Proof.
  subst w key. intros Hk Hx Hl. open_net n. unfold HandleUserInService.
  tsteps. rewrite Hl. reflexivity.
Qed.

Lemma HandleUserInService_allowed (now : Z) (e : ptr) (x : SSNEntry) :
  free (OfEntry e) n →
  entries (sm w) !! key = Some e → heap w !! e = Some x →
  IsLocal x = true → State x = SSNStateAllowed →
  HandleUserInService now pc ssn n = (n, Done (Returns tt)).
Proof.
  subst w key. intros He Hk Hx Hl Hs. open_net n.
  unfold HandleUserInService. tsteps. rewrite Hl. tsteps. rewrite Hs.
  reflexivity.
Qed.

Lemma HandleUserInService_prohibited (now : Z) (e : ptr) (x : SSNEntry) :
  free (OfEntry e) n →
  entries (sm w) !! key = Some e → heap w !! e = Some x →
  IsLocal x = true → State x = SSNStateProhibited →
  HandleUserInService now pc ssn n
  = (mkNet
       (mkWorld
          (<[e := mkSSNEntry (SSN x) (PointCode x) SSNStateAllowed true now
                    (TestTimer x) (TestInterval x) (TestRetries x)
                    (MaxTestRetries x)]> (heap w))
          (sm w)
          (calls w
           ++ (if OnStateChange (sm w)
               then [CallOnStateChange e SSNStateAllowed ReasonUserInitiated]
               else [])
           ++ (if OnBroadcast (sm w)
               then [CallOnBroadcast BroadcastSSA e]
               else [])))
       (timers n)
       (logs n ++ [Logf "Local subsystem allowed: PC=%d, SSN=%d"
                     [LogInt pc; LogInt ssn]])
       (sm_mutex n) (mutexes n),
     Done (Returns tt)).
Proof.
  subst w key. intros He Hk Hx Hl Hs. open_net n.
  unfold HandleUserInService. tsteps. rewrite Hl. tsteps. rewrite Hs.
  rewrite bool_decide_eq_true_2 by reflexivity. tsteps. rewrite Hl.
  destruct (OnStateChange s); tsteps; destruct (OnBroadcast s); tsteps;
    rewrite <- ?app_assoc, ?app_nil_r; reflexivity.
Qed.

(** *** HandleUserOutOfService *)

Lemma HandleUserOutOfService_unknown (now : Z) :
  entries (sm w) !! key = None →
  HandleUserOutOfService now pc ssn n
  = (n, Done (Fails (Plain (ErrEntryNotFound pc ssn)))).
Proof.
  subst w key. intros Hk. open_net n. unfold HandleUserOutOfService. tsteps.
  reflexivity.
Qed.

Lemma HandleUserOutOfService_remote (now : Z) (e : ptr) (x : SSNEntry) :
  entries (sm w) !! key = Some e → heap w !! e = Some x →
  IsLocal x = false →
  HandleUserOutOfService now pc ssn n
  = (n, Done (Fails (Plain ErrNotLocal))).
Proof.
  subst w key. intros Hk Hx Hl. open_net n. unfold HandleUserOutOfService.
  tsteps. rewrite Hl. reflexivity.
Qed.

Lemma HandleUserOutOfService_prohibited (now : Z) (e : ptr) (x : SSNEntry) :
  free (OfEntry e) n →
  entries (sm w) !! key = Some e → heap w !! e = Some x →
  IsLocal x = true → State x = SSNStateProhibited →
  HandleUserOutOfService now pc ssn n = (n, Done (Returns tt)).
Proof.
  subst w key. intros He Hk Hx Hl Hs. open_net n.
  unfold HandleUserOutOfService. tsteps. rewrite Hl. tsteps. rewrite Hs.
  reflexivity.
Qed.

Lemma HandleUserOutOfService_allowed (now : Z) (e : ptr) (x : SSNEntry) :
  free (OfEntry e) n →
  entries (sm w) !! key = Some e → heap w !! e = Some x →
  IsLocal x = true → State x = SSNStateAllowed →
  HandleUserOutOfService now pc ssn n
  = (mkNet
       (mkWorld
          (<[e := mkSSNEntry (SSN x) (PointCode x) SSNStateProhibited true
                    now None (TestInterval x) 0 (MaxTestRetries x)]> (heap w))
          (sm w)
          (calls w
           ++ (if OnStateChange (sm w)
               then [CallOnStateChange e SSNStateProhibited
                       ReasonUserInitiated]
               else [])
           ++ (if OnBroadcast (sm w)
               then [CallOnBroadcast BroadcastSSP e]
               else [])))
       (match TestTimer x with
        | Some t => alter stopped t (timers n)
        | None => timers n
        end)
       (logs n
        ++ [Logf "Stopped SST for PC=%d, SSN=%d"
              [LogInt (PointCode x); LogInt (SSN x)];
            Logf "Local subsystem prohibited: PC=%d, SSN=%d"
              [LogInt pc; LogInt ssn]])
       (sm_mutex n) (mutexes n),
     Done (Returns tt)).
Proof.
  subst w key. intros He Hk Hx Hl Hs. open_net n.
  unfold HandleUserOutOfService. tsteps. rewrite Hl. tsteps. rewrite Hs.
  rewrite bool_decide_eq_true_2 by reflexivity. tsteps.
  unfold stopSST_locked. tsteps. rewrite Hl.
  destruct (TestTimer x) as [t|] eqn:Ht; tsteps;
    rewrite !insert_insert_eq;
    destruct (OnStateChange s); tsteps; destruct (OnBroadcast s); tsteps;
    rewrite <- ?app_assoc, ?app_nil_r; reflexivity.
Qed.

(** *** HandleSSA *)

Lemma HandleSSA_allowed (now_add now : Z) (e : ptr) (x : SSNEntry) :
  free (OfEntry e) n →
  entries (sm w) !! key = Some e → heap w !! e = Some x →
  State x = SSNStateAllowed →
  HandleSSA now_add now pc ssn n = (n, Done (Returns tt)).
Proof.
  subst w key. intros He Hk Hx Hs. open_net n.
  unfold HandleSSA. tsteps. rewrite Hs. reflexivity.
Qed.

Lemma HandleSSA_prohibited (now_add now : Z) (e : ptr) (x : SSNEntry) :
  free (OfEntry e) n →
  entries (sm w) !! key = Some e → heap w !! e = Some x →
  State x = SSNStateProhibited →
  HandleSSA now_add now pc ssn n
  = (mkNet
       (mkWorld
          (<[e := mkSSNEntry (SSN x) (PointCode x) SSNStateAllowed (IsLocal x)
                    now None (TestInterval x) 0 (MaxTestRetries x)]> (heap w))
          (sm w)
          (calls w
           ++ (if OnStateChange (sm w)
               then [CallOnStateChange e SSNStateAllowed
                       ReasonNetworkInitiated]
               else [])))
       (match TestTimer x with
        | Some t => alter stopped t (timers n)
        | None => timers n
        end)
       (logs n
        ++ [Logf "Stopped SST for PC=%d, SSN=%d"
              [LogInt (PointCode x); LogInt (SSN x)];
            Logf "Remote subsystem allowed: PC=%d, SSN=%d"
              [LogInt pc; LogInt ssn]])
       (sm_mutex n) (mutexes n),
     Done (Returns tt)).
Proof.
  subst w key. intros He Hk Hx Hs. open_net n.
  unfold HandleSSA. tsteps. rewrite Hs.
  rewrite bool_decide_eq_true_2 by reflexivity. tsteps.
  unfold stopSST_locked. tsteps.
  destruct (TestTimer x) as [t|] eqn:Ht; tsteps;
    rewrite !insert_insert_eq;
    destruct (OnStateChange s); tsteps;
    rewrite <- ?app_assoc, ?app_nil_r; reflexivity.
Qed.

Lemma HandleSSA_unknown (now_add now : Z) :
  let e := fresh (dom (heap w)) in
  free (OfEntry e) n →
  entries (sm w) !! key = None →
  HandleSSA now_add now pc ssn n
  = (mkNet
       (mkWorld
          (<[e := mkSSNEntry ssn pc SSNStateAllowed false now None
                    (DefaultTestInterval (sm w)) 0 (MaxTestRetries_ (sm w))]>
             (heap w))
          (set_entries (<[key := e]> (entries (sm w))) (sm w))
          (calls w
           ++ (if OnStateChange (sm w)
               then [CallOnStateChange e SSNStateAllowed
                       ReasonNetworkInitiated]
               else [])))
       (timers n)
       (logs n
        ++ [Logf "Stopped SST for PC=%d, SSN=%d" [LogInt pc; LogInt ssn];
            Logf "Remote subsystem allowed: PC=%d, SSN=%d"
              [LogInt pc; LogInt ssn]])
       (sm_mutex n) (mutexes n),
     Done (Returns tt)).
Proof.
  subst w key. intros e He Hk. subst e. open_net n.
  unfold HandleSSA. tsteps.
  rewrite bool_decide_eq_true_2 by reflexivity. tsteps.
  unfold stopSST_locked. tsteps.
  rewrite !insert_insert_eq.
  destruct (OnStateChange s); tsteps;
    rewrite <- ?app_assoc, ?app_nil_r; reflexivity.
Qed.

(** *** HandleSSP *)

Lemma HandleSSP_prohibited (now_add now : Z) (e : ptr) (x : SSNEntry) :
  free (OfEntry e) n →
  entries (sm w) !! key = Some e → heap w !! e = Some x →
  State x = SSNStateProhibited →
  HandleSSP now_add now pc ssn n = (n, Done (Returns tt)).
Proof.
  subst w key. intros He Hk Hx Hs. open_net n.
  unfold HandleSSP. tsteps. rewrite Hs. reflexivity.
Qed.

Lemma HandleSSP_unknown (now_add now : Z) :
  let e := fresh (dom (heap w)) in
  free (OfEntry e) n →
  entries (sm w) !! key = None →
  HandleSSP now_add now pc ssn n
  = (mkNet
       (mkWorld
          (<[e := mkSSNEntry ssn pc SSNStateProhibited false now_add None
                    (DefaultTestInterval (sm w)) 0 (MaxTestRetries_ (sm w))]>
             (heap w))
          (set_entries (<[key := e]> (entries (sm w))) (sm w))
          (calls w))
       (timers n) (logs n) (sm_mutex n) (mutexes n),
     Done (Returns tt)).
Proof.
  subst w key. intros e He Hk. subst e. open_net n.
  unfold HandleSSP. tsteps. reflexivity.
Qed.

Lemma HandleSSP_allowed_local (now_add now : Z) (e : ptr) (x : SSNEntry) :
  free (OfEntry e) n →
  entries (sm w) !! key = Some e → heap w !! e = Some x →
  State x = SSNStateAllowed → IsLocal x = true →
  HandleSSP now_add now pc ssn n
  = (mkNet
       (mkWorld
          (<[e := mkSSNEntry (SSN x) (PointCode x) SSNStateProhibited true
                    now (TestTimer x) (TestInterval x) (TestRetries x)
                    (MaxTestRetries x)]> (heap w))
          (sm w)
          (calls w
           ++ (if OnStateChange (sm w)
               then [CallOnStateChange e SSNStateProhibited
                       ReasonNetworkInitiated]
               else [])))
       (timers n)
       (logs n
        ++ [Logf "Remote subsystem prohibited: PC=%d, SSN=%d"
              [LogInt pc; LogInt ssn]])
       (sm_mutex n) (mutexes n),
     Done (Returns tt)).
Proof.
  subst w key. intros He Hk Hx Hs Hl. open_net n.
  unfold HandleSSP. tsteps. rewrite Hs.
  rewrite bool_decide_eq_true_2 by reflexivity. tsteps.
  erewrite startSST_local; [| cbn; apply lookup_insert_eq | exact Hl].
  rewrite Hl. tsteps.
  destruct (OnStateChange s); tsteps;
    rewrite <- ?app_assoc, ?app_nil_r; reflexivity.
Qed.

Lemma HandleSSP_allowed_remote (now_add now : Z) (e : ptr) (x : SSNEntry) :
  free (OfEntry e) n →
  entries (sm w) !! key = Some e → heap w !! e = Some x →
  State x = SSNStateAllowed → IsLocal x = false →
  let tm := match TestTimer x with
            | Some t => alter stopped t (timers n)
            | None => timers n
            end in
  let t' := fresh (dom tm) in
  HandleSSP now_add now pc ssn n
  = (mkNet
       (mkWorld
          (<[e := mkSSNEntry (SSN x) (PointCode x) SSNStateProhibited false
                    now (Some t') (DefaultTestInterval (sm w)) 0
                    (MaxTestRetries x)]> (heap w))
          (sm w)
          (calls w
           ++ (if OnStateChange (sm w)
               then [CallOnStateChange e SSNStateProhibited
                       ReasonNetworkInitiated]
               else [])))
       (<[t' := mkTimer (DefaultTestInterval (sm w)) e true]> tm)
       (logs n
        ++ [Logf "Started SST for PC=%d, SSN=%d"
              [LogInt (PointCode x); LogInt (SSN x)];
            Logf "Remote subsystem prohibited: PC=%d, SSN=%d"
              [LogInt pc; LogInt ssn]])
       (sm_mutex n) (mutexes n),
     Done (Returns tt)).
Proof.
  subst w key. intros He Hk Hx Hs Hl. open_net n.
  unfold HandleSSP.
  tsteps. rewrite Hs. rewrite bool_decide_eq_true_2 by reflexivity.
  tsteps.
  erewrite startSST_remote;
    [| exact He | cbn; apply lookup_insert_eq | exact Hl].
  unfold startSST_locked. tsteps. rewrite Hl.
  destruct (TestTimer x) as [t|] eqn:Ht; tsteps;
    rewrite !insert_insert_eq;
    destruct (OnStateChange s); tsteps;
    rewrite <- ?app_assoc, ?app_nil_r; reflexivity.
Qed.

(** *** HandleSST *)

Lemma HandleSST_unknown (now_add : Z) :
  entries (sm w) !! key = None →
  let e := fresh (dom (heap w)) in
  HandleSST now_add pc ssn n
  = (mkNet
       (mkWorld
          (<[e := mkSSNEntry ssn pc SSNStateProhibited false now_add None
                    (DefaultTestInterval (sm w)) 0 (MaxTestRetries_ (sm w))]>
             (heap w))
          (set_entries (<[key := e]> (entries (sm w))) (sm w))
          (calls w))
       (timers n) (logs n) (sm_mutex n) (mutexes n),
     Done (Returns tt)).
Proof.
  subst w key. intros Hk. open_net n.
  unfold HandleSST. tsteps. reflexivity.
Qed.

Lemma HandleSST_remote (now_add : Z) (e : ptr) (x : SSNEntry) :
  entries (sm w) !! key = Some e → heap w !! e = Some x →
  IsLocal x = false →
  HandleSST now_add pc ssn n = (n, Done (Returns tt)).
Proof.
  subst w key. intros Hk Hx Hl. open_net n.
  unfold HandleSST. tsteps. rewrite Hl. tsteps. rewrite Hl. reflexivity.
Qed.

Lemma HandleSST_local_allowed (now_add : Z) (e : ptr) (x : SSNEntry) :
  free (OfEntry e) n →
  entries (sm w) !! key = Some e → heap w !! e = Some x →
  IsLocal x = true → State x = SSNStateAllowed →
  HandleSST now_add pc ssn n
  = (set_logs
       (logs n
        ++ [Logf "Responding to SST with SSA for PC=%d, SSN=%d: %x"
              [LogInt pc; LogInt ssn;
               LogOctets [SCMG.SCMGTypeSSA; ssn; uint8 pc; uint8 (pc ≫ 8);
                          0]]]) n,
     Done (Returns tt)).
Proof.
  subst w key. intros He Hk Hx Hl Hs. open_net n.
  unfold HandleSST. tsteps. rewrite Hl. tsteps. rewrite Hs.
  rewrite bool_decide_eq_true_2 by reflexivity.
  rewrite MarshalBinary_octets. reflexivity.
Qed.

Lemma HandleSST_local_prohibited (now_add : Z) (e : ptr) (x : SSNEntry) :
  free (OfEntry e) n →
  entries (sm w) !! key = Some e → heap w !! e = Some x →
  IsLocal x = true → State x = SSNStateProhibited →
  HandleSST now_add pc ssn n
  = (set_logs
       (logs n
        ++ [Logf "Local subsystem prohibited, not responding to SST: PC=%d, SSN=%d"
              [LogInt pc; LogInt ssn]]) n,
     Done (Returns tt)).
Proof.
  subst w key. intros He Hk Hx Hl Hs. open_net n.
  unfold HandleSST. tsteps. rewrite Hl. tsteps. rewrite Hs.
  rewrite bool_decide_eq_false_2 by discriminate. tsteps. rewrite Hl.
  tsteps. rewrite Hs. reflexivity.
Qed.

End NetCases.

(** * The state manager: what the handlers do *)

Section NetTheorems.
Import SSN Net.

(** X13 — The locks of [HandleUserInService] do not show when they are
    free.  With the mutex of the manager and the mutex of the entry under
    the key not held, the handler with its locks leaves the entries, the
    manager and the callbacks as the handler without locks does, and
    returns the same; it starts and stops no timer, leaves every mutex
    free, and writes one line to the log exactly when it moved a local
    entry from Prohibited to Allowed. *)
Theorem handle_user_in_service_locks (n : net) (now pc ssn : Z) :
  free OfManager n →
  (∀ e, entries (sm (ssn_world n)) !! getKey pc ssn = Some e →
        free (OfEntry e) n) →
  let w := ssn_world n in
  let moved :=
    match entries (sm w) !! getKey pc ssn with
    | Some e =>
        match heap w !! e with
        | Some x => IsLocal x && bool_decide (State x = SSNStateProhibited)
        | None => false
        end
    | None => false
    end in
  HandleUserInService now pc ssn n
  = (mkNet (fst (SSN.HandleUserInService now pc ssn w))
       (timers n)
       (logs n
        ++ (if moved
            then [Logf "Local subsystem allowed: PC=%d, SSN=%d"
                    [LogInt pc; LogInt ssn]]
            else []))
       (sm_mutex n) (mutexes n),
     Done (outcome_of (snd (SSN.HandleUserInService now pc ssn w)))).
Proof.
  intros Hm He. cbv zeta.
  destruct (entries (sm (ssn_world n)) !! getKey pc ssn) as [e|] eqn:Hk.
  - specialize (He e eq_refl).
    destruct (heap (ssn_world n) !! e) as [x|] eqn:Hx.
    + destruct (IsLocal x) eqn:Hl; [destruct (State x) eqn:Hs|].
      * rewrite (HandleUserInService_prohibited n pc ssn Hm now e x)
          by assumption.
        rewrite bool_decide_eq_true_2 by reflexivity.
        open_net n. unfold SSN.HandleUserInService. tsteps. rewrite Hl.
        tsteps. rewrite Hs. rewrite bool_decide_eq_true_2 by reflexivity.
        tsteps. rewrite Hl.
        destruct (OnStateChange s); tsteps; destruct (OnBroadcast s); tsteps;
          rewrite <- ?app_assoc, ?app_nil_r; reflexivity.
      * rewrite (HandleUserInService_allowed n pc ssn Hm now e x)
          by assumption.
        rewrite bool_decide_eq_false_2 by discriminate.
        open_net n. unfold SSN.HandleUserInService. tsteps. rewrite Hl.
        tsteps. rewrite Hs. rewrite bool_decide_eq_false_2 by discriminate.
        tsteps. rewrite app_nil_r. reflexivity.
      * rewrite (HandleUserInService_remote n pc ssn Hm now e x)
          by assumption.
        open_net n. unfold SSN.HandleUserInService. tsteps. rewrite Hl.
        tsteps. rewrite app_nil_r. reflexivity.
    + rewrite (HandleUserInService_dangling n pc ssn Hm now e)
        by assumption.
      open_net n. unfold SSN.HandleUserInService. tsteps.
      rewrite app_nil_r. reflexivity.
  - rewrite (HandleUserInService_unknown n pc ssn Hm now) by assumption.
    open_net n. unfold SSN.HandleUserInService. tsteps.
    rewrite app_nil_r. reflexivity.
Qed.

(** X14 — [HandleUserOutOfService], with the locks free.  With no entry
    under the key it fails with the entry-not-found error, with a remote
    entry with the not-local error, and for a local entry that is
    Prohibited it does nothing.  For a local entry that is Allowed: the
    entry becomes Prohibited at the current time, its timer (if it has
    one) is stopped and forgotten, its retries are 0;
    [OnStateChange(entry, Prohibited, UserInitiated)] then
    [OnBroadcast(SSP, entry)] are called when set; the log gets the
    stopped-SST line and the prohibited line; every mutex is free
    again. *)
Theorem handle_user_out_of_service (n : net) (now pc ssn : Z) :
  free OfManager n →
  let w := ssn_world n in
  (entries (sm w) !! getKey pc ssn = None →
   HandleUserOutOfService now pc ssn n
   = (n, Done (Fails (Plain (ErrEntryNotFound pc ssn)))))
  ∧
  (∀ e x, entries (sm w) !! getKey pc ssn = Some e → heap w !! e = Some x →
     free (OfEntry e) n →
     (IsLocal x = false →
      HandleUserOutOfService now pc ssn n
      = (n, Done (Fails (Plain ErrNotLocal))))
     ∧
     (IsLocal x = true → State x = SSNStateProhibited →
      HandleUserOutOfService now pc ssn n = (n, Done (Returns tt)))
     ∧
     (IsLocal x = true → State x = SSNStateAllowed →
      HandleUserOutOfService now pc ssn n
      = (mkNet
           (mkWorld
              (<[e := mkSSNEntry (SSN x) (PointCode x) SSNStateProhibited
                        true now None (TestInterval x) 0 (MaxTestRetries x)]>
                 (heap w))
              (sm w)
              (calls w
               ++ (if OnStateChange (sm w)
                   then [CallOnStateChange e SSNStateProhibited
                           ReasonUserInitiated]
                   else [])
               ++ (if OnBroadcast (sm w)
                   then [CallOnBroadcast BroadcastSSP e]
                   else [])))
           (match TestTimer x with
            | Some t => alter stopped t (timers n)
            | None => timers n
            end)
           (logs n
            ++ [Logf "Stopped SST for PC=%d, SSN=%d"
                  [LogInt (PointCode x); LogInt (SSN x)];
                Logf "Local subsystem prohibited: PC=%d, SSN=%d"
                  [LogInt pc; LogInt ssn]])
           (sm_mutex n) (mutexes n),
         Done (Returns tt)))).
Proof.
  intros Hm. cbv zeta. split.
  - apply HandleUserOutOfService_unknown, Hm.
  - intros e x Hk Hx He. repeat split.
    + intros Hl. eapply HandleUserOutOfService_remote; eassumption.
    + intros Hl Hs. eapply HandleUserOutOfService_prohibited; eassumption.
    + intros Hl Hs. apply HandleUserOutOfService_allowed; assumption.
Qed.

(** X15 — [HandleSSA], with the locks free.  An unknown subsystem is
    registered as remote and, since a new entry is Prohibited, at once
    made Allowed.  A known entry that is Prohibited, local or remote,
    becomes Allowed at the current time, its timer (if it has one) is
    stopped and forgotten and its retries are 0.  In both cases
    [OnStateChange(entry, Allowed, NetworkInitiated)] is called when set,
    [OnBroadcast] is not, and the log gets the stopped-SST line and the
    allowed line.  A known entry that is Allowed is left as it is, and
    nothing is called or logged. *)
Theorem handle_ssa (n : net) (now_add now pc ssn : Z) :
  free OfManager n →
  let w := ssn_world n in
  (let e := fresh (dom (heap w)) in
   entries (sm w) !! getKey pc ssn = None → free (OfEntry e) n →
   HandleSSA now_add now pc ssn n
   = (mkNet
        (mkWorld
           (<[e := mkSSNEntry ssn pc SSNStateAllowed false now None
                     (DefaultTestInterval (sm w)) 0
                     (MaxTestRetries_ (sm w))]> (heap w))
           (set_entries (<[getKey pc ssn := e]> (entries (sm w))) (sm w))
           (calls w
            ++ (if OnStateChange (sm w)
                then [CallOnStateChange e SSNStateAllowed
                        ReasonNetworkInitiated]
                else [])))
        (timers n)
        (logs n
         ++ [Logf "Stopped SST for PC=%d, SSN=%d" [LogInt pc; LogInt ssn];
             Logf "Remote subsystem allowed: PC=%d, SSN=%d"
               [LogInt pc; LogInt ssn]])
        (sm_mutex n) (mutexes n),
      Done (Returns tt)))
  ∧
  (∀ e x, entries (sm w) !! getKey pc ssn = Some e → heap w !! e = Some x →
     free (OfEntry e) n →
     (State x = SSNStateProhibited →
      HandleSSA now_add now pc ssn n
      = (mkNet
           (mkWorld
              (<[e := mkSSNEntry (SSN x) (PointCode x) SSNStateAllowed
                        (IsLocal x) now None (TestInterval x) 0
                        (MaxTestRetries x)]> (heap w))
              (sm w)
              (calls w
               ++ (if OnStateChange (sm w)
                   then [CallOnStateChange e SSNStateAllowed
                           ReasonNetworkInitiated]
                   else [])))
           (match TestTimer x with
            | Some t => alter stopped t (timers n)
            | None => timers n
            end)
           (logs n
            ++ [Logf "Stopped SST for PC=%d, SSN=%d"
                  [LogInt (PointCode x); LogInt (SSN x)];
                Logf "Remote subsystem allowed: PC=%d, SSN=%d"
                  [LogInt pc; LogInt ssn]])
           (sm_mutex n) (mutexes n),
         Done (Returns tt)))
     ∧
     (State x = SSNStateAllowed →
      HandleSSA now_add now pc ssn n = (n, Done (Returns tt)))).
Proof.
  intros Hm. cbv zeta. split.
  - intros Hk He. apply HandleSSA_unknown; assumption.
  - intros e x Hk Hx He. split; intros Hs.
    + apply HandleSSA_prohibited; assumption.
    + eapply HandleSSA_allowed; eassumption.
Qed.

(** X16 — [HandleSSP], with the locks free.  For an unknown subsystem
    it only registers a remote entry: a new entry is Prohibited, so there
    is no transition, no timer, no callback and no line in the log.  A
    known entry that is Prohibited is left as it is.  A known entry that
    is Allowed becomes Prohibited at the current time and
    [OnStateChange(entry, Prohibited, NetworkInitiated)] is called when
    set; if it is remote, its former timer is stopped and one new timer
    is started for it with the default test interval, with retries 0; if
    it is local, no timer is started. *)
Theorem handle_ssp (n : net) (now_add now pc ssn : Z) :
  free OfManager n →
  let w := ssn_world n in
  (let e := fresh (dom (heap w)) in
   entries (sm w) !! getKey pc ssn = None → free (OfEntry e) n →
   HandleSSP now_add now pc ssn n
   = (mkNet
        (mkWorld
           (<[e := mkSSNEntry ssn pc SSNStateProhibited false now_add None
                     (DefaultTestInterval (sm w)) 0
                     (MaxTestRetries_ (sm w))]> (heap w))
           (set_entries (<[getKey pc ssn := e]> (entries (sm w))) (sm w))
           (calls w))
        (timers n) (logs n) (sm_mutex n) (mutexes n),
      Done (Returns tt)))
  ∧
  (∀ e x, entries (sm w) !! getKey pc ssn = Some e → heap w !! e = Some x →
     free (OfEntry e) n →
     (State x = SSNStateProhibited →
      HandleSSP now_add now pc ssn n = (n, Done (Returns tt)))
     ∧
     (State x = SSNStateAllowed → IsLocal x = false →
      let tm := match TestTimer x with
                | Some t => alter stopped t (timers n)
                | None => timers n
                end in
      let t' := fresh (dom tm) in
      HandleSSP now_add now pc ssn n
      = (mkNet
           (mkWorld
              (<[e := mkSSNEntry (SSN x) (PointCode x) SSNStateProhibited
                        false now (Some t') (DefaultTestInterval (sm w)) 0
                        (MaxTestRetries x)]> (heap w))
              (sm w)
              (calls w
               ++ (if OnStateChange (sm w)
                   then [CallOnStateChange e SSNStateProhibited
                           ReasonNetworkInitiated]
                   else [])))
           (<[t' := mkTimer (DefaultTestInterval (sm w)) e true]> tm)
           (logs n
            ++ [Logf "Started SST for PC=%d, SSN=%d"
                  [LogInt (PointCode x); LogInt (SSN x)];
                Logf "Remote subsystem prohibited: PC=%d, SSN=%d"
                  [LogInt pc; LogInt ssn]])
           (sm_mutex n) (mutexes n),
         Done (Returns tt)))
     ∧
     (State x = SSNStateAllowed → IsLocal x = true →
      HandleSSP now_add now pc ssn n
      = (mkNet
           (mkWorld
              (<[e := mkSSNEntry (SSN x) (PointCode x) SSNStateProhibited
                        true now (TestTimer x) (TestInterval x)
                        (TestRetries x) (MaxTestRetries x)]> (heap w))
              (sm w)
              (calls w
               ++ (if OnStateChange (sm w)
                   then [CallOnStateChange e SSNStateProhibited
                           ReasonNetworkInitiated]
                   else [])))
           (timers n)
           (logs n
            ++ [Logf "Remote subsystem prohibited: PC=%d, SSN=%d"
                  [LogInt pc; LogInt ssn]])
           (sm_mutex n) (mutexes n),
         Done (Returns tt)))).
Proof.
  intros Hm. cbv zeta. split.
  - intros Hk He. apply HandleSSP_unknown; assumption.
  - intros e x Hk Hx He. repeat split.
    + intros Hs. eapply HandleSSP_prohibited; eassumption.
    + intros Hs Hl. apply HandleSSP_allowed_remote; assumption.
    + intros Hs Hl. apply HandleSSP_allowed_local; assumption.
Qed.

(** X17 — [HandleSST], with the locks free.  It changes the state of no
    entry, calls no callback and touches no timer.  An unknown subsystem
    is registered as a remote entry and nothing is logged.  For a known
    remote entry nothing happens at all.  For a local entry that is
    Allowed the log gets the response line with the five octets of the
    SSA message (type 1, the subsystem number, the point code
    little-endian, multiplicity 0); for one that is Prohibited it gets
    the not-responding line.  The call never fails. *)
Theorem handle_sst (n : net) (now_add pc ssn : Z) :
  free OfManager n →
  let w := ssn_world n in
  (let e := fresh (dom (heap w)) in
   entries (sm w) !! getKey pc ssn = None →
   HandleSST now_add pc ssn n
   = (mkNet
        (mkWorld
           (<[e := mkSSNEntry ssn pc SSNStateProhibited false now_add None
                     (DefaultTestInterval (sm w)) 0
                     (MaxTestRetries_ (sm w))]> (heap w))
           (set_entries (<[getKey pc ssn := e]> (entries (sm w))) (sm w))
           (calls w))
        (timers n) (logs n) (sm_mutex n) (mutexes n),
      Done (Returns tt)))
  ∧
  (∀ e x, entries (sm w) !! getKey pc ssn = Some e → heap w !! e = Some x →
     (IsLocal x = false →
      HandleSST now_add pc ssn n = (n, Done (Returns tt)))
     ∧
     (free (OfEntry e) n → IsLocal x = true → State x = SSNStateAllowed →
      HandleSST now_add pc ssn n
      = (set_logs
           (logs n
            ++ [Logf "Responding to SST with SSA for PC=%d, SSN=%d: %x"
                  [LogInt pc; LogInt ssn;
                   LogOctets [SCMG.SCMGTypeSSA; ssn; uint8 pc;
                              uint8 (pc ≫ 8); 0]]]) n,
         Done (Returns tt)))
     ∧
     (free (OfEntry e) n → IsLocal x = true → State x = SSNStateProhibited →
      HandleSST now_add pc ssn n
      = (set_logs
           (logs n
            ++ [Logf "Local subsystem prohibited, not responding to SST: PC=%d, SSN=%d"
                  [LogInt pc; LogInt ssn]]) n,
         Done (Returns tt)))).
Proof.
  intros Hm. cbv zeta. split.
  - intros Hk. apply HandleSST_unknown; assumption.
  - intros e x Hk Hx. repeat split.
    + intros Hl. eapply HandleSST_remote; eassumption.
    + intros He Hl Hs. eapply HandleSST_local_allowed; eassumption.
    + intros He Hl Hs. eapply HandleSST_local_prohibited; eassumption.
Qed.

End NetTheorems.

(** * The state manager: the SST loop *)

Section NetSST.
Import SSN Net.

Lemma performSST_run (e : ptr) (n : net) :
  let m := mutex (OfEntry e) n in
  performSST e n
  = (if writer m || negb (Nat.eqb (readers m) 0) then n
     else set_mutex (OfEntry e) (mkRWMutex true (readers m)) n,
     Blocked).
Proof.
  cbv zeta. unfold performSST, tbind, Lock. cbv zeta.
  destruct (writer (mutex (OfEntry e) n)
            || negb (Nat.eqb (readers (mutex (OfEntry e) n)) 0));
    [reflexivity|].
  unfold defer, performSST_locked, tbind, IsAllowed, tbind, RLock.
  cbv zeta. rewrite mutex_set_mutex. reflexivity.
Qed.

Lemma held_IsAllowed (e : ptr) (n : net) :
  writer (mutex (OfEntry e) n) = true → IsAllowed e n = (n, Blocked).
Proof.
  intros Hw. unfold IsAllowed, tbind, RLock. cbv zeta. rewrite Hw.
  reflexivity.
Qed.

Lemma held_IsProhibited (e : ptr) (n : net) :
  writer (mutex (OfEntry e) n) = true → IsProhibited e n = (n, Blocked).
Proof.
  intros Hw. unfold IsProhibited, tbind, RLock. cbv zeta. rewrite Hw.
  reflexivity.
Qed.

Lemma held_Lock (e : ptr) (n : net) :
  writer (mutex (OfEntry e) n) = true → Lock (OfEntry e) n = (n, Blocked).
Proof. intros Hw. unfold Lock. cbv zeta. rewrite Hw. reflexivity. Qed.

Lemma set_world_same (n : net) : set_world (ssn_world n) n = n.
Proof. destruct n. reflexivity. Qed.

Lemma GetEntry_or_add_held (now pc ssn : Z) (e : ptr) (n : net) :
  free OfManager n →
  entries (sm (ssn_world n)) !! getKey pc ssn = Some e →
  GetEntry_or_add now pc ssn n = (n, Done (Returns e)).
Proof. intros. apply GetEntry_or_add_known; assumption. Qed.

(** X18 — [performSST] never returns.  It takes the mutex of the entry
    for writing and then calls [IsAllowed] on the same entry, which
    waits for that mutex: the call stays there (or at its own [Lock], if
    the mutex was held).  So it sends no SST, counts no retry and
    schedules no timer: the entries, the timers and the log are as they
    were; and if the mutex was free it is now held for writing. *)
Theorem perform_sst_never_returns (e : ptr) (n : net) :
  let n' := fst (performSST e n) in
  snd (performSST e n) = Blocked
  ∧ ssn_world n' = ssn_world n ∧ timers n' = timers n ∧ logs n' = logs n
  ∧ sm_mutex n' = sm_mutex n
  ∧ (free (OfEntry e) n →
     mutexes n' = <[e := mkRWMutex true 0]> (mutexes n)).
Proof.
  cbv zeta. rewrite performSST_run. cbv zeta. cbn [fst snd].
  split; [reflexivity|].
  destruct (writer (mutex (OfEntry e) n)
            || negb (Nat.eqb (readers (mutex (OfEntry e) n)) 0)) eqn:Hh.
  - repeat split. intros Hf. rewrite (mutex_free _ _ Hf) in Hh.
    discriminate Hh.
  - destruct n as [w tm lg smx mx]. cbn. repeat split.
    intros Hf. rewrite Hf. reflexivity.
Qed.

Lemma fire_run (t : nat) (tm : Timer) (n : net) :
  timers n !! t = Some tm → pending tm = true →
  free (OfEntry (target tm)) n →
  fire t n
  = (mkNet (ssn_world n) (<[t := stopped tm]> (timers n)) (logs n)
       (sm_mutex n) (<[target tm := mkRWMutex true 0]> (mutexes n)),
     Blocked).
Proof.
  intros Ht Hp Hf. unfold fire. rewrite Ht, Hp. rewrite performSST_run.
  cbv zeta. destruct n as [w ts lg smx mx]. cbn in Hf |- *. rewrite Hf.
  reflexivity.
Qed.

(** X19 — A timer that fires leaves its entry locked.  When a pending
    timer fires and the mutex of its entry is free, the call of
    [performSST] stays in the state where that mutex is held for
    writing.  In that state every call that needs the entry waits:
    [IsAllowed], [IsProhibited], and, for a key of that entry,
    [HandleSSA] and [HandleSSP]; for a local entry also
    [HandleUserInService], [HandleUserOutOfService] and [HandleSST].
    None of them changes the state. *)
Theorem fired_timer_locks_its_entry (n : net) (t : nat) (tm : Timer) :
  timers n !! t = Some tm → pending tm = true →
  free (OfEntry (target tm)) n →
  let e := target tm in
  let n' := mkNet (ssn_world n) (<[t := stopped tm]> (timers n)) (logs n)
              (sm_mutex n) (<[e := mkRWMutex true 0]> (mutexes n)) in
  fire t n = (n', Blocked)
  ∧ IsAllowed e n' = (n', Blocked)
  ∧ IsProhibited e n' = (n', Blocked)
  ∧ ∀ pc ssn x,
      free OfManager n →
      entries (sm (ssn_world n)) !! getKey pc ssn = Some e →
      heap (ssn_world n) !! e = Some x →
      (∀ now_add now, HandleSSA now_add now pc ssn n' = (n', Blocked))
      ∧ (∀ now_add now, HandleSSP now_add now pc ssn n' = (n', Blocked))
      ∧ (IsLocal x = true →
         (∀ now, HandleUserInService now pc ssn n' = (n', Blocked))
         ∧ (∀ now, HandleUserOutOfService now pc ssn n' = (n', Blocked))
         ∧ (∀ now_add, HandleSST now_add pc ssn n' = (n', Blocked))).
Proof.
  intros Ht Hp Hf. cbv zeta.
  set (n' := mkNet _ _ _ _ _).
  assert (Hw : writer (mutex (OfEntry (target tm)) n') = true).
  { subst n'. cbn. rewrite lookup_insert_eq. reflexivity. }
  split; [apply fire_run; assumption|].
  split; [apply held_IsAllowed, Hw|].
  split; [apply held_IsProhibited, Hw|].
  intros pc ssn x Hm Hk Hx.
  assert (Hm' : free OfManager n') by exact Hm.
  assert (Hk' : entries (sm (ssn_world n')) !! getKey pc ssn
                = Some (target tm)) by exact Hk.
  assert (Hx' : heap (ssn_world n') !! target tm = Some x) by exact Hx.
  assert (Hd : in_world (deref (target tm)) n' = (n', Done (Returns x))).
  { unfold in_world, deref. rewrite Hx'. cbn [outcome_of].
    rewrite set_world_same. reflexivity. }
  assert (Hg : GetEntry pc ssn n' = (n', Done (Returns (Some (target tm))))).
  { rewrite Net_GetEntry_free by exact Hm'.
    unfold in_world, SSN.GetEntry, bind, get, ret. rewrite Hk'.
    cbn [outcome_of]. rewrite set_world_same. reflexivity. }
  clearbody n'. repeat split.
  - intros now_add now. unfold HandleSSA.
    rewrite (tbind_run _ _ _ _ _
               (GetEntry_or_add_held now_add pc ssn _ n' Hm' Hk')).
    unfold tbind. rewrite (held_IsProhibited _ _ Hw). reflexivity.
  - intros now_add now. unfold HandleSSP.
    rewrite (tbind_run _ _ _ _ _
               (GetEntry_or_add_held now_add pc ssn _ n' Hm' Hk')).
    unfold tbind. rewrite (held_IsAllowed _ _ Hw). reflexivity.
  - intros now. unfold HandleUserInService.
    rewrite (tbind_run _ _ _ _ _ Hg). rewrite (tbind_run _ _ _ _ _ Hd).
    rewrite H. cbn [negb]. unfold tbind.
    rewrite (held_IsProhibited _ _ Hw). reflexivity.
  - intros now. unfold HandleUserOutOfService.
    rewrite (tbind_run _ _ _ _ _ Hg). rewrite (tbind_run _ _ _ _ _ Hd).
    rewrite H. cbn [negb]. unfold tbind.
    rewrite (held_IsAllowed _ _ Hw). reflexivity.
  - intros now_add. unfold HandleSST.
    rewrite (tbind_run _ _ _ _ _
               (GetEntry_or_add_held now_add pc ssn _ n' Hm' Hk')).
    rewrite (tbind_run _ _ _ _ _ Hd). rewrite H. unfold tbind.
    rewrite (held_IsAllowed _ _ Hw). reflexivity.
Qed.

(** X20 — An SSA after an SSP stops the test.  For a remote entry that
    is Allowed, with the locks free, [HandleSSP] followed by [HandleSSA]
    for the same subsystem both return: the entry is Allowed again, at
    the time of the second call, with no timer, retries 0 and the default
    test interval; the timer that [HandleSSP] started is in the timers,
    stopped, and does nothing if it fires; the callbacks that are set
    saw Prohibited then Allowed, both network initiated. *)
Theorem ssa_after_ssp_stops_test (n : net) (a1 now1 a2 now2 pc ssn : Z)
    (e : ptr) (x : SSNEntry) :
  free OfManager n → free (OfEntry e) n →
  entries (sm (ssn_world n)) !! getKey pc ssn = Some e →
  heap (ssn_world n) !! e = Some x →
  State x = SSNStateAllowed → IsLocal x = false →
  let w := ssn_world n in
  let tm := match TestTimer x with
            | Some t => alter stopped t (timers n)
            | None => timers n
            end in
  let t' := fresh (dom tm) in
  let n2 :=
    mkNet
      (mkWorld
         (<[e := mkSSNEntry (SSN x) (PointCode x) SSNStateAllowed false
                   now2 None (DefaultTestInterval (sm w)) 0
                   (MaxTestRetries x)]> (heap w))
         (sm w)
         (calls w
          ++ (if OnStateChange (sm w)
              then [CallOnStateChange e SSNStateProhibited
                      ReasonNetworkInitiated;
                    CallOnStateChange e SSNStateAllowed
                      ReasonNetworkInitiated]
              else [])))
      (<[t' := mkTimer (DefaultTestInterval (sm w)) e false]> tm)
      (logs n
       ++ [Logf "Started SST for PC=%d, SSN=%d"
             [LogInt (PointCode x); LogInt (SSN x)];
           Logf "Remote subsystem prohibited: PC=%d, SSN=%d"
             [LogInt pc; LogInt ssn];
           Logf "Stopped SST for PC=%d, SSN=%d"
             [LogInt (PointCode x); LogInt (SSN x)];
           Logf "Remote subsystem allowed: PC=%d, SSN=%d"
             [LogInt pc; LogInt ssn]])
      (sm_mutex n) (mutexes n) in
  (HandleSSP a1 now1 pc ssn;;> HandleSSA a2 now2 pc ssn) n
  = (n2, Done (Returns tt))
  ∧ fire t' n2 = (n2, Done (Returns tt)).
Proof.
  intros Hm He Hk Hx Hs Hl. cbv zeta. split.
  - unfold tbind at 1.
    rewrite (HandleSSP_allowed_remote n pc ssn Hm a1 now1 e x)
      by assumption.
    cbv zeta.
    erewrite HandleSSA_prohibited;
      [| exact Hm | exact He | exact Hk
       | cbn [ssn_world heap]; apply lookup_insert_eq | reflexivity].
    cbn [ssn_world timers logs sm_mutex mutexes heap sm calls SSN.SSN
         PointCode State IsLocal TestTimer TestInterval TestRetries
         MaxTestRetries].
    rewrite insert_insert_eq, alter_insert_eq. unfold stopped at 1.
    cbn [duration target pending].
    destruct (OnStateChange (sm (ssn_world n)));
      rewrite <- ?app_assoc, ?app_nil_r; reflexivity.
  - unfold fire. cbn [timers]. rewrite lookup_insert_eq. reflexivity.
Qed.

(** X21 — From the octets of an SCMG message to the handler.  For the
    message that [ParseSCMG] decodes from a buffer, [ProcessSCMGMessage]
    is the handler of the first octet: [HandleSSA] for 1, [HandleSSP] for
    2, [HandleSST] for 3, called with the point code that octets 2 and 3
    hold little-endian and the subsystem number of octet 1.  For every
    other type (SOR, SOG, SSC and the unassigned ones) it writes one line
    to the log, changes nothing else and returns no error. *)
Theorem process_scmg_message_routes (b : list Z) (s : SCMG.SCMG)
    (now_add now : Z) (n : net) :
  SCMG.ParseSCMG b = Ok s →
  ∃ t a lo hi rest,
    b = t :: a :: lo :: hi :: rest ∧
    let pc := Z.lor lo (hi ≪ 8) in
    ProcessSCMGMessage now_add now s n
    = if t =? SCMG.SCMGTypeSSA then HandleSSA now_add now pc a n
      else if t =? SCMG.SCMGTypeSSP then HandleSSP now_add now pc a n
      else if t =? SCMG.SCMGTypeSST then HandleSST now_add pc a n
      else (set_logs
              (logs n ++ [Logf "Unhandled SCMG message type: %v" [LogInt t]])
              n,
            Done (Returns tt)).
Proof.
  intros Hp. unfold SCMG.ParseSCMG in Hp.
  destruct (Z_lt_le_dec (len b) 5) as [Hlt | Hge].
  - rewrite UnmarshalBinary_short in Hp by assumption. discriminate Hp.
  - destruct b as [|t [|a [|lo [|hi [|m rest]]]]];
      try (unfold len in Hge; cbn [length] in Hge; lia).
    exists t, a, lo, hi, (m :: rest). split; [reflexivity|].
    rewrite UnmarshalBinary_long in Hp. cbv zeta in Hp.
    assert (Hs : SCMG.Type_ s = t ∧ SCMG.AffectedSSN s = a
                 ∧ SCMG.AffectedPC s = Z.lor lo (hi ≪ 8)).
    { destruct (t =? SCMG.SCMGTypeSSC); [destruct rest|];
        inversion Hp; subst s; repeat split. }
    destruct Hs as (Ht & Ha & Hpc).
    unfold ProcessSCMGMessage. cbv zeta. rewrite Ht, Ha, Hpc.
    destruct (t =? SCMG.SCMGTypeSSA); [reflexivity|].
    destruct (t =? SCMG.SCMGTypeSSP); [reflexivity|].
    destruct (t =? SCMG.SCMGTypeSST); reflexivity.
Qed.

End NetSST.

(** * The state manager: what every sequence of calls keeps *)

Section NetSound.
Import SSN Net.

Lemma sound_of_update_keep h en ts e x x' :
  sound_of h en ts → h !! e = Some x →
  TestTimer x' = TestTimer x →
  (is_Some (TestTimer x') →
   IsLocal x' = false ∧ State x' = SSNStateProhibited) →
  sound_of (<[e := x']> h) en ts.
Proof.
  intros (H1 & H2 & H3) Hx Ht Hx'. split; [|split].
  - intros k e0 Hk. apply lookup_insert_is_Some'. right. eauto.
  - intros e0 x0 H0 Hs. destruct (decide (e0 = e)) as [-> | Hne].
    + rewrite lookup_insert_eq in H0. injection H0 as <-.
      apply Hx'. assumption.
    + rewrite lookup_insert_ne in H0 by congruence. eapply H2; eassumption.
  - intros t tm Htm Hp. destruct (H3 t tm Htm Hp) as (x0 & Hx0 & Ht0).
    destruct (decide (target tm = e)) as [He | Hne].
    + exists x'. rewrite He, lookup_insert_eq. split; [reflexivity|].
      rewrite He, Hx in Hx0. injection Hx0 as <-. congruence.
    + exists x0. rewrite lookup_insert_ne by congruence. auto.
Qed.

(** The timers once the timer of [x] is stopped. *)
Lemma pending_after_stop (ts : gmap nat Timer) (o : option nat) t tm :
  match o with Some t0 => alter stopped t0 ts | None => ts end !! t = Some tm →
  pending tm = true →
  ts !! t = Some tm ∧ o ≠ Some t.
Proof.
  destruct o as [t0|]; [|intros; split; [assumption | discriminate]].
  destruct (decide (t0 = t)) as [-> | Hne].
  - rewrite lookup_alter_eq. destruct (ts !! t) as [tm0|]; cbn; [|discriminate].
    intros [= <-]. cbn. discriminate.
  - rewrite lookup_alter_ne by assumption. intros Ht _. split; congruence.
Qed.

Lemma sound_of_update_stop h en ts e x x' :
  sound_of h en ts → h !! e = Some x →
  TestTimer x' = None →
  sound_of (<[e := x']> h) en
    (match TestTimer x with
     | Some t => alter stopped t ts
     | None => ts
     end).
Proof.
  intros (H1 & H2 & H3) Hx Ht. split; [|split].
  - intros k e0 Hk. apply lookup_insert_is_Some'. right. eauto.
  - intros e0 x0 H0 Hs. destruct (decide (e0 = e)) as [-> | Hne].
    + rewrite lookup_insert_eq in H0. injection H0 as <-.
      rewrite Ht in Hs. destruct Hs as [? [=]].
    + rewrite lookup_insert_ne in H0 by congruence. eapply H2; eassumption.
  - intros t tm Htm Hp.
    destruct (pending_after_stop _ _ _ _ Htm Hp) as [Htm' Hn].
    destruct (H3 t tm Htm' Hp) as (x0 & Hx0 & Ht0).
    destruct (decide (target tm = e)) as [He | Hne].
    + rewrite He, Hx in Hx0. injection Hx0 as <-. congruence.
    + exists x0. rewrite lookup_insert_ne by congruence. auto.
Qed.

Lemma sound_of_update_start h en ts e x x' d :
  sound_of h en ts → h !! e = Some x →
  let ts1 := match TestTimer x with
             | Some t => alter stopped t ts
             | None => ts
             end in
  let t' := fresh (dom ts1) in
  TestTimer x' = Some t' → IsLocal x' = false →
  State x' = SSNStateProhibited →
  sound_of (<[e := x']> h) en (<[t' := mkTimer d e true]> ts1).
Proof.
  intros (H1 & H2 & H3) Hx ts1 t' Ht Hl Hs. split; [|split].
  - intros k e0 Hk. apply lookup_insert_is_Some'. right. eauto.
  - intros e0 x0 H0 Hs0. destruct (decide (e0 = e)) as [-> | Hne].
    + rewrite lookup_insert_eq in H0. injection H0 as <-. auto.
    + rewrite lookup_insert_ne in H0 by congruence. eapply H2; eassumption.
  - intros t tm Htm Hp. destruct (decide (t = t')) as [-> | Hne].
    + rewrite lookup_insert_eq in Htm. injection Htm as <-. cbn.
      exists x'. rewrite lookup_insert_eq. auto.
    + rewrite lookup_insert_ne in Htm by congruence.
      destruct (pending_after_stop _ _ _ _ Htm Hp) as [Htm' Hn].
      destruct (H3 t tm Htm' Hp) as (x0 & Hx0 & Ht0).
      destruct (decide (target tm = e)) as [He | Hne'].
      * rewrite He, Hx in Hx0. injection Hx0 as <-. congruence.
      * exists x0. rewrite lookup_insert_ne by congruence. auto.
Qed.

Lemma sound_of_register h en ts k x' :
  sound_of h en ts → TestTimer x' = None →
  let e := fresh (dom h) in
  sound_of (<[e := x']> h) (<[k := e]> en) ts.
Proof.
  intros (H1 & H2 & H3) Ht e.
  assert (Hfresh : h !! e = None).
  { apply not_elem_of_dom. apply is_fresh. }
  split; [|split].
  - intros k0 e0 Hk. apply lookup_insert_is_Some'.
    destruct (decide (k0 = k)) as [-> | Hne].
    + rewrite lookup_insert_eq in Hk. injection Hk as <-. left. reflexivity.
    + rewrite lookup_insert_ne in Hk by congruence. right. eauto.
  - intros e0 x0 H0 Hs. destruct (decide (e0 = e)) as [-> | Hne].
    + rewrite lookup_insert_eq in H0. injection H0 as <-.
      rewrite Ht in Hs. destruct Hs as [? [=]].
    + rewrite lookup_insert_ne in H0 by congruence. eapply H2; eassumption.
  - intros t tm Htm Hp. destruct (H3 t tm Htm Hp) as (x0 & Hx0 & Ht0).
    exists x0. rewrite lookup_insert_ne by congruence. auto.
Qed.

Lemma calm_free (l : mutex_of) (n : net) : calm n → free l n.
Proof.
  intros [Hs Hm]. destruct l; cbn; [assumption|]. rewrite Hm.
  apply lookup_empty.
Qed.

Section Calls.

Variable n : net.
Hypothesis Hc : calm n.
Hypothesis Hs : sound n.
Variables pc ssn : Z.

Let Hm : free OfManager n := calm_free OfManager n Hc.

Lemma stays (o : outcome unit) :
  (o = Returns tt ∨ ∃ err, o = Fails err) → goes_on (n, Done o).
Proof.
  intros Ho. exists n. split; [|split; assumption].
  destruct Ho as [-> | [err ->]]; eauto.
Qed.

Lemma logged_goes_on (l : list logline) :
  goes_on (set_logs l n, Done (Returns tt)).
Proof.
  exists (set_logs l n). split; [left; reflexivity|].
  split; [exact Hc | exact Hs].
Qed.

Lemma entry_of_key (e : ptr) :
  entries (sm (ssn_world n)) !! getKey pc ssn = Some e →
  ∃ x, heap (ssn_world n) !! e = Some x.
Proof. intros Hk. destruct Hs as (H1 & _). exact (H1 _ _ Hk). Qed.

Lemma no_timer_if_local (e : ptr) (x : SSNEntry) :
  heap (ssn_world n) !! e = Some x → IsLocal x = true →
  ¬ is_Some (TestTimer x).
Proof.
  intros Hx Hl Ht. destruct Hs as (_ & H2 & _).
  destruct (H2 _ _ Hx Ht) as [Hl' _]. congruence.
Qed.

Lemma AddEntry_goes_on (now : Z) (isLocal : bool) :
  goes_on ((AddEntry now pc ssn isLocal;;> tret tt) n).
Proof.
  unfold tbind. rewrite Net_AddEntry_free by exact Hm.
  destruct Hc as [Hc1 Hc2]. open_net n. tsteps.
  eexists. split; [left; reflexivity|]. split; [split; assumption|].
  apply sound_of_register; [exact Hs | reflexivity].
Qed.

Lemma HandleUserInService_goes_on (now : Z) :
  goes_on (HandleUserInService now pc ssn n).
Proof.
  destruct (entries (sm (ssn_world n)) !! getKey pc ssn) as [e|] eqn:Hk.
  - destruct (entry_of_key e Hk) as [x Hx].
    pose proof (calm_free (OfEntry e) n Hc) as He.
    destruct (IsLocal x) eqn:Hl; [destruct (State x) eqn:Hst|].
    + rewrite (HandleUserInService_prohibited n pc ssn Hm now e x)
        by assumption.
      eexists. split; [left; reflexivity|]. split; [exact Hc|].
      eapply sound_of_update_keep; [exact Hs | exact Hx | reflexivity |].
      cbn. intros Ht. destruct (no_timer_if_local e x Hx Hl Ht).
    + rewrite (HandleUserInService_allowed n pc ssn Hm now e x)
        by assumption.
      apply stays. auto.
    + rewrite (HandleUserInService_remote n pc ssn Hm now e x)
        by assumption.
      apply stays. eauto.
  - rewrite (HandleUserInService_unknown n pc ssn Hm now) by assumption.
    apply stays. eauto.
Qed.

Lemma HandleUserOutOfService_goes_on (now : Z) :
  goes_on (HandleUserOutOfService now pc ssn n).
Proof.
  destruct (entries (sm (ssn_world n)) !! getKey pc ssn) as [e|] eqn:Hk.
  - destruct (entry_of_key e Hk) as [x Hx].
    pose proof (calm_free (OfEntry e) n Hc) as He.
    destruct (IsLocal x) eqn:Hl; [destruct (State x) eqn:Hst|].
    + rewrite (HandleUserOutOfService_prohibited n pc ssn Hm now e x)
        by assumption.
      apply stays. auto.
    + rewrite (HandleUserOutOfService_allowed n pc ssn Hm now e x)
        by assumption.
      eexists. split; [left; reflexivity|]. split; [exact Hc|].
      eapply sound_of_update_stop; [exact Hs | exact Hx | reflexivity].
    + rewrite (HandleUserOutOfService_remote n pc ssn Hm now e x)
        by assumption.
      apply stays. eauto.
  - rewrite (HandleUserOutOfService_unknown n pc ssn Hm now) by assumption.
    apply stays. eauto.
Qed.

Lemma HandleSSA_goes_on (now_add now : Z) :
  goes_on (HandleSSA now_add now pc ssn n).
Proof.
  destruct (entries (sm (ssn_world n)) !! getKey pc ssn) as [e|] eqn:Hk.
  - destruct (entry_of_key e Hk) as [x Hx].
    pose proof (calm_free (OfEntry e) n Hc) as He.
    destruct (State x) eqn:Hst.
    + rewrite (HandleSSA_prohibited n pc ssn Hm now_add now e x)
        by assumption.
      eexists. split; [left; reflexivity|]. split; [exact Hc|].
      eapply sound_of_update_stop; [exact Hs | exact Hx | reflexivity].
    + rewrite (HandleSSA_allowed n pc ssn Hm now_add now e x) by assumption.
      apply stays. auto.
  - rewrite (HandleSSA_unknown n pc ssn Hm now_add now)
      by (apply calm_free, Hc || assumption).
    eexists. split; [left; reflexivity|]. split; [exact Hc|].
    apply sound_of_register; [exact Hs | reflexivity].
Qed.

Lemma HandleSSP_goes_on (now_add now : Z) :
  goes_on (HandleSSP now_add now pc ssn n).
Proof.
  destruct (entries (sm (ssn_world n)) !! getKey pc ssn) as [e|] eqn:Hk.
  - destruct (entry_of_key e Hk) as [x Hx].
    pose proof (calm_free (OfEntry e) n Hc) as He.
    destruct (State x) eqn:Hst; [|destruct (IsLocal x) eqn:Hl].
    + rewrite (HandleSSP_prohibited n pc ssn Hm now_add now e x)
        by assumption.
      apply stays. auto.
    + rewrite (HandleSSP_allowed_local n pc ssn Hm now_add now e x)
        by assumption.
      eexists. split; [left; reflexivity|]. split; [exact Hc|].
      eapply sound_of_update_keep; [exact Hs | exact Hx | reflexivity |].
      cbn. intros Ht. destruct (no_timer_if_local e x Hx Hl Ht).
    + rewrite (HandleSSP_allowed_remote n pc ssn Hm now_add now e x)
        by assumption.
      eexists. split; [left; reflexivity|]. split; [exact Hc|].
      eapply sound_of_update_start;
        [exact Hs | exact Hx | reflexivity | reflexivity | reflexivity].
  - rewrite (HandleSSP_unknown n pc ssn Hm now_add now)
      by (apply calm_free, Hc || assumption).
    eexists. split; [left; reflexivity|]. split; [exact Hc|].
    apply sound_of_register; [exact Hs | reflexivity].
Qed.

Lemma HandleSST_goes_on (now_add : Z) :
  goes_on (HandleSST now_add pc ssn n).
Proof.
  destruct (entries (sm (ssn_world n)) !! getKey pc ssn) as [e|] eqn:Hk.
  - destruct (entry_of_key e Hk) as [x Hx].
    pose proof (calm_free (OfEntry e) n Hc) as He.
    destruct (IsLocal x) eqn:Hl; [destruct (State x) eqn:Hst|].
    + rewrite (HandleSST_local_prohibited n pc ssn Hm now_add e x)
        by assumption.
      apply logged_goes_on.
    + rewrite (HandleSST_local_allowed n pc ssn Hm now_add e x)
        by assumption.
      apply logged_goes_on.
    + rewrite (HandleSST_remote n pc ssn Hm now_add e x) by assumption.
      apply stays. auto.
  - rewrite (HandleSST_unknown n pc ssn Hm now_add) by assumption.
    eexists. split; [left; reflexivity|]. split; [exact Hc|].
    apply sound_of_register; [exact Hs | reflexivity].
Qed.

End Calls.

Lemma serve_goes_on (n : net) (r : request) :
  calm n → sound n → goes_on (serve r n).
Proof.
  intros Hc Hs. destruct r; cbn [serve].
  - apply AddEntry_goes_on; assumption.
  - apply HandleUserInService_goes_on; assumption.
  - apply HandleUserOutOfService_goes_on; assumption.
  - apply HandleSSA_goes_on; assumption.
  - apply HandleSSP_goes_on; assumption.
  - apply HandleSST_goes_on; assumption.
  - unfold ProcessSCMGMessage. cbv zeta.
    destruct (_ =? SCMG.SCMGTypeSSA); [apply HandleSSA_goes_on; assumption|].
    destruct (_ =? SCMG.SCMGTypeSSP); [apply HandleSSP_goes_on; assumption|].
    destruct (_ =? SCMG.SCMGTypeSST); [apply HandleSST_goes_on; assumption|].
    apply logged_goes_on; assumption.
Qed.

Lemma serve_all_goes_on (rs : list request) (n : net) :
  calm n → sound n →
  ∃ n', serve_all rs n = (n', Done (Returns tt)) ∧ calm n' ∧ sound n'.
Proof.
  revert n. induction rs as [|r rs IH]; intros n Hc Hs.
  - exists n. auto.
  - cbn [serve_all].
    destruct (serve_goes_on n r Hc Hs) as (n1 & [-> | [err ->]] & Hc1 & Hs1);
      apply IH; assumption.
Qed.

(** X22 — Calls one after the other keep the manager in order.  From a
    state where no lock is held and that is sound, every sequence of
    calls of [AddEntry], the two user handlers, the three message
    handlers and [ProcessSCMGMessage] runs to its end: no call panics or
    waits for a lock (a call may return an error).  At the end no lock is
    held, every key leads to an entry, an entry that has a timer is
    remote and Prohibited, and a timer that is still to fire is the timer
    of its entry, so that an entry has at most one such timer. *)
Theorem calls_keep_the_manager_sound (rs : list request) (n : net) :
  calm n → sound n →
  ∃ n', serve_all rs n = (n', Done (Returns tt))
        ∧ calm n' ∧ sound n'
        ∧ ∀ t1 t2 tm1 tm2,
            timers n' !! t1 = Some tm1 → timers n' !! t2 = Some tm2 →
            pending tm1 = true → pending tm2 = true →
            target tm1 = target tm2 → t1 = t2.
Proof.
  intros Hc Hs.
  destruct (serve_all_goes_on rs n Hc Hs) as (n' & Hr & Hc' & Hs').
  exists n'. split; [exact Hr|]. split; [exact Hc'|]. split; [exact Hs'|].
  intros t1 t2 tm1 tm2 H1 H2 Hp1 Hp2 Ht.
  destruct Hs' as (_ & _ & H3).
  destruct (H3 _ _ H1 Hp1) as (x1 & Hx1 & Ht1).
  destruct (H3 _ _ H2 Hp2) as (x2 & Hx2 & Ht2).
  rewrite Ht in Hx1. congruence.
Qed.

End NetSound.

(** * The keys of the entries *)

Section Keys.
Import SSN.

Lemma pretty_N_char_colon_free (x : N) (s : string) :
  colon_free s = true → colon_free (String (pretty_N_char x) s) = true.
Proof.
  intros Hs. cbn [colon_free]. rewrite Hs, andb_true_r.
  unfold pretty_N_char. repeat case_match; reflexivity.
Qed.

Lemma pretty_N_go_colon_free (x : N) (s : string) :
  colon_free s = true → colon_free (pretty_N_go x s) = true.
Proof.
  revert s. induction (N.lt_wf_0 x) as [x _ IH]. intros s Hs.
  destruct (N.eq_dec x 0%N) as [-> | Hx].
  - rewrite pretty_N_go_0. exact Hs.
  - rewrite pretty_N_go_step by lia. apply IH.
    + apply N.div_lt; lia.
    + apply pretty_N_char_colon_free, Hs.
Qed.

Lemma pretty_N_colon_free (x : N) : colon_free (pretty x) = true.
Proof.
  unfold pretty, pretty_N. destruct (decide (x = 0%N)); [reflexivity|].
  apply pretty_N_go_colon_free. reflexivity.
Qed.

Lemma pretty_Z_colon_free (z : Z) : colon_free (pretty z) = true.
Proof.
  destruct z as [|p|p].
  - reflexivity.
  - apply (pretty_N_colon_free (Npos p)).
  - change (colon_free (String "-"%char (pretty (Npos p))) = true).
    cbn [colon_free]. rewrite pretty_N_colon_free. reflexivity.
Qed.

Lemma split_at_colon (s1 s2 t1 t2 : string) :
  colon_free s1 = true → colon_free s2 = true →
  s1 +:+ ":" +:+ t1 = s2 +:+ ":" +:+ t2 → s1 = s2 ∧ t1 = t2.
Proof.
  revert s2. induction s1 as [|c s1 IH]; intros [|c2 s2] H1 H2 He;
    simpl in H1, H2; cbv [String.append] in He;
    fold String.append in He.
  - injection He as ->. auto.
  - injection He as <- _. simpl in H2. discriminate H2.
  - injection He as -> _. simpl in H1. discriminate H1.
  - injection He as -> He.
    apply andb_true_iff in H1 as [_ H1]. apply andb_true_iff in H2 as [_ H2].
    destruct (IH s2 H1 H2 He) as [-> ->]. auto.
Qed.

Lemma getKey_inj (pc ssn pc' ssn' : Z) :
  getKey pc ssn = getKey pc' ssn' → pc = pc' ∧ ssn = ssn'.
Proof.
  unfold getKey. intros He.
  apply split_at_colon in He as [Hp Hs]; try apply pretty_Z_colon_free.
  split; apply (inj pretty); assumption.
Qed.

(** X23 — Two subsystems never share a key.  [getKey] gives different
    keys to different pairs of point code and subsystem number.  So
    [AddEntry] for one subsystem leaves what [GetEntry] returns for every
    other subsystem as it was, and since the new entry is at a pointer of
    its own, every entry that was there is left as it was. *)
Theorem keys_do_not_collide (pc ssn pc' ssn' : Z) :
  (pc, ssn) ≠ (pc', ssn') →
  getKey pc ssn ≠ getKey pc' ssn'
  ∧ ∀ now isLocal w,
      let w' := fst (AddEntry now pc' ssn' isLocal w) in
      snd (GetEntry pc ssn w') = snd (GetEntry pc ssn w)
      ∧ ∀ e x, heap w !! e = Some x → heap w' !! e = Some x.
Proof.
  intros Hne.
  assert (Hk : getKey pc ssn ≠ getKey pc' ssn').
  { intros He. apply getKey_inj in He as [-> ->]. apply Hne. reflexivity. }
  split; [exact Hk|]. intros now isLocal [h s c]. cbv zeta.
  unfold AddEntry, GetEntry, assign, modify, bind, get, ret.
  cbv beta iota zeta. cbn [heap sm calls fst snd entries set_entries].
  split.
  - rewrite lookup_insert_ne by congruence. reflexivity.
  - intros e x Hx. rewrite lookup_insert_ne; [exact Hx|].
    intros <-. pose proof (is_fresh (dom h)) as Hf.
    apply not_elem_of_dom in Hf. congruence.
Qed.

Lemma keys_do_not_collide_witness :
  getKey 10 7 ≠ getKey 1 7
  ∧ snd (GetEntry 10 7 (fst (AddEntry 8 1 7 false World.in_service)))
    = snd (GetEntry 10 7 World.in_service).
Proof.
  assert (Hne : (10, 7) ≠ (1, 7)) by (intros [=]).
  split.
  - exact (proj1 (keys_do_not_collide 10 7 1 7 Hne)).
  - exact (proj1 (proj2 (keys_do_not_collide 10 7 1 7 Hne)
                    8 false World.in_service)).
Defined.

End Keys.

(** * The state manager on the states of the scenarios *)

Section NetWitnesses.
Import SSN Net.

Lemma calm_start_states :
  calm start ∧ calm listening ∧ calm remote_allowed ∧ calm remote_testing
  ∧ calm local_registered ∧ calm local_allowed.
Proof. repeat split; vm_compute; reflexivity. Qed.

Lemma handle_user_in_service_locks_witness :
  HandleUserInService 6 10 7 local_registered
  = (local_allowed, Done (Returns tt)).
Proof.
  etransitivity.
  - apply (handle_user_in_service_locks local_registered 6 10 7).
    + vm_compute. reflexivity.
    + intros e _. apply calm_free, calm_start_states.
  - vm_compute. reflexivity.
Defined.

Lemma handle_user_out_of_service_witness :
  HandleUserOutOfService 9 10 7 listening
  = (listening, Done (Fails (Plain (ErrEntryNotFound 10 7))))
  ∧ ∃ n', HandleUserOutOfService 9 10 7 local_allowed
          = (n', Done (Returns tt))
          ∧ heap (ssn_world n') !! 0%nat
            = Some (mkSSNEntry 7 10 SSNStateProhibited true 9 None
                      (30 * second) 0 5)
          ∧ calls (ssn_world n')
            = calls (ssn_world local_allowed)
              ++ [CallOnStateChange 0%nat SSNStateProhibited
                    ReasonUserInitiated;
                  CallOnBroadcast BroadcastSSP 0%nat].
Proof.
  split.
  - apply (proj1 (handle_user_out_of_service listening 9 10 7 eq_refl)).
    vm_compute. reflexivity.
  - eexists. split; [|split].
    + refine (proj2 (proj2 (proj2
                (handle_user_out_of_service local_allowed 9 10 7 _)
                0%nat
                (mkSSNEntry 7 10 SSNStateAllowed true 6 None (30 * second)
                   0 5) _ _ _)) _ _);
        vm_compute; reflexivity.
    + vm_compute. reflexivity.
    + vm_compute. reflexivity.
Defined.

Lemma handle_ssa_witness :
  ∃ n', HandleSSA 1 2 10 7 listening = (n', Done (Returns tt))
        ∧ heap (ssn_world n') !! 0%nat
          = Some (mkSSNEntry 7 10 SSNStateAllowed false 2 None
                    (30 * second) 0 5)
        ∧ calls (ssn_world n')
          = [CallOnStateChange 0%nat SSNStateAllowed ReasonNetworkInitiated].
Proof.
  eexists. split; [|split].
  - refine (proj1 (handle_ssa listening 1 2 10 7 _) _ _);
      vm_compute; reflexivity.
  - vm_compute. reflexivity.
  - vm_compute. reflexivity.
Defined.

Lemma handle_ssp_witness :
  (∃ n', HandleSSP 3 4 10 7 listening = (n', Done (Returns tt))
         ∧ timers n' = ∅ ∧ calls (ssn_world n') = [])
  ∧ ∃ n', HandleSSP 3 4 10 7 remote_allowed = (n', Done (Returns tt))
          ∧ heap (ssn_world n') !! 0%nat
            = Some (mkSSNEntry 7 10 SSNStateProhibited false 4 (Some 0%nat)
                      (30 * second) 0 5)
          ∧ timers n' = {[0%nat := mkTimer (30 * second) 0%nat true]}.
Proof.
  split.
  - eexists. split; [|split].
    + refine (proj1 (handle_ssp listening 3 4 10 7 _) _ _);
        vm_compute; reflexivity.
    + reflexivity.
    + reflexivity.
  - eexists. split; [|split].
    + refine (proj1 (proj2 (proj2 (handle_ssp remote_allowed 3 4 10 7 _)
                0%nat
                (mkSSNEntry 7 10 SSNStateAllowed false 2 None (30 * second)
                   0 5) _ _ _)) _ _);
        vm_compute; reflexivity.
    + vm_compute. reflexivity.
    + vm_compute. reflexivity.
Defined.

Lemma handle_sst_witness :
  HandleSST 7 10 7 remote_allowed = (remote_allowed, Done (Returns tt))
  ∧ HandleSST 7 10 7 local_allowed
    = (set_logs
         (logs local_allowed
          ++ [Logf "Responding to SST with SSA for PC=%d, SSN=%d: %x"
                [LogInt 10; LogInt 7; LogOctets [1; 7; 10; 0; 0]]])
         local_allowed,
       Done (Returns tt)).
Proof.
  split.
  - refine (proj1 (proj2 (handle_sst remote_allowed 7 10 7 _) 0%nat
              (mkSSNEntry 7 10 SSNStateAllowed false 2 None (30 * second)
                 0 5) _ _) _);
      vm_compute; reflexivity.
  - refine (proj1 (proj2 (proj2 (handle_sst local_allowed 7 10 7 _) 0%nat
              (mkSSNEntry 7 10 SSNStateAllowed true 6 None (30 * second)
                 0 5) _ _)) _ _ _);
      vm_compute; reflexivity.
Defined.

Lemma fired_timer_locks_its_entry_witness :
  ∃ n', fire 0 remote_testing = (n', Blocked)
        ∧ logs n' = logs remote_testing
        ∧ IsAllowed 0 n' = (n', Blocked)
        ∧ HandleSSA 5 6 10 7 n' = (n', Blocked).
Proof.
  pose proof (fired_timer_locks_its_entry remote_testing 0%nat
                (mkTimer (30 * second) 0%nat true))
    as H.
  cbv zeta in H.
  destruct H as (Hf & Ha & _ & Hh);
    [vm_compute; reflexivity | reflexivity | vm_compute; reflexivity |].
  eexists. split; [exact Hf|]. split; [reflexivity|]. split; [exact Ha|].
  refine (proj1 (Hh 10 7
            (mkSSNEntry 7 10 SSNStateProhibited false 4 (Some 0%nat)
               (30 * second) 0 5) _ _ _) 5 6);
    vm_compute; reflexivity.
Defined.

Lemma ssa_after_ssp_stops_test_witness :
  ∃ n2, (HandleSSP 3 4 10 7;;> HandleSSA 5 6 10 7) remote_allowed
        = (n2, Done (Returns tt))
        ∧ heap (ssn_world n2) !! 0%nat
          = Some (mkSSNEntry 7 10 SSNStateAllowed false 6 None
                    (30 * second) 0 5)
        ∧ timers n2 = {[0%nat := mkTimer (30 * second) 0%nat false]}.
Proof.
  eexists. split; [|split].
  - refine (proj1 (ssa_after_ssp_stops_test remote_allowed 3 4 5 6 10 7
              0%nat
              (mkSSNEntry 7 10 SSNStateAllowed false 2 None (30 * second)
                 0 5) _ _ _ _ _ _));
      vm_compute; reflexivity.
  - vm_compute. reflexivity.
  - vm_compute. reflexivity.
Defined.

Lemma process_scmg_message_routes_witness :
  ProcessSCMGMessage 1 2 (SCMG.mkSCMG 1 7 10 0 0) start
  = HandleSSA 1 2 10 7 start.
Proof.
  destruct (process_scmg_message_routes [1; 7; 10; 0; 0]
              (SCMG.mkSCMG 1 7 10 0 0) 1 2 start eq_refl)
    as (t & a & lo & hi & rest & Hb & H).
  injection Hb as <- <- <- <- <-. exact H.
Defined.

Lemma sound_start : sound start.
Proof.
  split; [|split]; cbn.
  - intros k e H. rewrite lookup_empty in H. discriminate H.
  - intros e x H. rewrite lookup_empty in H. discriminate H.
  - intros t tm H. rewrite lookup_empty in H. discriminate H.
Qed.

Lemma calls_keep_the_manager_sound_witness :
  ∃ n', serve_all a_day start = (n', Done (Returns tt))
        ∧ calm n' ∧ sound n'.
Proof.
  destruct (calls_keep_the_manager_sound a_day start
              (proj1 calm_start_states) sound_start)
    as (n' & Hr & Hc & Hs & _).
  exists n'. auto.
Defined.

End NetWitnesses.

(** * The protocol class of a new UDT, and the SST that is sent *)

Section ClassAndSST.
Import params UDT UDTMethods.

Lemma NewUDT_ProtocolClass (pcls : Z) (retOnErr : bool)
    (cdpa cgpa : PartyAddress) (data : list Z) :
  UDT.ProtocolClass (NewUDT pcls retOnErr cdpa cgpa data)
  = Some (NewProtocolClass pcls retOnErr)
  ∧ Type_ (NewUDT pcls retOnErr cdpa cgpa data) = MsgTypeUDT.
Proof. split; reflexivity. Qed.

(** X24 — [NewUDT] takes every protocol class; the validation is a
    separate call.  For a class from 0 to 15, [GetProtocolClassInfo] of
    the new UDT gives back the class and the return option;
    [IsValidForProcessing] holds exactly for the classes 0 and 1, and for
    the others [ValidateProtocolClass] returns the invalid-class error
    with that class. *)
Theorem new_udt_class_validation (pcls : Z) (retOnErr : bool)
    (cdpa cgpa : PartyAddress) (data : list Z) :
  0 ≤ pcls < 16 →
  let u := NewUDT pcls retOnErr cdpa cgpa data in
  GetProtocolClassInfo u = (pcls, retOnErr)
  ∧ (IsValidForProcessing u = true ↔ pcls = 0 ∨ pcls = 1)
  ∧ (2 ≤ pcls →
     ValidateProtocolClass u = Err (ErrInvalidProtocolClass pcls))
  ∧ MessageType u = Type_ u.
Proof.
  intros Hp. cbv zeta.
  destruct (NewUDT_ProtocolClass pcls retOnErr cdpa cgpa data) as [Hc Ht].
  unfold GetProtocolClassInfo, IsValidForProcessing, ValidateProtocolClass,
    MessageType.
  rewrite Hc, Ht. cbv zeta.
  assert (Hcases : pcls = 0 ∨ pcls = 1 ∨ pcls = 2 ∨ pcls = 3 ∨ pcls = 4
                   ∨ pcls = 5 ∨ pcls = 6 ∨ pcls = 7 ∨ pcls = 8 ∨ pcls = 9
                   ∨ pcls = 10 ∨ pcls = 11 ∨ pcls = 12 ∨ pcls = 13
                   ∨ pcls = 14 ∨ pcls = 15) by lia.
  clear Hc Ht Hp.
  destruct retOnErr;
    repeat (destruct Hcases as [-> | Hcases]); try subst pcls;
    (split; [reflexivity|]);
    (split; [split; [intros H; first [discriminate H | lia]
                    | intros H; first [reflexivity | lia]]|]);
    (split; [intros H; first [reflexivity | lia] | reflexivity]).
Qed.

Lemma new_udt_class_validation_witness :
  GetProtocolClassInfo (NewUDT 1 true Scenario.called Scenario.calling
                          Scenario.payload)
  = (1, true)
  ∧ ValidateProtocolClass (NewUDT 2 false Scenario.called Scenario.calling
                             Scenario.payload)
    = Err (ErrInvalidProtocolClass 2).
Proof.
  split.
  - apply (new_udt_class_validation 1 true). lia.
  - apply (new_udt_class_validation 2 false); lia.
Defined.

End ClassAndSST.

Section SendSST.
Import SSN Net.

(** X25 — [sendSST] never fails.  The SST message always encodes, so
    the call returns no error on every state: it writes two lines to the
    log, the second with the five octets of the message (type 3, the
    subsystem number, the point code little-endian, multiplicity 0), and
    changes nothing else.  The line for a failed send in [performSST] is
    never written. *)
Theorem send_sst_never_fails (pc ssn : Z) (n : net) :
  sendSST pc ssn n
  = (set_logs
       (logs n
        ++ [Logf "Sending SST to PC=%d, SSN=%d" [LogInt pc; LogInt ssn];
            Logf "SST message bytes: %x"
              [LogOctets [SCMG.SCMGTypeSST; ssn; uint8 pc; uint8 (pc ≫ 8);
                          0]]])
       n,
     Done (Returns tt))
  ∧ on_error (sendSST pc ssn)
      (λ err, logf "Failed to send SST: %v" [LogError err]) n
    = sendSST pc ssn n.
Proof.
  assert (E : sendSST pc ssn n
              = (set_logs
                   (logs n
                    ++ [Logf "Sending SST to PC=%d, SSN=%d"
                          [LogInt pc; LogInt ssn];
                        Logf "SST message bytes: %x"
                          [LogOctets [SCMG.SCMGTypeSST; ssn; uint8 pc;
                                      uint8 (pc ≫ 8); 0]]])
                   n,
                 Done (Returns tt))).
  { unfold sendSST. cbv zeta. rewrite MarshalBinary_octets.
    destruct n as [w tm lg smx mx]. unfold tbind, logf, set_logs.
    cbn [ssn_world timers logs sm_mutex mutexes SCMG.Type_ SCMG.AffectedSSN
         SCMG.AffectedPC SCMG.SubsystemMultiplicityIndicator SCMG.NewSCMG].
    rewrite <- app_assoc. reflexivity. }
  split; [exact E|]. unfold on_error. rewrite E. reflexivity.
Qed.

End SendSST.
